(** * BigQueryService (backend/app/database.py): a shallow embedding

    The service builds analytical queries, sends them to a remote query
    engine and reshapes the rows it gets back.  The development has these
    parts:

    - [Py]: the Python values the service computes with (None, bool, int,
      binary64 float, str, dict), the builtin operations the source applies
      to them, and a state-and-exception monad in which the logger and the
      dictionary a loop body fills in are explicit state; every operation of
      the service is a coroutine, out of which a StopIteration leaves as
      RuntimeError;
    - [Sql]: the queries the service issues, as syntax trees with one
      constructor per query template of the source, the frames that come
      back and how a row of a frame is read;
    - [Db]: the methods of [BigQueryService], one definition per method,
      with the query engine an oracle [client] held by the service;
    - [Warehouse]: what the query templates mean over tables given as lists
      of records, for the templates whose answers the properties depend on.
      A text reaches the engine as the literal meant only when it holds no
      quote, backslash or line break; LIMIT and OFFSET are INT64 values; and
      ORDER BY leaves the order of tied rows to the scan of each query;
    - [Shape] and [Sample]: predicates on the values returned, and a small
      warehouse to run the definitions on;
    - the properties. *)

From Stdlib Require Import ZArith List Floats Lia Bool.
From Stdlib Require OrderedTypeEx.
From stdpp Require Import base option gmap strings list sorting.

Set Warnings "-inexact-float,-register-all".
Set Default Proof Using "Type".
Open Scope Z_scope.

(** ** Python values and builtins *)

Module Py.

(** Exceptions, all of them subclasses of [Exception].  [ClientError] is
    anything the query-engine client raises. *)
Inductive exn : Type :=
| TypeError
| ValueError
| OverflowError
| ZeroDivisionError
| KeyError (key : string)
| AttributeError (name : string)
| IndexError
| StopIteration
| RuntimeError
| ClientError (msg : string).

Inductive pyval : Type :=
| VNone
| VBool (b : bool)
| VInt (n : Z)
| VFloat (f : float)
| VStr (s : string)
| VDict (d : gmap string pyval).

(** A result row, a pandas record or a plain dict with string keys. *)
Abbreviation row := (gmap string pyval).

(** *** Binary64 helpers *)

(** Correctly rounded (to nearest, ties to even) value of [m * 2^e]. *)
Definition float_of_scaled (m e : Z) : float :=
  SF2Prim (binary_normalize prec emax m e false).

(** [float(n)] for an int: correctly rounded, [OverflowError] when the
    int is too large for a float. *)
Definition float_of_int (n : Z) : exn + float :=
  let f := float_of_scaled n 0 in
  if is_infinity f then inl OverflowError else inr f.

(** Correctly rounded quotient of two naturals, [b > 0], with sign [neg].
    The quotient is taken with at least 64 significant bits and a sticky
    bit, then rounded once. *)
Definition float_of_quotient (neg : bool) (a b : Z) : float :=
  if a =? 0 then (if neg then neg_zero else zero) else
  let k := Z.max 0 (64 + Z.log2 b - Z.log2 a) in
  let n := a * 2 ^ k in
  let q := n / b in
  let sticky := if n mod b =? 0 then 0 else 1 in
  let m := 2 * q + sticky in
  float_of_scaled (if neg then - m else m) (- k - 1).

(** [a / b] on ints: true division, correctly rounded. *)
Definition int_truediv (a b : Z) : exn + float :=
  if b =? 0 then inl ZeroDivisionError else
  let f := float_of_quotient (xorb (a <? 0) (b <? 0)) (Z.abs a) (Z.abs b) in
  if is_infinity f then inl OverflowError else inr f.

(** The integer part of a finite float, toward zero. *)
Definition trunc_SF (x : spec_float) : option Z :=
  match x with
  | S754_zero _ => Some 0
  | S754_finite s m e =>
      let n := if 0 <=? e then Zpos m * 2 ^ e else Zpos m / 2 ^ (- e) in
      Some (if s then - n else n)
  | S754_infinity _ | S754_nan => None
  end.

(** [int(f)] for a float: [ValueError] on NaN, [OverflowError] on an
    infinity. *)
Definition int_of_float (f : float) : exn + Z :=
  match Prim2SF f with
  | S754_nan => inl ValueError
  | S754_infinity _ => inl OverflowError
  | x => match trunc_SF x with Some n => inr n | None => inl ValueError end
  end.

(** Nearest integer to [m * 2^e] ([m >= 0]); [even] chooses ties-to-even,
    otherwise ties go away from zero. *)
Definition round_scaled (even : bool) (m e : Z) : Z :=
  if 0 <=? e then m * 2 ^ e else
  let d := 2 ^ (- e) in
  let q := m / d in
  let r := m mod d in
  match 2 * r ?= d with
  | Lt => q
  | Gt => q + 1
  | Eq => if even && Z.even q then q else q + 1
  end.

(** Rounding of a float to [ndigits] >= 0 decimals, computed on the exact
    value of the float and rounded back once. *)
Definition round_decimal (even : bool) (f : float) (ndigits : Z) : float :=
  match Prim2SF f with
  | S754_finite s m e =>
      let p := 10 ^ ndigits in
      float_of_quotient s (round_scaled even (Zpos m * p) e) p
  | _ => f
  end.

(** [round(f, ndigits)] of a float. *)
Definition round_float (f : float) (ndigits : Z) : float :=
  round_decimal true f ndigits.

(** Nearest integral float, ties to even ([numpy.rint]). *)
Definition rint (f : float) : float :=
  match Prim2SF f with
  | S754_finite s m e =>
      if 0 <=? e then f else float_of_quotient s (round_scaled true (Zpos m) e) 1
  | _ => f
  end.

(** [round(x, ndigits)] of a numpy float64 scalar, which numpy computes by
    scaling: [rint(x * 10**ndigits) / 10**ndigits]. *)
Definition np_round_float (f : float) (ndigits : Z) : float :=
  let p := float_of_scaled (10 ^ ndigits) 0 in
  (rint (f * p) / p)%float.

(** *** Builtin operations on values *)

(** Truth value ([bool(v)]). *)
Definition truthy (v : pyval) : bool :=
  match v with
  | VNone => false
  | VBool b => b
  | VInt n => negb (n =? 0)
  | VFloat f => negb (f =? 0)%float
  | VStr s => negb (String.eqb s "")
  | VDict d => negb (bool_decide (d = ∅))
  end.

(** An optional string under [if s:]: the string when it is truthy.  None
    and the empty string are both false. *)
Definition nonempty (s : option string) : option string :=
  match s with
  | Some t => if truthy (VStr t) then Some t else None
  | None => None
  end.

(** A number as Python arithmetic sees it: an int (bools included) or a
    float. *)
Definition as_number (v : pyval) : option (Z + float) :=
  match v with
  | VBool b => Some (inl (Z.b2z b))
  | VInt n => Some (inl n)
  | VFloat f => Some (inr f)
  | _ => None
  end.

Definition to_float (x : Z + float) : exn + float :=
  match x with
  | inl n => float_of_int n
  | inr f => inr f
  end.

(** Arithmetic on two numbers: ints stay ints, a float operand makes the
    other one a float. *)
Definition arith (fz : Z -> Z -> Z) (ff : float -> float -> float)
    (a b : pyval) : exn + pyval :=
  match as_number a, as_number b with
  | Some (inl x), Some (inl y) => inr (VInt (fz x y))
  | Some x, Some y =>
      match to_float x, to_float y with
      | inr fx, inr fy => inr (VFloat (ff fx fy))
      | inl e, _ | _, inl e => inl e
      end
  | _, _ => inl TypeError
  end.

(** [a + b], [a - b] and [a * b] on numbers. *)
Definition add (a b : pyval) : exn + pyval := arith Z.add PrimFloat.add a b.
Definition sub (a b : pyval) : exn + pyval := arith Z.sub PrimFloat.sub a b.
Definition mul (a b : pyval) : exn + pyval := arith Z.mul PrimFloat.mul a b.

Definition is_zero_number (x : Z + float) : bool :=
  match x with
  | inl n => n =? 0
  | inr f => (f =? 0)%float
  end.

(** [a / b] on numbers.  With a float operand both are converted first and
    the divisor is then tested; a converted int is zero exactly when the int
    is, so the test is made on the divisor as given. *)
Definition truediv (a b : pyval) : exn + pyval :=
  match as_number a, as_number b with
  | Some (inl x), Some (inl y) =>
      match int_truediv x y with inr f => inr (VFloat f) | inl e => inl e end
  | Some x, Some y =>
      match to_float x, to_float y with
      | inr fx, inr fy =>
          if is_zero_number y then inl ZeroDivisionError
          else inr (VFloat (fx / fy)%float)
      | inl e, _ | _, inl e => inl e
      end
  | _, _ => inl TypeError
  end.

(** [v > n] for an int literal [n] (0, 50 and 100 in the source, all exact
    as floats). *)
Definition gt_int (v : pyval) (n : Z) : exn + bool :=
  match as_number v with
  | Some (inl x) => inr (n <? x)
  | Some (inr f) => inr (float_of_scaled n 0 <? f)%float
  | None => inl TypeError
  end.

(** [v >= n] for an int literal. *)
Definition ge_int (v : pyval) (n : Z) : exn + bool :=
  match as_number v with
  | Some (inl x) => inr (n <=? x)
  | Some (inr f) => inr (float_of_scaled n 0 <=? f)%float
  | None => inl TypeError
  end.

(** [v == n] for an int literal; values of other types are unequal. *)
Definition eq_int (v : pyval) (n : Z) : bool :=
  match as_number v with
  | Some (inl x) => x =? n
  | Some (inr f) => (f =? float_of_scaled n 0)%float
  | None => false
  end.

(** [v == s] for a string literal. *)
Definition eq_str (v : pyval) (s : string) : bool :=
  match v with
  | VStr t => String.eqb t s
  | _ => false
  end.

(** [int(v)]: numbers only (query results hold no numerals as text). *)
Definition int_ (v : pyval) : exn + pyval :=
  match v with
  | VBool b => inr (VInt (Z.b2z b))
  | VInt n => inr (VInt n)
  | VFloat f => match int_of_float f with inr n => inr (VInt n) | inl e => inl e end
  | VStr _ => inl ValueError
  | VNone | VDict _ => inl TypeError
  end.

(** [float(v)]: numbers only. *)
Definition float_ (v : pyval) : exn + pyval :=
  match v with
  | VBool b => inr (VFloat (if b then 1 else 0)%float)
  | VInt n => match float_of_int n with inr f => inr (VFloat f) | inl e => inl e end
  | VFloat f => inr (VFloat f)
  | VStr _ => inl ValueError
  | VNone | VDict _ => inl TypeError
  end.

(** [round(v, ndigits)]: an int is returned as it is for [ndigits >= 0]. *)
Definition round_ (v : pyval) (ndigits : Z) : exn + pyval :=
  match v with
  | VBool b => inr (VInt (Z.b2z b))
  | VInt n => inr (VInt n)
  | VFloat f => inr (VFloat (round_float f ndigits))
  | _ => inl TypeError
  end.

(** [round(v, ndigits)] where [v] is a numpy scalar: the cells of a frame
    whose columns are all numeric, and what arithmetic with them gives. *)
Definition np_round_ (v : pyval) (ndigits : Z) : exn + pyval :=
  match v with
  | VBool b => inr (VInt (Z.b2z b))
  | VInt n => inr (VInt n)
  | VFloat f => inr (VFloat (np_round_float f ndigits))
  | _ => inl TypeError
  end.

(** [v is None] *)
Definition is_none (v : pyval) : bool :=
  match v with VNone => true | _ => false end.

(** [a or b]. *)
Definition or_ (a b : pyval) : pyval := if truthy a then a else b.

(** [d[key]] on a row or a dict. *)
Definition getitem (d : row) (key : string) : exn + pyval :=
  match d !! key with
  | Some v => inr v
  | None => inl (KeyError key)
  end.

(** [r.name] on a result row. *)
Definition getattr (r : row) (name : string) : exn + pyval :=
  match r !! name with
  | Some v => inr v
  | None => inl (AttributeError name)
  end.

(** [d.get(key, default)]. *)
Definition get (d : row) (key : string) (default : pyval) : pyval :=
  match d !! key with
  | Some v => v
  | None => default
  end.

(** [a == b] on the values that can be dict keys: numbers compare by
    value across int, bool and float, None equals only None. *)
Definition eqb (a b : pyval) : bool :=
  match a, b with
  | VNone, VNone => true
  | VStr s, VStr t => String.eqb s t
  | _, _ =>
      match as_number a, as_number b with
      | Some (inl x), Some (inl y) => x =? y
      | Some (inr f), Some (inr g) => (f =? g)%float
      | Some (inl x), Some (inr f) | Some (inr f), Some (inl x) =>
          match trunc_SF (Prim2SF f) with
          | Some m => (m =? x) && (float_of_scaled m 0 =? f)%float
          | None => false
          end
      | _, _ => false
      end
  end.

(** A dict whose keys are values (insertion ordered); [d[k] = v] replaces
    the value of an equal key and raises [TypeError] on an unhashable one. *)
Definition dict (A : Type) : Type := list (pyval * A).

Fixpoint dict_replace {A} (k : pyval) (v : A) (d : dict A) : option (dict A) :=
  match d with
  | [] => None
  | (k', v') :: d' =>
      if eqb k' k then Some ((k', v) :: d')
      else match dict_replace k v d' with
           | Some d'' => Some ((k', v') :: d'')
           | None => None
           end
  end.

Definition dict_setitem {A} (k : pyval) (v : A) (d : dict A) : exn + dict A :=
  match k with
  | VDict _ => inl TypeError
  | _ => match dict_replace k v d with
         | Some d' => inr d'
         | None => inr (d ++ [(k, v)])
         end
  end.

(** *** Logging *)

Inductive level : Type := INFO | WARNING | ERROR.

(** The pieces of a formatted message, in order. *)
Inductive part : Type :=
| Txt (s : string)
| Val (v : pyval)
| Num (n : Z)
| Exc (e : exn).

Definition log_record : Type := level * list part.

(** What the logger has received so far, oldest first. *)
Definition Log : Type := list log_record.

(** A state that holds the logger. *)
Class Logger (S : Type) := emit : log_record -> S -> S.

#[export] Instance Log_logger : Logger Log := fun r l => l ++ [r].

(** The state of a loop body that fills in [row_dict]. *)
#[export] Instance row_dict_logger : Logger (row * Log) :=
  fun r s => (fst s, snd s ++ [r]).

(** *** State and exceptions

    A computation transforms a state and either returns or raises; the
    state reached when it raises is kept, as mutation is in Python. *)
Definition M (S A : Type) : Type := S -> S * (exn + A).

Definition ret {S A} (a : A) : M S A := fun s => (s, inr a).

Definition bind {S A B} (m : M S A) (k : A -> M S B) : M S B :=
  fun s =>
    match m s with
    | (s', inr a) => k a s'
    | (s', inl e) => (s', inl e)
    end.

Definition raise {S A} (e : exn) : M S A := fun s => (s, inl e).

(** [try: m except Exception as e: h e]. *)
Definition try_except {S A} (m : M S A) (h : exn -> M S A) : M S A :=
  fun s =>
    match m s with
    | (s', inl e) => h e s'
    | r => r
    end.

(** A builtin that returns or raises, as a computation. *)
Definition lift {S A} (r : exn + A) : M S A := fun s => (s, r).

Definition modify {S} (f : S -> S) : M S unit := fun s => (f s, inr tt).

Definition read {S} : M S S := fun s => (s, inr s).

(** An exception as it leaves a coroutine: a [StopIteration] that escapes
    the body of an [async def] reaches the caller as [RuntimeError]; every
    other exception leaves unchanged. *)
Definition escaping (e : exn) : exn :=
  match e with
  | StopIteration => RuntimeError
  | _ => e
  end.

(** [async def f(...): m], awaited. *)
Definition async_def {S A} (m : M S A) : M S A :=
  fun s =>
    match m s with
    | (s', inl e) => (s', inl (escaping e))
    | r => r
    end.

Definition info {S} `{Logger S} (msg : list part) : M S unit :=
  modify (emit (INFO, msg)).
Definition warning {S} `{Logger S} (msg : list part) : M S unit :=
  modify (emit (WARNING, msg)).
Definition error {S} `{Logger S} (msg : list part) : M S unit :=
  modify (emit (ERROR, msg)).

(** [row_dict[key] = v] in a loop body. *)
Definition setitem (key : string) (v : pyval) : M (row * Log) unit :=
  modify (fun s => (<[key := v]> (fst s), snd s)).

(** Runs a loop body on its own [row_dict] and hands the dict back. *)
Definition with_row_dict {A} (d : row) (m : M (row * Log) A) : M Log row :=
  fun l =>
    match m (d, l) with
    | (s, inr _) => (snd s, inr (fst s))
    | (s, inl e) => (snd s, inl e)
    end.

Fixpoint mapM {S A B} (f : A -> M S B) (l : list A) : M S (list B) :=
  match l with
  | [] => ret []
  | x :: l' => bind (f x) (fun y => bind (mapM f l') (fun ys => ret (y :: ys)))
  end.

End Py.

Declare Scope py_scope.
Delimit Scope py_scope with py.
Notation "x <- m ;; k" := (Py.bind m (fun x => k))
  (at level 100, m at next level, k at level 200, right associativity) : py_scope.
Notation "m ;; k" := (Py.bind m (fun _ => k))
  (at level 100, k at level 200, right associativity) : py_scope.

(** ** The queries the service issues *)

Module Sql.

(** One conjunct of a WHERE clause assembled in Python. *)
Inductive condition : Type :=
| IsTrue (column : string)                     (* column = TRUE *)
| EqText (column text : string)                (* column = 'text' *)
| Positive (column : string)                   (* column > 0 *)
| Between (column : string) (lo hi : Py.pyval). (* column BETWEEN lo AND hi *)

(** The query templates of the source, each with the values the f-string
    interpolates into it.  [table], [pairs] and [competition] are
    fully-qualified table names. *)
Inductive query : Type :=
| SelectOne
| CountUnits (table : string) (where_conditions : list condition)
| SelectUnits (table : string) (where_conditions : list condition)
    (limit offset : Z)
| SelectUnitById (table unit_id : string)
| SelectComparables (pairs unit_id : string)
| SelectVacantUnits (table : string) (limit : option Z)
| SelectProperties (table : string)
| UnitTypesSummary (table : string)
| PortfolioMetrics (table : string)
| UrgencyBreakdown (table : string)
| PropertyPerformance (table : string)
| MarketSummary (table pairs : string)
| UnitTypeComparison (table pairs : string)
| PricingSummary (table pairs : string)
| TopOpportunities (table pairs : string)
| PropertyOverview (table property_name : string)
| MarketEnrichment (competition : string) (where_conditions : list condition)
| RentComparison (table property_name : string)
| BedroomEnrichment (competition : string) (where_conditions : list condition)
| PerformanceMetrics (table property_name : string)
| UnitAnalysis (table competition property_name : string)
| MarketPositioning (table competition property_name : string)
| TopCompetitors (table competition property_name : string)
| RentDistribution (table property_name : string)
| FilteredProperty (table property_name : string)
| PropertiesSample (table : string)
| SchemaColumns (competition : string)
| SampleListings (competition : string).

(** A tabular result: what a finished query job holds.  [.result()]
    iterates over [records]; [.to_dataframe()] is the frame itself. *)
Record DataFrame : Type := {
  columns : list string;
  records : list Py.row
}.

(** [pd.DataFrame()] *)
Definition empty_frame : DataFrame := {| columns := []; records := [] |}.

(** [len(df)] *)
Definition len (df : DataFrame) : Z := Z.of_nat (length (records df)).

(** An INT64 value. *)
Definition int64 (n : Z) : bool := (- 2 ^ 63 <=? n) && (n <? 2 ^ 63).

(** The float64 nearest to an int64 (ties to even). *)
Definition float64_of_int (n : Z) : float :=
  if 0 <=? n then of_uint63 (Uint63.of_Z n)
  else if n =? - 2 ^ 63 then (- 9223372036854775808)%float
  else (- of_uint63 (Uint63.of_Z (- n)))%float.

(** The cells of numeric columns: a float64 or an int64. *)
Definition numeric (v : Py.pyval) : bool :=
  match v with
  | Py.VFloat _ => true
  | Py.VInt n => int64 n
  | _ => false
  end.

Definition is_float (v : Py.pyval) : bool :=
  match v with Py.VFloat _ => true | _ => false end.

Definition as_float64 (v : Py.pyval) : Py.pyval :=
  match v with
  | Py.VInt n => Py.VFloat (float64_of_int n)
  | _ => v
  end.

(** A row of a frame as a Series.  A Series has one dtype: when every cell
    of the row is numeric and one of them is a float64 the ints are read back
    as float64; with a cell of any other kind the dtype is object and the
    cells are read back as they are. *)
Definition series (r : Py.row) : Py.row :=
  let cells := map snd (map_to_list r) in
  if forallb numeric cells && existsb is_float cells
  then as_float64 <$> r
  else r.

(** [df.iloc[0][column]] *)
Definition iloc0 (df : DataFrame) (column : string) : Py.exn + Py.pyval :=
  match records df with
  | [] => inl Py.IndexError
  | r :: _ => Py.getitem (series r) column
  end.

(** A text that a single-quoted SQL literal holds as it is: no quote, no
    backslash and no line break.  The source pastes filter values between
    quotes without escaping them. *)
Definition plain_char (c : Ascii.ascii) : bool :=
  let n := Ascii.N_of_ascii c in
  negb ((n =? 39) || (n =? 92) || (n =? 10) || (n =? 13))%N.

Fixpoint plain (s : string) : bool :=
  match s with
  | EmptyString => true
  | String c s' => plain_char c && plain s'
  end.

(** The query engine as the service sees it: a finished job or an
    exception. *)
Definition engine : Type := query -> Py.exn + DataFrame.

End Sql.

(** ** The service *)

Module Db.
Import Py Sql.
Local Open Scope py_scope.

(** [app.config.settings], as far as the service reads it. *)
Record Settings : Type := {
  gcp_project_id : string;
  bigquery_dataset_staging : string;
  bigquery_dataset_mart : string
}.

(** The argument of [set_table_settings]. *)
Record TableSettings : Type := {
  rentroll_table : option string;
  competition_table : option string;
  project_id : string
}.

Record BigQueryService : Type := {
  client : engine;
  staging_dataset : string;
  mart_dataset : string;
  _rentroll_table : option string;
  _competition_table : option string;
  _project_id : string
}.

Section Service.

Variable settings : Settings.

(** [__init__], given the client it connects. *)
Definition init (c : engine) : BigQueryService := {|
  client := c;
  staging_dataset := bigquery_dataset_staging settings;
  mart_dataset := bigquery_dataset_mart settings;
  _rentroll_table := None;
  _competition_table := None;
  _project_id := gcp_project_id settings
|}.

Definition str_or_none (s : option string) : pyval :=
  match s with Some s => VStr s | None => VNone end.

Definition set_table_settings (self : BigQueryService)
    (table_settings : TableSettings) : M Log BigQueryService :=
  let self := {|
    client := client self;
    staging_dataset := staging_dataset self;
    mart_dataset := mart_dataset self;
    _rentroll_table := rentroll_table table_settings;
    _competition_table := competition_table table_settings;
    _project_id := project_id table_settings
  |} in
  info [Txt "📊 Database service updated - Rentroll: ";
        Val (str_or_none (_rentroll_table self));
        Txt ", Competition: ";
        Val (str_or_none (_competition_table self))] ;;
  ret self.

Definition get_rentroll_table (self : BigQueryService) : string :=
  match nonempty (_rentroll_table self) with
  | Some table => table
  | None => gcp_project_id settings +:+ ".rentroll.Update_7_8_native"
  end.

Definition get_competition_table (self : BigQueryService) : string :=
  match nonempty (_competition_table self) with
  | Some table => table
  | None => gcp_project_id settings +:+ ".rentroll.Competition"
  end.

(** [self.client.query(q).result()] and [self.client.query(q).to_dataframe()] *)
Definition result {S} (self : BigQueryService) (q : query) : M S (list row) :=
  df <- lift (client self q) ;; ret (records df).

Definition to_dataframe {S} (self : BigQueryService) (q : query) : M S DataFrame :=
  lift (client self q).

Definition test_connection (self : BigQueryService) : M Log bool :=
  async_def
    (try_except
       (let query := SelectOne in
        _ <- result self query ;;
        ret true)
       (fun e =>
          error [Txt "BigQuery connection test failed: "; Exc e] ;;
          ret false)).

Definition _get_table_name (dataset table : string) : string :=
  "`" +:+ gcp_project_id settings +:+ "." +:+ dataset +:+ "." +:+ table +:+ "`".

(** [next(iter(rows))] *)
Definition next {S} (rows : list row) : M S row :=
  match rows with
  | r :: _ => ret r
  | [] => raise StopIteration
  end.

(** [rows[0]] *)
Definition first {S} (rows : list row) : M S row :=
  match rows with
  | r :: _ => ret r
  | [] => raise IndexError
  end.

(** The WHERE clause built at the start of [get_units]. *)
Definition units_where (status_filter property_filter : option string)
    (needs_pricing_only : bool) : list condition :=
  [IsTrue "has_complete_data"]
  ++ match nonempty status_filter with
     | Some status => [EqText "status" status]
     | None => []
     end
  ++ match nonempty property_filter with
     | Some property => [EqText "property" property]
     | None => []
     end
  ++ (if needs_pricing_only then [IsTrue "needs_pricing"] else []).

Definition get_units (self : BigQueryService) (page page_size : Z)
    (status_filter property_filter : option string)
    (needs_pricing_only : bool) : M Log (list row * pyval) :=
  let where_conditions :=
    units_where status_filter property_filter needs_pricing_only in
  let table := _get_table_name (mart_dataset self) "unit_snapshot" in
  let count_query := CountUnits table where_conditions in
  let offset := (page - 1) * page_size in
  let data_query := SelectUnits table where_conditions page_size offset in
  async_def
    (try_except
       (count_result <- result self count_query ;;
        row0 <- next count_result ;;
        total_count <- lift (getattr row0 "total_count") ;;
        data_result <- result self data_query ;;
        let units := data_result in
        info [Txt "Retrieved "; Num (Z.of_nat (length units));
              Txt " units (page "; Num page; Txt ", total: "; Val total_count;
              Txt ")"] ;;
        ret (units, total_count))
       (fun e =>
          error [Txt "Error fetching units: "; Exc e] ;;
          raise e)).

Definition get_unit_by_id (self : BigQueryService) (unit_id : string)
    : M Log (option row) :=
  let query :=
    SelectUnitById (_get_table_name (mart_dataset self) "unit_snapshot") unit_id in
  async_def
    (try_except
       (rows <- result self query ;;
        ret (head rows))
       (fun e =>
          error [Txt "Error fetching unit "; Txt unit_id; Txt ": "; Exc e] ;;
          raise e)).

Definition get_unit_comparables (self : BigQueryService) (unit_id : string)
    : M Log DataFrame :=
  let query :=
    SelectComparables
      (_get_table_name (mart_dataset self) "unit_competitor_pairs") unit_id in
  async_def
    (try_except
       (df <- to_dataframe self query ;;
        info [Txt "Retrieved "; Num (len df); Txt " comparables for unit ";
              Txt unit_id] ;;
        ret df)
       (fun e =>
          error [Txt "Error fetching comparables for unit "; Txt unit_id;
                 Txt ": "; Exc e] ;;
          ret empty_frame)).

Definition get_vacant_units (self : BigQueryService) (limit : option Z)
    : M Log (list row) :=
  let limit_clause :=
    match limit with
    | Some n => if n =? 0 then None else Some n
    | None => None
    end in
  let query :=
    SelectVacantUnits (_get_table_name (mart_dataset self) "unit_snapshot")
      limit_clause in
  async_def
    (try_except
       (units <- result self query ;;
        info [Txt "Retrieved "; Num (Z.of_nat (length units));
              Txt " vacant units"] ;;
        ret units)
       (fun e =>
          error [Txt "Error fetching vacant units: "; Exc e] ;;
          raise e)).

Definition get_properties (self : BigQueryService) : M Log (list pyval) :=
  let query :=
    SelectProperties (_get_table_name (mart_dataset self) "unit_snapshot") in
  async_def
    (try_except
       (rows <- result self query ;;
        properties <- mapM (fun r => lift (getattr r "property")) rows ;;
        ret properties)
       (fun e =>
          error [Txt "Error fetching properties: "; Exc e] ;;
          ret [])).

(** [float(v) if v else 0] *)
Definition float_or_zero (v : pyval) : exn + pyval :=
  if truthy v then float_ v else inr (VInt 0).

Fixpoint unit_types_loop (rows : list row) (summary : dict row)
    : M Log (dict row) :=
  match rows with
  | [] => ret summary
  | r :: rows' =>
      (* the dict on the right is evaluated first, the key last *)
      total_units <- lift (getattr r "total_units") ;;
      units_needing_pricing <- lift (getattr r "units_needing_pricing") ;;
      avg_rent <- lift (getattr r "avg_rent") ;;
      avg_rent <- lift (float_or_zero avg_rent) ;;
      avg_rent_per_sqft <- lift (getattr r "avg_rent_per_sqft") ;;
      avg_rent_per_sqft <- lift (float_or_zero avg_rent_per_sqft) ;;
      unit_type <- lift (getattr r "unit_type") ;;
      summary <- lift (dict_setitem unit_type
        (<["total_units" := total_units]>
          (<["units_needing_pricing" := units_needing_pricing]>
            (<["avg_rent" := avg_rent]>
              (<["avg_rent_per_sqft" := avg_rent_per_sqft]> ∅))))
        summary) ;;
      unit_types_loop rows' summary
  end.

Definition get_unit_types_summary (self : BigQueryService) : M Log (dict row) :=
  let query :=
    UnitTypesSummary (_get_table_name (mart_dataset self) "unit_snapshot") in
  async_def
    (try_except
       (rows <- result self query ;;
        unit_types_loop rows [])
       (fun e =>
          error [Txt "Error fetching unit types summary: "; Exc e] ;;
          ret [])).


(** The three parts of the portfolio report. *)
Record PortfolioAnalytics : Type := {
  portfolio : row;
  urgency_breakdown : list row;
  property_performance : list row
}.

(** [v[...]] needs a dict. *)
Definition as_dict {S} (v : pyval) : M S row :=
  match v with
  | VDict d => ret d
  | _ => raise TypeError
  end.

(** The value stored under ['occupancy_rate'] of the portfolio:
    [(d['occupied_units'] / d['total_units'] * 100) if d['total_units'] > 0
    else 0]. *)
Definition portfolio_occupancy_rate {S} (portfolio_data : row) : M S pyval :=
  total_units <- lift (getitem portfolio_data "total_units") ;;
  positive <- lift (gt_int total_units 0) ;;
  if positive : bool then
    occupied_units <- lift (getitem portfolio_data "occupied_units") ;;
    total_units <- lift (getitem portfolio_data "total_units") ;;
    ratio <- lift (truediv occupied_units total_units) ;;
    lift (mul ratio (VInt 100))
  else ret (VInt 0).

Definition get_portfolio_analytics (self : BigQueryService)
    : M Log PortfolioAnalytics :=
  let table := _get_table_name (mart_dataset self) "unit_snapshot" in
  let query := PortfolioMetrics table in
  async_def
    (try_except
       (rows <- result self query ;;
        row0 <- first rows ;;
        portfolio_data <- lift (getitem row0 "portfolio_json") ;;
        let urgency_query := UrgencyBreakdown table in
        urgency_result <- to_dataframe self urgency_query ;;
        let urgency_breakdown := records urgency_result in
        let property_query := PropertyPerformance table in
        property_result <- to_dataframe self property_query ;;
        let property_performance := records property_result in
        (* Calculate additional metrics: the first subscript needs a dict *)
        portfolio_data <- as_dict portfolio_data ;;
        occupancy_rate <- portfolio_occupancy_rate portfolio_data ;;
        let portfolio_data := <["occupancy_rate" := occupancy_rate]> portfolio_data in
        total_revenue_potential <-
          lift (getitem portfolio_data "total_revenue_potential") ;;
        current_annual_revenue <-
          lift (getitem portfolio_data "current_annual_revenue") ;;
        potential <- lift (sub total_revenue_potential current_annual_revenue) ;;
        let portfolio_data :=
          <["revenue_optimization_potential" := potential]> portfolio_data in
        ret {| portfolio := portfolio_data;
               urgency_breakdown := urgency_breakdown;
               property_performance := property_performance |})
       (fun e =>
          error [Txt "Error fetching portfolio analytics: "; Exc e] ;;
          raise e)).

Record MarketPositionAnalytics : Type := {
  market_summary : list row;
  unit_type_comparison : list row
}.

Definition get_market_position_analytics (self : BigQueryService)
    : M Log MarketPositionAnalytics :=
  let table := _get_table_name (mart_dataset self) "unit_snapshot" in
  let pairs := _get_table_name (mart_dataset self) "unit_competitor_pairs" in
  let query := MarketSummary table pairs in
  async_def
    (try_except
       (result <- to_dataframe self query ;;
        let market_summary := records result in
        let unit_type_query := UnitTypeComparison table pairs in
        unit_type_result <- to_dataframe self unit_type_query ;;
        let unit_type_comparison := records unit_type_result in
        ret {| market_summary := market_summary;
               unit_type_comparison := unit_type_comparison |})
       (fun e =>
          error [Txt "Error fetching market position analytics: "; Exc e] ;;
          raise e)).

Record PricingOpportunities : Type := {
  summary : row;
  top_opportunities : list row
}.

Definition get_pricing_opportunities (self : BigQueryService)
    : M Log PricingOpportunities :=
  let table := _get_table_name (mart_dataset self) "unit_snapshot" in
  let pairs := _get_table_name (mart_dataset self) "unit_competitor_pairs" in
  let query := PricingSummary table pairs in
  async_def
    (try_except
       (rows <- result self query ;;
        summary <- first rows ;;
        let top_query := TopOpportunities table pairs in
        top_result <- to_dataframe self top_query ;;
        let top_opportunities := records top_result in
        ret {| summary := summary; top_opportunities := top_opportunities |})
       (fun e =>
          error [Txt "Error fetching pricing opportunities: "; Exc e] ;;
          raise e)).

(** *** Property against competition *)

(** Unit type to the bedroom text of the competition table (the [if]/[elif]
    chain of the overview loop). *)
Definition bed_filter (unit_type : pyval) : string :=
  if eq_str unit_type "1BR" then "1 Bed"
  else if eq_str unit_type "2BR" then "2 Beds"
  else if eq_str unit_type "3BR" then "3 Beds"
  else if eq_str unit_type "4BR+" then "4 Beds"
  else if eq_str unit_type "STUDIO" then "Studio"
  else "1 Bed".

(** The mock market figures of an overview row: the three assignments that
    the source repeats in the [else] branch and in the [except] handler. *)
Definition overview_mock (row : row) : M (Py.row * Log) unit :=
  avg_our_rent <- lift (getitem row "avg_our_rent") ;;
  scaled <- lift (mul avg_our_rent (VFloat 1.05)) ;;
  avg_market_rent <- lift (int_ scaled) ;;
  setitem "avg_market_rent" avg_market_rent ;;
  avg_our_rent_per_sqft <- lift (getitem row "avg_our_rent_per_sqft") ;;
  scaled <- lift (mul avg_our_rent_per_sqft (VFloat 1.05)) ;;
  avg_market_rent_per_sqft <- lift (round_ scaled 2) ;;
  setitem "avg_market_rent_per_sqft" avg_market_rent_per_sqft ;;
  setitem "avg_premium_discount_pct" (VFloat (-4.8)).

(** [len(df) > 0 and df.iloc[0]['avg_market_rent'] is not None and
    df.iloc[0]['comp_count'] > 0] *)
Definition has_comps {S} (df : DataFrame) : M S bool :=
  if 0 <? len df then
    avg_market_rent <- lift (iloc0 df "avg_market_rent") ;;
    if is_none avg_market_rent then ret false
    else
      comp_count <- lift (iloc0 df "comp_count") ;;
      lift (gt_int comp_count 0)
  else ret false.

(** A record of an enrichment result with a positive comp count, and an
    enrichment outcome without one: the query raised, or none of the records
    it returned has a positive comp count. *)
Definition positive_comp_count (r : row) : Prop :=
  exists v, r !! "comp_count" = Some v /\ gt_int v 0 = inr true.

Definition no_market_data (outcome : exn + DataFrame) : Prop :=
  match outcome with
  | inl _ => True
  | inr df => Forall (fun r => ~ positive_comp_count r) (records df)
  end.

(** A returned overview row [d] that carries the mock figures of its
    source [row]: market rent [int(avg_our_rent * 1.05)], market rent per
    sqft [round(avg_our_rent_per_sqft * 1.05, 2)] and the discount -4.8. *)
Definition carries_overview_mock (row d : row) : Prop :=
  exists rent scaled market_rent psf scaled_psf market_psf,
    row !! "avg_our_rent" = Some rent
    /\ mul rent (VFloat 1.05) = inr scaled
    /\ int_ scaled = inr market_rent
    /\ d !! "avg_market_rent" = Some market_rent
    /\ row !! "avg_our_rent_per_sqft" = Some psf
    /\ mul psf (VFloat 1.05) = inr scaled_psf
    /\ round_ scaled_psf 2 = inr market_psf
    /\ d !! "avg_market_rent_per_sqft" = Some market_psf
    /\ d !! "avg_premium_discount_pct" = Some (VFloat (-4.8)).

(** The WHERE clause of the overview's market query. *)
Definition market_conditions (bed : string) (lo hi : pyval) : list condition :=
  [EqText "Bed" bed; Positive "Base_Price"; Positive "Sq_Ft";
   Between "Base_Price" lo hi].

(** One iteration of the loop over [overview_result.iterrows()]: the dict
    appended to [overview_data]. *)
Definition overview_row (self : BigQueryService) (row : row) : M Log Py.row :=
  unit_type <- lift (getitem row "unit_type") ;;
  let bed_filter := bed_filter unit_type in
  avg_our_rent <- lift (getitem row "avg_our_rent") ;;
  lo <- lift (mul avg_our_rent (VFloat 0.7)) ;;
  hi <- lift (mul avg_our_rent (VFloat 1.3)) ;;
  let market_query :=
    MarketEnrichment (get_competition_table self)
      (market_conditions bed_filter lo hi) in
  with_row_dict row
    (try_except
       (market_result <- to_dataframe self market_query ;;
        found <- has_comps market_result ;;
        if found : bool then
          avg_market_rent <- lift (iloc0 market_result "avg_market_rent") ;;
          v <- lift (int_ avg_market_rent) ;;
          setitem "avg_market_rent" v ;;
          per_sqft <- lift (iloc0 market_result "avg_market_rent_per_sqft") ;;
          v <- lift (float_ (or_ per_sqft (VInt 0))) ;;
          setitem "avg_market_rent_per_sqft" v ;;
          positive <- lift (gt_int avg_market_rent 0) ;;
          (if positive : bool then
             gap <- lift (sub avg_our_rent avg_market_rent) ;;
             ratio <- lift (truediv gap avg_market_rent) ;;
             pct <- lift (mul ratio (VInt 100)) ;;
             (* a numpy float64: the cell of [iloc[0]] makes it one *)
             v <- lift (np_round_ pct 1) ;;
             setitem "avg_premium_discount_pct" v
           else setitem "avg_premium_discount_pct" (VInt 0)) ;;
          comp_count <- lift (iloc0 market_result "comp_count") ;;
          info [Txt "Found "; Val comp_count; Txt " comps for "; Val unit_type;
                Txt ": $"; Val avg_market_rent]
        else
          (* Fallback to mock if no competition data *)
          overview_mock row ;;
          info [Txt "No comps found for "; Val unit_type; Txt " with filter '";
                Txt bed_filter; Txt "'"])
       (fun e =>
          warning [Txt "Competition query failed for "; Val unit_type;
                   Txt ": "; Exc e] ;;
          (* Fallback to mock *)
          overview_mock row)).

(** Bedroom count to the bedroom text (the chain of the rent-comparison
    loop). *)
Definition bed_text {S} (bed : pyval) : M S string :=
  if eq_int bed 0 then ret "Studio"
  else if eq_int bed 1 then ret "1 Bed"
  else if eq_int bed 2 then ret "2 Beds"
  else if eq_int bed 3 then ret "3 Beds"
  else
    four <- lift (ge_int bed 4) ;;
    if four : bool then ret "4 Beds" else ret "1 Bed".

(** The mock market figures of a rent-comparison row. *)
Definition comparison_mock (row : row) : M (Py.row * Log) unit :=
  avg_our_rent <- lift (getitem row "avg_our_rent") ;;
  scaled <- lift (mul avg_our_rent (VFloat 1.05)) ;;
  v <- lift (int_ scaled) ;;
  setitem "avg_market_rent" v ;;
  min_our_rent <- lift (getitem row "min_our_rent") ;;
  scaled <- lift (mul min_our_rent (VFloat 0.95)) ;;
  v <- lift (int_ scaled) ;;
  setitem "min_market_rent" v ;;
  max_our_rent <- lift (getitem row "max_our_rent") ;;
  scaled <- lift (mul max_our_rent (VFloat 1.15)) ;;
  v <- lift (int_ scaled) ;;
  setitem "max_market_rent" v ;;
  avg_our_rent_per_sqft <- lift (getitem row "avg_our_rent_per_sqft") ;;
  scaled <- lift (mul avg_our_rent_per_sqft (VFloat 1.05)) ;;
  v <- lift (round_ scaled 2) ;;
  setitem "avg_market_rent_per_sqft" v ;;
  setitem "comp_count" (VInt 25) ;;
  setitem "rent_gap_pct" (VFloat (-4.8)).

(** The WHERE clause of the rent comparison's market query. *)
Definition comp_conditions (bed : string) : list condition :=
  [EqText "Bed" bed; Positive "Base_Price"; Positive "Sq_Ft"].

(** One iteration of the loop over [rent_comparison_result.iterrows()]. *)
Definition rent_comparison_row (self : BigQueryService) (row : row)
    : M Log Py.row :=
  bed <- lift (getitem row "bed") ;;
  bed_text <- bed_text bed ;;
  let comp_query :=
    BedroomEnrichment (get_competition_table self) (comp_conditions bed_text) in
  with_row_dict row
    (try_except
       (comp_result <- to_dataframe self comp_query ;;
        found <- has_comps comp_result ;;
        if found : bool then
          avg_market_rent <- lift (iloc0 comp_result "avg_market_rent") ;;
          v <- lift (int_ (or_ avg_market_rent (VInt 0))) ;;
          setitem "avg_market_rent" v ;;
          min_market_rent <- lift (iloc0 comp_result "min_market_rent") ;;
          v <- lift (int_ (or_ min_market_rent (VInt 0))) ;;
          setitem "min_market_rent" v ;;
          max_market_rent <- lift (iloc0 comp_result "max_market_rent") ;;
          v <- lift (int_ (or_ max_market_rent (VInt 0))) ;;
          setitem "max_market_rent" v ;;
          per_sqft <- lift (iloc0 comp_result "avg_market_rent_per_sqft") ;;
          v <- lift (float_ (or_ per_sqft (VInt 0))) ;;
          setitem "avg_market_rent_per_sqft" v ;;
          comp_count <- lift (iloc0 comp_result "comp_count") ;;
          v <- lift (int_ (or_ comp_count (VInt 0))) ;;
          setitem "comp_count" v ;;
          positive <-
            (if truthy avg_market_rent then lift (gt_int avg_market_rent 0)
             else ret false) ;;
          (if positive : bool then
             avg_our_rent <- lift (getitem row "avg_our_rent") ;;
             gap <- lift (sub avg_our_rent avg_market_rent) ;;
             ratio <- lift (truediv gap avg_market_rent) ;;
             pct <- lift (mul ratio (VInt 100)) ;;
             v <- lift (np_round_ pct 1) ;;
             setitem "rent_gap_pct" v
           else setitem "rent_gap_pct" (VInt 0)) ;;
          info [Txt "Found "; Val comp_count; Txt " comps for "; Val bed;
                Txt " bed: $"; Val avg_market_rent]
        else
          (* Fallback to mock if no data *)
          comparison_mock row ;;
          info [Txt "No comps found for "; Val bed; Txt " bed with filter '";
                Txt bed_text; Txt "'"])
       (fun e =>
          warning [Txt "Competition query failed for "; Val bed;
                   Txt " bed: "; Exc e] ;;
          (* Fallback to mock *)
          comparison_mock row)).

(** The value stored under ['occupancy_rate'] of the performance metrics:
    the [if total_units > 0: ... else: ...] statement. *)
Definition performance_occupancy_rate {S} (performance_data : row)
    : M S pyval :=
  total_units <- lift (getitem performance_data "total_units") ;;
  positive <- lift (gt_int total_units 0) ;;
  if positive : bool then
    occupied_units <- lift (getitem performance_data "occupied_units") ;;
    total_units <- lift (getitem performance_data "total_units") ;;
    ratio <- lift (truediv occupied_units total_units) ;;
    lift (mul ratio (VInt 100))
  else ret (VInt 0).

Record PropertyVsCompetition : Type := {
  pvc_property_name : string;
  overview_by_unit_type : list row;
  rent_comparison_by_bedrooms : list row;
  performance_metrics : row
}.

Definition get_property_vs_competition_analysis (self : BigQueryService)
    (property_name : string) : M Log PropertyVsCompetition :=
  let table := _get_table_name (mart_dataset self) "unit_snapshot" in
  async_def
    (try_except
       (let overview_query := PropertyOverview table property_name in
        overview_result <- to_dataframe self overview_query ;;
        info [Txt "Overview query returned "; Num (len overview_result);
              Txt " rows for property: "; Txt property_name] ;;
        (* the records of a frame are its rows as [iterrows] yields them *)
        overview_data <- mapM (overview_row self) (records overview_result) ;;
        info [Txt "Overview data created: ";
              Num (Z.of_nat (length overview_data)); Txt " unit types"] ;;
        let rent_comparison_query := RentComparison table property_name in
        rent_comparison_result <- to_dataframe self rent_comparison_query ;;
        rent_comparison_data <-
          mapM (rent_comparison_row self) (records rent_comparison_result) ;;
        let performance_query := PerformanceMetrics table property_name in
        performance_result <- result self performance_query ;;
        performance_data <- first performance_result ;;
        (* Calculate occupancy rate *)
        occupancy_rate <- performance_occupancy_rate performance_data ;;
        let performance_data :=
          <["occupancy_rate" := occupancy_rate]> performance_data in
        (* Revenue opportunity *)
        total_revenue_potential <-
          lift (getitem performance_data "total_revenue_potential") ;;
        current_annual_revenue <-
          lift (getitem performance_data "current_annual_revenue") ;;
        opportunity <- lift (sub total_revenue_potential current_annual_revenue) ;;
        let performance_data :=
          <["revenue_opportunity" := opportunity]> performance_data in
        ret {| pvc_property_name := property_name;
               overview_by_unit_type := overview_data;
               rent_comparison_by_bedrooms := rent_comparison_data;
               performance_metrics := performance_data |})
       (fun e =>
          error [Txt "Error fetching property vs competition analysis for ";
                 Txt property_name; Txt ": "; Exc e] ;;
          raise e)).

(** *** Unit-level analysis *)

(** [sum(1 for unit in units if unit.get(key, 0) > threshold)] *)
Fixpoint count_above {S} (key : string) (threshold : Z) (units : list row)
    : M S Z :=
  match units with
  | [] => ret 0
  | unit :: units' =>
      above <- lift (gt_int (get unit key (VInt 0)) threshold) ;;
      n <- count_above key threshold units' ;;
      ret (if above : bool then 1 + n else n)
  end.

(** [sum(unit.get(key, 0) or 0 for unit in units)], from the left,
    starting at the int 0. *)
Fixpoint sum_from {S} (acc : pyval) (key : string) (units : list row)
    : M S pyval :=
  match units with
  | [] => ret acc
  | unit :: units' =>
      acc <- lift (add acc (or_ (get unit key (VInt 0)) (VInt 0))) ;;
      sum_from acc key units'
  end.

Record PropertyUnitAnalysis : Type := {
  pua_property_name : string;
  units : list row;
  pua_summary : row
}.

Definition get_property_unit_analysis (self : BigQueryService)
    (property_name : string) : M Log PropertyUnitAnalysis :=
  async_def
    (try_except
       (let units_query :=
          UnitAnalysis (_get_table_name (mart_dataset self) "unit_snapshot")
            (get_competition_table self) property_name in
        units_result <- to_dataframe self units_query ;;
        let units_data := records units_result in
        info [Txt "Units query returned "; Num (Z.of_nat (length units_data));
              Txt " rows for property: "; Txt property_name] ;;
        (* Calculate summary statistics from the results *)
        let total_units := Z.of_nat (length units_data) in
        units_50plus <- count_above "potential_rent_increase" 50 units_data ;;
        units_100plus <- count_above "potential_rent_increase" 100 units_data ;;
        total_monthly_opp <-
          sum_from (VInt 0) "potential_rent_increase" units_data ;;
        total_annual_opp <- lift (mul total_monthly_opp (VInt 12)) ;;
        avg_rent_gap <-
          (if 0 <? total_units
           then lift (truediv total_monthly_opp (VInt total_units))
           else ret (VInt 0)) ;;
        let summary_data : row :=
          <["total_units_analyzed" := VInt total_units]>
          (<["units_50plus_below_market" := VInt units_50plus]>
          (<["units_100plus_below_market" := VInt units_100plus]>
          (<["total_monthly_opportunity" := total_monthly_opp]>
          (<["total_annual_opportunity" := total_annual_opp]>
          (<["avg_rent_gap" := avg_rent_gap]> ∅))))) in
        info [Txt "Unit analysis completed: "; Num total_units; Txt " units, ";
              Num units_50plus; Txt " with $50+ opportunity"] ;;
        ret {| pua_property_name := property_name;
               units := units_data;
               pua_summary := summary_data |})
       (fun e =>
          error [Txt "Error fetching property unit analysis for ";
                 Txt property_name; Txt ": "; Exc e] ;;
          raise e)).

(** *** Market trends *)

(** The placeholder competitor record, with the given name. *)
Definition placeholder_competitor (name : string) : row :=
  <["competitor_property" := VStr name]>
  (<["our_units_compared" := VInt 0]>
  (<["their_comparable_units" := VInt 0]>
  (<["their_avg_rent" := VInt 0]>
  (<["their_avg_rent_per_sqft" := VFloat 0.0]>
  (<["avg_similarity_score" := VFloat 0.0]>
  (<["their_available_units" := VInt 0]> ∅)))))).

(** The inner [try] of the market trends: the value of [competitors_data]. *)
Definition top_competitors_of (self : BigQueryService)
    (competitors_query : query) (property_name : string) : M Log (list row) :=
  try_except
    (competitors_result <- to_dataframe self competitors_query ;;
     if 0 <? len competitors_result then
       let competitors_data := records competitors_result in
       info [Txt "Found "; Num (Z.of_nat (length competitors_data));
             Txt " real competitors for "; Txt property_name] ;;
       ret competitors_data
     else
       (* Fallback to simplified mock if no matches *)
       ret [placeholder_competitor "No Direct Competitors Found"])
    (fun e =>
       warning [Txt "Competitors query failed for "; Txt property_name;
                Txt ": "; Exc e] ;;
       (* Fallback to mock data if query fails *)
       ret [placeholder_competitor "Data Unavailable"]).

Record PropertyMarketTrends : Type := {
  pmt_property_name : string;
  market_positioning : list row;
  top_competitors : list row;
  rent_distribution : list row
}.

Definition get_property_market_trends (self : BigQueryService)
    (property_name : string) : M Log PropertyMarketTrends :=
  let table := _get_table_name (mart_dataset self) "unit_snapshot" in
  async_def
    (try_except
       (let positioning_query :=
          MarketPositioning table (get_competition_table self) property_name in
        positioning_result <- to_dataframe self positioning_query ;;
        let positioning_data := records positioning_result in
        let competitors_query :=
          TopCompetitors table (get_competition_table self) property_name in
        competitors_data <- top_competitors_of self competitors_query property_name ;;
        let distribution_query := RentDistribution table property_name in
        distribution_result <- to_dataframe self distribution_query ;;
        let distribution_data := records distribution_result in
        ret {| pmt_property_name := property_name;
               market_positioning := positioning_data;
               top_competitors := competitors_data;
               rent_distribution := distribution_data |})
       (fun e =>
          error [Txt "Error fetching property market trends for ";
                 Txt property_name; Txt ": "; Exc e] ;;
          raise e)).

(** *** Diagnostics *)

Record PropertyFilterTest : Type := {
  filtered_result : list row;
  all_properties_sample : list row;
  property_searched : string
}.

Definition test_property_filter (self : BigQueryService)
    (property_name : string) : M Log PropertyFilterTest :=
  let table := _get_table_name (mart_dataset self) "unit_snapshot" in
  async_def
    (try_except
       (let test_query := FilteredProperty table property_name in
        result <- to_dataframe self test_query ;;
        let all_properties_query := PropertiesSample table in
        all_result <- to_dataframe self all_properties_query ;;
        ret {| filtered_result := records result;
               all_properties_sample := records all_result;
               property_searched := property_name |})
       (fun e =>
          error [Txt "Error in test property filter: "; Exc e] ;;
          raise e)).

(** [s.replace(old, '')] for a one-character [old]. *)
Fixpoint remove (old : string) (s : string) : string :=
  match s with
  | EmptyString => EmptyString
  | String c s' =>
      if String.eqb (String c EmptyString) old then remove old s'
      else String c (remove old s')
  end.

Record CompetitionDataTest : Type := {
  schema : list row;
  sample_data : list row;
  column_names : list string;
  table_name : string
}.

Definition test_competition_data (self : BigQueryService)
    : M Log CompetitionDataTest :=
  async_def
    (try_except
       (let schema_query :=
          SchemaColumns (remove "`" (get_competition_table self)) in
        schema_data <-
          try_except
            (schema_result <- to_dataframe self schema_query ;;
             ret (records schema_result))
            (fun _ => ret []) ;;
        let sample_query := SampleListings (get_competition_table self) in
        sample_result <- to_dataframe self sample_query ;;
        let sample_data := records sample_result in
        let column_names :=
          if 0 <? len sample_result then columns sample_result else [] in
        ret {| schema := schema_data;
               sample_data := sample_data;
               column_names := column_names;
               table_name := get_competition_table self |})
       (fun e =>
          error [Txt "Error testing competition data: "; Exc e] ;;
          raise e)).

End Service.
End Db.

(** ** What the queries mean

    The tables are lists of records, NULL is [None], and each query template
    whose answer a property below depends on is given its meaning as a
    function of the tables.  Numeric columns are FLOAT64, counts and bedroom
    numbers INT64, dates are held as text. *)

Module Warehouse.
Import Py Sql.

(** A row of the mart table [unit_snapshot]. *)
Record unit_snapshot : Type := {
  unit_id : option string;
  property : option string;
  bed : option Z;
  bath : option float;
  sqft : option float;
  status : option string;
  advertised_rent : option float;
  market_rent : option float;
  rent_per_sqft : option float;
  move_out_date : option string;
  lease_end_date : option string;
  days_to_lease_end : option Z;
  needs_pricing : option bool;
  rent_premium_pct : option float;
  pricing_urgency : option string;
  unit_type : option string;
  size_category : option string;
  annual_revenue_potential : option float;
  has_complete_data : option bool
}.

(** A row of the competition table. *)
Record Competition : Type := {
  Property : option string;
  Bed : option string;
  Sq_Ft : option float;
  Base_Price : option float;
  Availability : option string
}.

(** Cells as the client hands them to Python. *)
Definition text (c : option string) : pyval :=
  match c with Some s => VStr s | None => VNone end.
Definition integer (c : option Z) : pyval :=
  match c with Some n => VInt n | None => VNone end.
Definition number (c : option float) : pyval :=
  match c with Some f => VFloat f | None => VNone end.
Definition boolean (c : option bool) : pyval :=
  match c with Some b => VBool b | None => VNone end.

(** A NULL number in a frame column is NaN. *)
Definition number_or_nan (c : option float) : pyval :=
  match c with Some f => VFloat f | None => VFloat nan end.

(** *** Generic pieces *)

Fixpoint insert_by {A} (le : A -> A -> bool) (x : A) (l : list A) : list A :=
  match l with
  | [] => [x]
  | y :: l' => if le x y then x :: l else y :: insert_by le x l'
  end.

(** A stable sort: rows with equal keys stay in the order given. *)
Definition sort_by {A} (le : A -> A -> bool) (l : list A) : list A :=
  foldr (insert_by le) [] l.

(** The order in which one query comes by the rows it sorts.  ORDER BY does
    not say in which order rows with equal keys come out, and two queries
    need not agree on it: each query sorts the rows as it scanned them. *)
Definition scan (A : Type) : Type := list A -> list A.

Definition in_table_order {A} : scan A := fun l => l.

(** A scan visits every row once. *)
Definition visits_all {A} (s : scan A) : Prop := forall l, s l ≡ₚ l.

(** Two sort keys in sequence. *)
Definition lexi (c1 c2 : comparison) : comparison :=
  match c1 with Eq => c2 | _ => c1 end.

(** A comparison that orders: swapping the sides swaps the answer, rows
    that compare equal compare alike with every third row, and "before" is
    transitive. *)
Definition orders {A} (c : A -> A -> comparison) : Prop :=
  (forall x y, c y x = CompOpp (c x y))
  /\ (forall x y z, c x y = Eq -> c x z = c y z)
  /\ (forall x y z, c x y = Lt -> c y z = Lt -> c x z = Lt).

Definition not_after (c : comparison) : bool :=
  match c with Gt => false | _ => true end.

(** Text keys, NULL before every value. *)
Definition compare_text (a b : option string) : comparison :=
  match a, b with
  | None, None => Eq
  | None, Some _ => Lt
  | Some _, None => Gt
  | Some x, Some y => String.compare x y
  end.

(** AVG, MIN and MAX over the non-NULL values of a group. *)
Definition sum_floats (l : list float) : float :=
  fold_left PrimFloat.add l 0%float.

Definition sql_avg (l : list float) : option float :=
  match l with
  | [] => None
  | _ => Some (sum_floats l / float_of_scaled (Z.of_nat (length l)) 0)%float
  end.

Definition sql_min (l : list float) : option float :=
  match l with
  | [] => None
  | x :: l' => Some (fold_left (fun a b => if (b <? a)%float then b else a) l' x)
  end.

Definition sql_max (l : list float) : option float :=
  match l with
  | [] => None
  | x :: l' => Some (fold_left (fun a b => if (a <? b)%float then b else a) l' x)
  end.

(** ROUND(x, n): halfway cases away from zero. *)
Definition sql_round (x : float) (n : Z) : float := round_decimal false x n.

(** The non-NULL values of a column over some rows. *)
Definition values {A B} (column : A -> option B) (rows : list A) : list B :=
  omap column rows.

(** *** [get_units]: the count and the page *)

Definition unit_text_column (column : string)
    : option (unit_snapshot -> option string) :=
  if String.eqb column "unit_id" then Some unit_id
  else if String.eqb column "property" then Some property
  else if String.eqb column "status" then Some status
  else if String.eqb column "pricing_urgency" then Some pricing_urgency
  else if String.eqb column "unit_type" then Some unit_type
  else if String.eqb column "size_category" then Some size_category
  else None.

Definition unit_bool_column (column : string)
    : option (unit_snapshot -> option bool) :=
  if String.eqb column "needs_pricing" then Some needs_pricing
  else if String.eqb column "has_complete_data" then Some has_complete_data
  else None.

(** One conjunct over [unit_snapshot]; a comparison with NULL is not true.
    [None] when the conjunct is not this comparison to the engine: a column
    it does not know, or a text that is not [plain], which between the
    quotes of the source is another literal or no literal at all. *)
Definition unit_predicate (c : condition) : option (unit_snapshot -> bool) :=
  match c with
  | IsTrue column =>
      f ← unit_bool_column column;
      Some (fun u => bool_decide (f u = Some true))
  | EqText column t =>
      if plain t then
        f ← unit_text_column column;
        Some (fun u => bool_decide (f u = Some t))
      else None
  | _ => None
  end.

(** The conjunction [" AND ".join(where_conditions)]. *)
Fixpoint unit_where (cs : list condition) : option (unit_snapshot -> bool) :=
  match cs with
  | [] => Some (fun _ => true)
  | c :: cs' =>
      p ← unit_predicate c;
      q ← unit_where cs';
      Some (fun u => p u && q u)
  end.

(** ORDER BY CASE WHEN needs_pricing THEN 0 ELSE 1 END,
    pricing_urgency DESC, property, unit_id *)
Definition pricing_first (u : unit_snapshot) : Z :=
  match needs_pricing u with Some true => 0 | _ => 1 end.

Definition unit_order (u v : unit_snapshot) : comparison :=
  lexi (pricing_first u ?= pricing_first v)
    (lexi (compare_text (pricing_urgency v) (pricing_urgency u))
      (lexi (compare_text (property u) (property v))
        (compare_text (unit_id u) (unit_id v)))).

(** No two rows tie on the four sort keys, unless they are the same row. *)
Definition tie_free (rows : list unit_snapshot) : Prop :=
  forall u v, u ∈ rows -> v ∈ rows -> unit_order u v = Eq -> u = v.

Definition unit_columns : list string :=
  ["unit_id"; "property"; "bed"; "bath"; "sqft"; "status"; "advertised_rent";
   "market_rent"; "rent_per_sqft"; "move_out_date"; "lease_end_date";
   "days_to_lease_end"; "needs_pricing"; "rent_premium_pct";
   "pricing_urgency"; "unit_type"; "size_category";
   "annual_revenue_potential"; "has_complete_data"].

(** The SELECT list of the unit queries: [dict(row)]. *)
Definition unit_record (u : unit_snapshot) : row :=
  list_to_map
    [("unit_id", text (unit_id u)); ("property", text (property u));
     ("bed", integer (bed u)); ("bath", number (bath u));
     ("sqft", number (sqft u)); ("status", text (status u));
     ("advertised_rent", number (advertised_rent u));
     ("market_rent", number (market_rent u));
     ("rent_per_sqft", number (rent_per_sqft u));
     ("move_out_date", text (move_out_date u));
     ("lease_end_date", text (lease_end_date u));
     ("days_to_lease_end", integer (days_to_lease_end u));
     ("needs_pricing", boolean (needs_pricing u));
     ("rent_premium_pct", number (rent_premium_pct u));
     ("pricing_urgency", text (pricing_urgency u));
     ("unit_type", text (unit_type u));
     ("size_category", text (size_category u));
     ("annual_revenue_potential", number (annual_revenue_potential u));
     ("has_complete_data", boolean (has_complete_data u))].

Definition rejected : exn := ClientError "400 invalid query".

(** The rows a WHERE clause keeps, in ORDER BY order, for a query that
    scans the table in the order [s]. *)
Definition matching_units (s : scan unit_snapshot) (table : list unit_snapshot)
    (p : unit_snapshot -> bool) : list unit_snapshot :=
  sort_by (fun u v => not_after (unit_order u v)) (List.filter p (s table)).

(** SELECT COUNT( * ) as total_count ... WHERE where_clause *)
Definition count_units (table : list unit_snapshot)
    (where_conditions : list condition) : exn + DataFrame :=
  match unit_where where_conditions with
  | Some p =>
      inr {| columns := ["total_count"];
             records :=
               [ {[ "total_count" :=
                      VInt (Z.of_nat (length (List.filter p table))) ]} ] |}
  | None => inl rejected
  end.

(** LIMIT and OFFSET take a non-negative INT64 literal. *)
Definition row_count (n : Z) : bool := (0 <=? n) && int64 n.

(** SELECT ... WHERE where_clause ORDER BY ... LIMIT limit OFFSET offset;
    a LIMIT or OFFSET that is negative or beyond INT64 is rejected. *)
Definition select_units (s : scan unit_snapshot) (table : list unit_snapshot)
    (where_conditions : list condition) (limit offset : Z)
    : exn + DataFrame :=
  match unit_where where_conditions with
  | Some p =>
      if row_count limit && row_count offset then
        inr {| columns := unit_columns;
               records :=
                 map unit_record
                   (take (Z.to_nat limit)
                      (drop (Z.to_nat offset) (matching_units s table p))) |}
      else inl rejected
  | None => inl rejected
  end.

(** *** The enrichment queries over the competition table *)

Definition listing_text_column (column : string)
    : option (Competition -> option string) :=
  if String.eqb column "Property" then Some Property
  else if String.eqb column "Bed" then Some Bed
  else if String.eqb column "Availability" then Some Availability
  else None.

Definition listing_number_column (column : string)
    : option (Competition -> option float) :=
  if String.eqb column "Sq_Ft" then Some Sq_Ft
  else if String.eqb column "Base_Price" then Some Base_Price
  else None.

(** [x > 0] and [x BETWEEN lo AND hi]; not true on NULL. *)
Definition positive (x : option float) : bool :=
  match x with
  | Some f => (0 <? f)%float
  | None => false
  end.

Definition between (x : option float) (lo hi : float) : bool :=
  match x with
  | Some f => (lo <=? f)%float && (f <=? hi)%float
  | None => false
  end.

(** One conjunct over the competition table.  The bounds of a band reach
    the query as formatted Python floats: NaN and the infinities are no
    SQL literals. *)
Definition listing_predicate (c : condition) : option (Competition -> bool) :=
  match c with
  | EqText column t =>
      if plain t then
        f ← listing_text_column column;
        Some (fun l => bool_decide (f l = Some t))
      else None
  | Positive column =>
      f ← listing_number_column column;
      Some (fun l => positive (f l))
  | Between column (VFloat lo) (VFloat hi) =>
      if is_finite lo && is_finite hi then
        f ← listing_number_column column;
        Some (fun l => between (f l) lo hi)
      else None
  | _ => None
  end.

Fixpoint listing_where (cs : list condition) : option (Competition -> bool) :=
  match cs with
  | [] => Some (fun _ => true)
  | c :: cs' =>
      p ← listing_predicate c;
      q ← listing_where cs';
      Some (fun l => p l && q l)
  end.

(** The listings an enrichment query aggregates over. *)
Definition population (table : list Competition)
    (where_conditions : list condition) : option (list Competition) :=
  p ← listing_where where_conditions;
  Some (List.filter p table).

(** Base_Price / NULLIF(Sq_Ft, 0) *)
Definition price_per_sqft (l : Competition) : option float :=
  match Base_Price l, Sq_Ft l with
  | Some price, Some area =>
      if (area =? 0)%float then None else Some (price / area)%float
  | _, _ => None
  end.

Definition rounded (x : option float) (n : Z) : option float :=
  match x with
  | Some f => Some (sql_round f n)
  | None => None
  end.

(** The overview's market query: one row of aggregates. *)
Definition market_enrichment (table : list Competition)
    (where_conditions : list condition) : exn + DataFrame :=
  match population table where_conditions with
  | Some comps =>
      inr {| columns := ["avg_market_rent"; "avg_market_rent_per_sqft";
                         "comp_count"];
             records :=
               [ <["avg_market_rent" :=
                     number_or_nan (rounded (sql_avg (values Base_Price comps)) 0)]>
                 (<["avg_market_rent_per_sqft" :=
                     number_or_nan
                       (rounded (sql_avg (values price_per_sqft comps)) 2)]>
                 (<["comp_count" := VInt (Z.of_nat (length comps))]> ∅)) ] |}
  | None => inl rejected
  end.

(** The rent comparison's market query. *)
Definition bedroom_enrichment (table : list Competition)
    (where_conditions : list condition) : exn + DataFrame :=
  match population table where_conditions with
  | Some comps =>
      inr {| columns := ["avg_market_rent"; "min_market_rent";
                         "max_market_rent"; "avg_market_rent_per_sqft";
                         "comp_count"];
             records :=
               [ <["avg_market_rent" :=
                     number_or_nan (rounded (sql_avg (values Base_Price comps)) 0)]>
                 (<["min_market_rent" :=
                     number_or_nan (rounded (sql_min (values Base_Price comps)) 0)]>
                 (<["max_market_rent" :=
                     number_or_nan (rounded (sql_max (values Base_Price comps)) 0)]>
                 (<["avg_market_rent_per_sqft" :=
                     number_or_nan
                       (rounded (sql_avg (values price_per_sqft comps)) 2)]>
                 (<["comp_count" := VInt (Z.of_nat (length comps))]> ∅)))) ] |}
  | None => inl rejected
  end.

(** *** The unit-level analysis query *)

(** The bedroom text a unit is joined on (the CASE of the ON clause). *)
Definition bed_label (bed : option Z) : string :=
  match bed with
  | Some 0 => "Studio"
  | Some 1 => "1 Bed"
  | Some 2 => "2 Beds"
  | Some 3 => "3 Beds"
  | Some n => if 4 <=? n then "4 Beds" else "1 Bed"
  | None => "1 Bed"
  end.

(** [x BETWEEN r * lo AND r * hi] for a rent [r]; not true on NULL. *)
Definition within (x r : option float) (lo hi : float) : bool :=
  match r with
  | Some r => between x (r * lo) (r * hi)
  | None => false
  end.

(** The ON clause: bedroom text, positive price and area, price within 30%
    of the unit's rent. *)
Definition comparable (bed : option Z) (rent : option float) (c : Competition)
    : bool :=
  bool_decide (Bed c = Some (bed_label bed))
  && positive (Base_Price c) && positive (Sq_Ft c)
  && within (Base_Price c) rent 0.7 1.3.

(** Availability LIKE '%Available%' *)
Fixpoint contains (needle s : string) : bool :=
  String.prefix needle s ||
  match s with
  | EmptyString => false
  | String _ s' => contains needle s'
  end.

Definition is_available (c : Competition) : bool :=
  match Availability c with
  | Some a => contains "Available" a
  | None => false
  end.

(** A row of the CTE [unit_competition]. *)
Record comp_stats : Type := {
  comparable_count : Z;
  avg_comp_rent : option float;
  min_comp_rent : option float;
  max_comp_rent : option float;
  available_comps : Z
}.

(** The CTE [property_units]. *)
Definition property_units (table : list unit_snapshot) (property_name : string)
    : list unit_snapshot :=
  List.filter (fun u => bool_decide (property u = Some property_name)) table.

(** The group of [unit_competition] with the given unit id: the listings
    joined to the units that carry it. *)
Definition unit_competition (units : list unit_snapshot)
    (competition : list Competition) (id : string) : comp_stats :=
  let group := List.filter (fun u => bool_decide (unit_id u = Some id)) units in
  let joined :=
    flat_map (fun u =>
      List.filter (comparable (bed u) (advertised_rent u)) competition) group in
  {| comparable_count := Z.of_nat (length (values Property joined));
     avg_comp_rent := sql_avg (values Base_Price joined);
     min_comp_rent := sql_min (values Base_Price joined);
     max_comp_rent := sql_max (values Base_Price joined);
     available_comps := Z.of_nat (length (List.filter is_available joined)) |}.

(** CASE WHEN c.avg_comp_rent IS NOT NULL AND c.avg_comp_rent > 0 THEN
    ROUND((rent - avg) / avg * 100, 1) ELSE NULL END *)
Definition rent_premium (avg rent : option float) : option float :=
  match avg with
  | Some a =>
      if (0 <? a)%float then
        match rent with
        | Some r => Some (sql_round ((r - a) / a * 100) 1)
        | None => None
        end
      else None
  | None => None
  end.

(** CASE WHEN c.avg_comp_rent IS NOT NULL AND c.avg_comp_rent >
    p.advertised_rent THEN ROUND(c.avg_comp_rent - p.advertised_rent, 0)
    ELSE 0 END *)
Definition potential_rent_increase (avg rent : option float) : float :=
  match avg, rent with
  | Some a, Some r => if (r <? a)%float then sql_round (a - r) 0 else 0
  | _, _ => 0
  end.

(** CASE WHEN c.avg_comp_rent IS NOT NULL AND c.avg_comp_rent >
    p.advertised_rent THEN ROUND((c.avg_comp_rent - p.advertised_rent) * 12, 0)
    ELSE 0 END *)
Definition annual_opportunity (avg rent : option float) : float :=
  match avg, rent with
  | Some a, Some r => if (r <? a)%float then sql_round ((a - r) * 12) 0 else 0
  | _, _ => 0
  end.

(** The four-way CASE of [market_position]. *)
Definition market_position (avg rent : option float) : string :=
  match avg with
  | Some a =>
      match rent with
      | Some r =>
          if (a * 1.05 <? r)%float then "ABOVE_MARKET"
          else if (r <? a * 0.95)%float then "BELOW_MARKET"
          else "AT_MARKET"
      | None => "AT_MARKET"
      end
  | None => "NO_DATA"
  end.

(** The final SELECT list for a unit [p] and its row [c] of
    [unit_competition], absent when the LEFT JOIN finds none. *)
Definition analysis_record (p : unit_snapshot) (c : option comp_stats) : row :=
  let avg := c ≫= avg_comp_rent in
  let rent := advertised_rent p in
  list_to_map
    [("unit_id", text (unit_id p)); ("unit_type", text (unit_type p));
     ("bed", integer (bed p)); ("bath", number (bath p));
     ("sqft", number (sqft p)); ("status", text (status p));
     ("advertised_rent", number rent);
     ("rent_per_sqft", number (rent_per_sqft p));
     ("needs_pricing", boolean (needs_pricing p));
     ("pricing_urgency", text (pricing_urgency p));
     ("annual_revenue_potential", number (annual_revenue_potential p));
     ("move_out_date", text (move_out_date p));
     ("lease_end_date", text (lease_end_date p));
     ("days_to_lease_end", integer (days_to_lease_end p));
     ("comparable_count", VInt (from_option comparable_count 0 c));
     ("avg_comp_rent", number_or_nan avg);
     ("min_comp_rent", number_or_nan (c ≫= min_comp_rent));
     ("max_comp_rent", number_or_nan (c ≫= max_comp_rent));
     ("avg_similarity_score", VFloat 0.85);
     ("available_comps", VInt (from_option available_comps 0 c));
     ("rent_premium_pct", number_or_nan (rent_premium avg rent));
     ("potential_rent_increase", VFloat (potential_rent_increase avg rent));
     ("annual_opportunity", VFloat (annual_opportunity avg rent));
     ("market_position", VStr (market_position avg rent))].

(** The row of [unit_competition] the LEFT JOIN pairs with [p]. *)
Definition competition_of (units : list unit_snapshot)
    (competition : list Competition) (p : unit_snapshot) : option comp_stats :=
  match unit_id p with
  | Some id => Some (unit_competition units competition id)
  | None => None
  end.

(** Numeric keys, descending, NULL last. *)
Definition compare_desc (a b : option float) : comparison :=
  match a, b with
  | None, None => Eq
  | None, Some _ => Gt
  | Some _, None => Lt
  | Some x, Some y =>
      if (y <? x)%float then Lt else if (x <? y)%float then Gt else Eq
  end.

(** COALESCE(c.avg_comp_rent, 0) - p.advertised_rent *)
Definition rent_gap (avg rent : option float) : option float :=
  match rent with
  | Some r => Some (default 0%float avg - r)%float
  | None => None
  end.

Definition analysis_order (units : list unit_snapshot)
    (competition : list Competition) (p q : unit_snapshot) : comparison :=
  let gap u :=
    rent_gap (competition_of units competition u ≫= avg_comp_rent)
      (advertised_rent u) in
  lexi (pricing_first p ?= pricing_first q)
    (lexi (compare_desc (gap p) (gap q))
      (compare_text (unit_id p) (unit_id q))).

Definition analysis_columns : list string :=
  ["unit_id"; "unit_type"; "bed"; "bath"; "sqft"; "status"; "advertised_rent";
   "rent_per_sqft"; "needs_pricing"; "pricing_urgency";
   "annual_revenue_potential"; "move_out_date"; "lease_end_date";
   "days_to_lease_end"; "comparable_count"; "avg_comp_rent"; "min_comp_rent";
   "max_comp_rent"; "avg_similarity_score"; "available_comps";
   "rent_premium_pct"; "potential_rent_increase"; "annual_opportunity";
   "market_position"].

(** The records of the unit-level analysis query, in ORDER BY order. *)
Definition unit_analysis (s : scan unit_snapshot) (table : list unit_snapshot)
    (competition : list Competition) (property_name : string) : list row :=
  let units := property_units table property_name in
  map (fun p => analysis_record p (competition_of units competition p))
    (sort_by (fun p q => not_after (analysis_order units competition p q))
       (s units)).

(** *** The top-competitors query *)

(** A row of its CTE [property_units]: the units of the property grouped by
    bed, bath, sqft and advertised rent. *)
Record unit_group : Type := {
  group_bed : option Z;
  group_bath : option float;
  group_sqft : option float;
  group_rent : option float;
  our_unit_count : Z
}.

(** Equal as grouping keys: NULL groups with NULL, NaN with NaN. *)
Definition same_number (a b : option float) : bool :=
  match a, b with
  | None, None => true
  | Some x, Some y => (x =? y)%float || (is_nan x && is_nan y)
  | _, _ => false
  end.

Definition in_group (u : unit_snapshot) (g : unit_group) : bool :=
  bool_decide (bed u = group_bed g)
  && same_number (bath u) (group_bath g)
  && same_number (sqft u) (group_sqft g)
  && same_number (advertised_rent u) (group_rent g).

Fixpoint add_to_groups (u : unit_snapshot) (gs : list unit_group)
    : list unit_group :=
  match gs with
  | [] =>
      [{| group_bed := bed u; group_bath := bath u; group_sqft := sqft u;
          group_rent := advertised_rent u; our_unit_count := 1 |}]
  | g :: gs' =>
      if in_group u g then
        {| group_bed := group_bed g; group_bath := group_bath g;
           group_sqft := group_sqft g; group_rent := group_rent g;
           our_unit_count := our_unit_count g + 1 |} :: gs'
      else g :: add_to_groups u gs'
  end.

Definition unit_groups (units : list unit_snapshot) : list unit_group :=
  fold_left (fun gs u => add_to_groups u gs) units [].

(** The INNER JOIN: every listing with every group it is comparable to. *)
Definition joined_pairs (groups : list unit_group)
    (competition : list Competition) : list (Competition * unit_group) :=
  flat_map (fun c =>
    map (fun g => (c, g))
      (List.filter (fun g => comparable (group_bed g) (group_rent g) c) groups))
    competition.

(** The tighter criteria: price and area both within 15%. *)
Definition truly_comparable (cg : Competition * unit_group) : bool :=
  within (Base_Price (fst cg)) (group_rent (snd cg)) 0.85 1.15
  && within (Sq_Ft (fst cg)) (group_sqft (snd cg)) 0.85 1.15.

Definition greatest (a b : float) : float := if (a <? b)%float then b else a.
Definition least (a b : float) : float := if (b <? a)%float then b else a.

(** The term averaged into [calculated_similarity_score]. *)
Definition similarity (cg : Competition * unit_group) : option float :=
  match Base_Price (fst cg), group_rent (snd cg),
        Sq_Ft (fst cg), group_sqft (snd cg) with
  | Some price, Some rent, Some area, Some sqft =>
      Some ((1 - abs (price - rent) / greatest price rent) * 0.6
            + (1 - abs (area - sqft) / greatest area sqft) * 0.4)%float
  | _, _, _, _ => None
  end.

(** A row of the CTE [competitor_matches], before HAVING. *)
Record competitor_match : Type := {
  competitor_property : option string;
  truly_comparable_units : Z;
  their_total_matching_units : Z;
  their_avg_rent : option float;
  their_avg_rent_per_sqft : option float;
  their_available_units : Z;
  calculated_similarity_score : option float;
  our_units_compared : Z
}.

(** The group of the competing property [name]. *)
Definition competitor_match_of (pairs : list (Competition * unit_group))
    (name : option string) : competitor_match :=
  let rows :=
    List.filter (fun cg => bool_decide (Property (fst cg) = name)) pairs in
  {| competitor_property := name;
     truly_comparable_units :=
       Z.of_nat (length (List.filter truly_comparable rows));
     their_total_matching_units := Z.of_nat (length rows);
     their_avg_rent := sql_avg (values (fun cg => Base_Price (fst cg)) rows);
     their_avg_rent_per_sqft :=
       sql_avg (values (fun cg => price_per_sqft (fst cg)) rows);
     their_available_units :=
       Z.of_nat (length (List.filter (fun cg => is_available (fst cg)) rows));
     calculated_similarity_score := sql_avg (values similarity rows);
     our_units_compared :=
       foldr Z.add 0 (map (fun cg => our_unit_count (snd cg)) rows) |}.

(** The join of the competition table with the property's unit groups. *)
Definition competitor_pairs (table : list unit_snapshot)
    (competition : list Competition) (property_name : string)
    : list (Competition * unit_group) :=
  joined_pairs (unit_groups (property_units table property_name)) competition.


(** GROUP BY c.Property HAVING ... >= 3: at least 3 truly comparable
    units. *)
Definition competitor_matches (table : list unit_snapshot)
    (competition : list Competition) (property_name : string)
    : list competitor_match :=
  let pairs := competitor_pairs table competition property_name in
  List.filter (fun m => 3 <=? truly_comparable_units m)
    (map (competitor_match_of pairs)
       (remove_dups (map (fun cg => Property (fst cg)) pairs))).

(** ORDER BY truly_comparable_units DESC, calculated_similarity_score DESC *)
Definition competitor_order (m n : competitor_match) : comparison :=
  lexi (truly_comparable_units n ?= truly_comparable_units m)
    (compare_desc (calculated_similarity_score m)
       (calculated_similarity_score n)).

(** The final SELECT list. *)
Definition competitor_record (m : competitor_match) : row :=
  list_to_map
    [("competitor_property", text (competitor_property m));
     ("our_units_compared", VInt (our_units_compared m));
     ("their_comparable_units", VInt (truly_comparable_units m));
     ("their_avg_rent", number_or_nan (rounded (their_avg_rent m) 0));
     ("their_avg_rent_per_sqft",
      number_or_nan (rounded (their_avg_rent_per_sqft m) 2));
     ("avg_similarity_score",
      number_or_nan
        (rounded
           (greatest 0.1 ∘ least 1.0 <$> calculated_similarity_score m) 2));
     ("their_available_units", VInt (their_available_units m))].

Definition competitor_columns : list string :=
  ["competitor_property"; "our_units_compared"; "their_comparable_units";
   "their_avg_rent"; "their_avg_rent_per_sqft"; "avg_similarity_score";
   "their_available_units"].

(** The top-competitors query: LIMIT 10. *)
Definition top_competitors_frame (s : scan competitor_match)
    (table : list unit_snapshot) (competition : list Competition)
    (property_name : string) : DataFrame :=
  {| columns := competitor_columns;
     records :=
       map competitor_record
         (take 10
            (sort_by (fun m n => not_after (competitor_order m n))
               (s (competitor_matches table competition property_name)))) |}.

(** *** The comparables of a unit *)

Definition comparables_columns : list string :=
  ["unit_id"; "our_property"; "bed"; "bath"; "our_sqft"; "advertised_rent";
   "comp_id"; "comp_property"; "comp_sqft"; "comp_price"; "is_available";
   "sqft_delta_pct"; "price_gap_pct"; "similarity_score"; "comp_rank";
   "total_comps"; "avg_comp_price"; "median_comp_price"; "min_comp_price";
   "max_comp_price"; "comp_price_stddev"].

(** ORDER BY comp_rank, an INT64 column; NULL before every value. *)
Definition comp_rank (pair : row) : option Z :=
  match pair !! "comp_rank" with
  | Some (VInt n) => Some n
  | _ => None
  end.

Definition compare_rank (a b : option Z) : comparison :=
  match a, b with
  | None, None => Eq
  | None, Some _ => Lt
  | Some _, None => Gt
  | Some x, Some y => x ?= y
  end.

(** SELECT ... FROM unit_competitor_pairs WHERE unit_id = 'unit_id' ORDER BY
    comp_rank, over the rows of the pairs table given by their cells. *)
Definition select_comparables (s : scan row) (pairs : list row)
    (unit_id : string) : exn + DataFrame :=
  if plain unit_id then
    inr {| columns := comparables_columns;
           records :=
             sort_by
               (fun a b => not_after (compare_rank (comp_rank a) (comp_rank b)))
               (List.filter
                  (fun pair : row => eq_str (get pair "unit_id" VNone) unit_id)
                  (s pairs)) |}
  else inl rejected.

(** *** The single lookup, the vacancy listing and the properties *)

(** SELECT ... WHERE unit_id = 'unit_id', with no ORDER BY: the rows come
    in scan order. *)
Definition select_unit_by_id (s : scan unit_snapshot)
    (table : list unit_snapshot) (id : string) : exn + DataFrame :=
  if plain id then
    inr {| columns := unit_columns;
           records :=
             map unit_record
               (List.filter (fun u => bool_decide (unit_id u = Some id))
                  (s table)) |}
  else inl rejected.

(** ORDER BY CASE WHEN pricing_urgency = 'IMMEDIATE' THEN 0 WHEN ... = 'HIGH'
    THEN 1 WHEN ... = 'MEDIUM' THEN 2 ELSE 3 END, property, unit_id *)
Definition urgency_rank (u : unit_snapshot) : Z :=
  match pricing_urgency u with
  | Some urgency =>
      if String.eqb urgency "IMMEDIATE" then 0
      else if String.eqb urgency "HIGH" then 1
      else if String.eqb urgency "MEDIUM" then 2
      else 3
  | None => 3
  end.

Definition vacant_order (u v : unit_snapshot) : comparison :=
  lexi (urgency_rank u ?= urgency_rank v)
    (lexi (compare_text (property u) (property v))
      (compare_text (unit_id u) (unit_id v))).

Definition vacant_columns : list string :=
  ["unit_id"; "property"; "bed"; "bath"; "sqft"; "status"; "advertised_rent";
   "market_rent"; "rent_per_sqft"; "pricing_urgency"; "unit_type";
   "size_category"].

Definition vacant_record (u : unit_snapshot) : row :=
  list_to_map
    [("unit_id", text (unit_id u)); ("property", text (property u));
     ("bed", integer (bed u)); ("bath", number (bath u));
     ("sqft", number (sqft u)); ("status", text (status u));
     ("advertised_rent", number (advertised_rent u));
     ("market_rent", number (market_rent u));
     ("rent_per_sqft", number (rent_per_sqft u));
     ("pricing_urgency", text (pricing_urgency u));
     ("unit_type", text (unit_type u));
     ("size_category", text (size_category u))].

(** WHERE needs_pricing = TRUE AND has_complete_data = TRUE *)
Definition to_price (u : unit_snapshot) : bool :=
  bool_decide (needs_pricing u = Some true)
  && bool_decide (has_complete_data u = Some true).

(** The rows of the vacancy listing before its LIMIT. *)
Definition units_to_price (s : scan unit_snapshot)
    (table : list unit_snapshot) : list unit_snapshot :=
  sort_by (fun u v => not_after (vacant_order u v))
    (List.filter to_price (s table)).

(** The vacancy listing, with LIMIT limit when the source writes one. *)
Definition select_vacant_units (s : scan unit_snapshot)
    (table : list unit_snapshot) (limit : option Z) : exn + DataFrame :=
  match limit with
  | None =>
      inr {| columns := vacant_columns;
             records := map vacant_record (units_to_price s table) |}
  | Some n =>
      if row_count n then
        inr {| columns := vacant_columns;
               records :=
                 map vacant_record
                   (take (Z.to_nat n) (units_to_price s table)) |}
      else inl rejected
  end.

(** SELECT DISTINCT property ... WHERE property IS NOT NULL ORDER BY
    property *)
Definition property_names (s : scan unit_snapshot)
    (table : list unit_snapshot) : list string :=
  sort_by (fun a b => not_after (String.compare a b))
    (remove_dups (values property (s table))).

Definition select_properties (s : scan unit_snapshot)
    (table : list unit_snapshot) : DataFrame :=
  {| columns := ["property"];
     records :=
       map (fun p => {[ "property" := VStr p ]}) (property_names s table) |}.

(** *** The performance metrics of a property *)

(** SUM over the non-NULL values of a group: NULL when there is none. *)
Definition sql_sum (l : list float) : option float :=
  match l with
  | [] => None
  | _ => Some (sum_floats l)
  end.

(** SUM(CASE WHEN condition THEN 1 ELSE 0 END): NULL over no rows. *)
Definition sql_count_if {A} (p : A -> bool) (rows : list A) : option Z :=
  match rows with
  | [] => None
  | _ => Some (Z.of_nat (length (List.filter p rows)))
  end.

Definition has_status (s : string) (u : unit_snapshot) : bool :=
  bool_decide (status u = Some s).

(** CASE WHEN status = 'OCCUPIED' THEN advertised_rent * 12 ELSE 0 END *)
Definition occupied_revenue (u : unit_snapshot) : option float :=
  if has_status "OCCUPIED" u
  then (fun rent => rent * 12)%float <$> advertised_rent u
  else Some 0%float.

Definition performance_columns : list string :=
  ["total_units"; "vacant_units"; "occupied_units"; "notice_units";
   "units_needing_pricing"; "avg_rent"; "avg_rent_per_sqft";
   "total_revenue_potential"; "current_annual_revenue"].

(** One row of aggregates, as the result iterator hands it over
    ([dict(row)]): NULL is None. *)
Definition performance_record (rows : list unit_snapshot) : row :=
  list_to_map
    [("total_units", VInt (Z.of_nat (length rows)));
     ("vacant_units", integer (sql_count_if (has_status "VACANT") rows));
     ("occupied_units", integer (sql_count_if (has_status "OCCUPIED") rows));
     ("notice_units", integer (sql_count_if (has_status "NOTICE") rows));
     ("units_needing_pricing",
      integer
        (sql_count_if (fun u => bool_decide (needs_pricing u = Some true)) rows));
     ("avg_rent", number (rounded (sql_avg (values advertised_rent rows)) 0));
     ("avg_rent_per_sqft",
      number (rounded (sql_avg (values rent_per_sqft rows)) 2));
     ("total_revenue_potential",
      number (sql_sum (values annual_revenue_potential rows)));
     ("current_annual_revenue",
      number (sql_sum (values occupied_revenue rows)))].

Definition performance_metrics (table : list unit_snapshot)
    (property_name : string) : exn + DataFrame :=
  if plain property_name then
    inr {| columns := performance_columns;
           records :=
             [performance_record (property_units table property_name)] |}
  else inl rejected.

(** *** The bedroom texts of the positioning query *)

(** The CTE [market_data] names a listing's unit type and bedroom count by
    its bedroom text. *)
Definition market_unit_type (bed : string) : string :=
  if String.eqb bed "Studio" then "STUDIO"
  else if String.eqb bed "1 Bed" then "1BR"
  else if String.eqb bed "2 Beds" then "2BR"
  else if String.eqb bed "3 Beds" then "3BR"
  else if String.eqb bed "4 Beds" then "4BR+"
  else "OTHER".

Definition market_bed (bed : string) : Z :=
  if String.eqb bed "Studio" then 0
  else if String.eqb bed "1 Bed" then 1
  else if String.eqb bed "2 Beds" then 2
  else if String.eqb bed "3 Beds" then 3
  else if String.eqb bed "4 Beds" then 4
  else 1.

(** *** A warehouse answering the modelled templates *)

Record tables : Type := {
  unit_snapshot_table : list unit_snapshot;
  competition_table : list Competition;
  pairs_table : list row
}.

(** The scans of an engine: one per query and table sorted. *)
Record scans : Type := {
  unit_scan : query -> scan unit_snapshot;
  match_scan : query -> scan competitor_match;
  pair_scan : query -> scan row
}.

Definition table_order : scans :=
  {| unit_scan := fun _ => in_table_order;
     match_scan := fun _ => in_table_order;
     pair_scan := fun _ => in_table_order |}.

(** The unit-level analysis and the top competitors of a property, whose
    name the source pastes between quotes. *)
Definition analysis_query (s : scan unit_snapshot)
    (table : list unit_snapshot) (competition : list Competition)
    (property_name : string) : exn + DataFrame :=
  if plain property_name then
    inr {| columns := analysis_columns;
           records := unit_analysis s table competition property_name |}
  else inl rejected.

Definition competitors_query (s : scan competitor_match)
    (table : list unit_snapshot) (competition : list Competition)
    (property_name : string) : exn + DataFrame :=
  if plain property_name then
    inr (top_competitors_frame s table competition property_name)
  else inl rejected.

(** The engine over fixed tables.  Only the templates given a meaning
    above are answered; the others are refused. *)
Definition execute_with (s : scans) (db : tables) : engine :=
  fun q =>
    match q with
    | SelectOne =>
        inr {| columns := ["test"]; records := [ {[ "test" := VInt 1 ]} ] |}
    | CountUnits _ where_conditions =>
        count_units (unit_snapshot_table db) where_conditions
    | SelectUnits _ where_conditions limit offset =>
        select_units (unit_scan s q) (unit_snapshot_table db) where_conditions
          limit offset
    | SelectUnitById _ unit_id =>
        select_unit_by_id (unit_scan s q) (unit_snapshot_table db) unit_id
    | SelectComparables _ unit_id =>
        select_comparables (pair_scan s q) (pairs_table db) unit_id
    | SelectVacantUnits _ limit =>
        select_vacant_units (unit_scan s q) (unit_snapshot_table db) limit
    | SelectProperties _ =>
        inr (select_properties (unit_scan s q) (unit_snapshot_table db))
    | PerformanceMetrics _ property_name =>
        performance_metrics (unit_snapshot_table db) property_name
    | MarketEnrichment _ where_conditions =>
        market_enrichment (competition_table db) where_conditions
    | BedroomEnrichment _ where_conditions =>
        bedroom_enrichment (competition_table db) where_conditions
    | UnitAnalysis _ _ property_name =>
        analysis_query (unit_scan s q) (unit_snapshot_table db)
          (competition_table db) property_name
    | TopCompetitors _ _ property_name =>
        competitors_query (match_scan s q) (unit_snapshot_table db)
          (competition_table db) property_name
    | _ => inl (ClientError "501 template without a model")
    end.

(** The engine that scans every table in table order. *)
Definition execute (db : tables) : engine := execute_with table_order db.

End Warehouse.

(** ** Shapes of the values returned *)

Module Shape.
Import Py.

(** A value that is a float, or the int 0. *)
Definition float_or_int_zero (v : pyval) : Prop :=
  v = VInt 0 \/ exists f, v = VFloat f.

(** No key of a dict equals a later one. *)
Fixpoint distinct_keys {A} (d : dict A) : Prop :=
  match d with
  | [] => True
  | (k, _) :: d' =>
      Forall (fun entry => eqb k (fst entry) = false) d' /\ distinct_keys d'
  end.

(** An entry of the unit-type summary: the four statistics, the two
    averages floats or the int 0. *)
Definition type_summary (v : row) : Prop :=
  exists total pricing rent per_sqft,
    v = <["total_units" := total]>
          (<["units_needing_pricing" := pricing]>
            (<["avg_rent" := rent]>
              (<["avg_rent_per_sqft" := per_sqft]> ∅)))
    /\ float_or_int_zero rent /\ float_or_int_zero per_sqft.

(** [d] is [r] but for the keys [added], of which those of [set] are
    assigned. *)
Definition assigned (added set : list string) (r d : row) : Prop :=
  (forall key, key ∉ added -> d !! key = r !! key)
  /\ Forall (fun key => is_Some (d !! key)) set.

(** [d] is [r] with the keys [added] assigned and nothing else changed. *)
Definition extends (added : list string) (r d : row) : Prop :=
  assigned added added r d.

(** The keys the loop bodies of the competition report assign. *)
Definition overview_keys : list string :=
  ["avg_market_rent"; "avg_market_rent_per_sqft"; "avg_premium_discount_pct"].

Definition comparison_keys : list string :=
  ["avg_market_rent"; "min_market_rent"; "max_market_rent";
   "avg_market_rent_per_sqft"; "comp_count"; "rent_gap_pct"].

(** The value a mock assignment computes: [conv(row[key] * factor)]. *)
Definition scaled (row : row) (key : string) (factor : float)
    (conv : pyval -> exn + pyval) (v : pyval) : Prop :=
  exists x s,
    row !! key = Some x /\ mul x (VFloat factor) = inr s /\ conv s = inr v.

(** A returned rent-comparison row [d] that carries the mock figures of its
    source [row]. *)
Definition carries_comparison_mock (row d : row) : Prop :=
  exists avg low high per_sqft,
    scaled row "avg_our_rent" 1.05 int_ avg
    /\ d !! "avg_market_rent" = Some avg
    /\ scaled row "min_our_rent" 0.95 int_ low
    /\ d !! "min_market_rent" = Some low
    /\ scaled row "max_our_rent" 1.15 int_ high
    /\ d !! "max_market_rent" = Some high
    /\ scaled row "avg_our_rent_per_sqft" 1.05 (fun s => round_ s 2) per_sqft
    /\ d !! "avg_market_rent_per_sqft" = Some per_sqft
    /\ d !! "comp_count" = Some (VInt 25)
    /\ d !! "rent_gap_pct" = Some (VFloat (-4.8)).

(** A loop body that takes a row dict satisfying [P] to one satisfying [Q]
    when it returns, and to one satisfying [E] when it raises. *)
Definition runs {A} (P : row -> Prop) (m : M (row * Log) A)
    (Q E : row -> Prop) : Prop :=
  forall d l s' r,
    P d -> m (d, l) = (s', r) ->
    match r with
    | inr _ => Q (fst s')
    | inl _ => E (fst s')
    end.

End Shape.

(** ** Sample data *)

Module Sample.
Import Py Sql Db.

Definition settings : Settings := {|
  gcp_project_id := "ajax-prod";
  bigquery_dataset_staging := "staging";
  bigquery_dataset_mart := "mart"
|}.

(** An engine that is down: every query raises. *)
Definition outage : exn := ClientError "503 backend unavailable".
Definition down : engine := fun _ => inl outage.

(** The service as constructed, before any settings update. *)
Definition service : BigQueryService := init settings down.

(** A small warehouse: Maple Ridge has three 1BR units at $1,200 and two
    2BR units at $1,600, Oak Court two studios at $900; the competition
    lists five "1 Bed" units averaging $1,260 and three "2 Beds" units
    averaging $1,550, and no studio. *)
Definition unit (id property : string) (bed : Z) (sqft rent : float)
    (status type : string) (needs_pricing : bool) (urgency : option string)
    : Warehouse.unit_snapshot := {|
  Warehouse.unit_id := Some id;
  Warehouse.property := Some property;
  Warehouse.bed := Some bed;
  Warehouse.bath := Some 1%float;
  Warehouse.sqft := Some sqft;
  Warehouse.status := Some status;
  Warehouse.advertised_rent := Some rent;
  Warehouse.market_rent := Some rent;
  Warehouse.rent_per_sqft := Some (rent / sqft)%float;
  Warehouse.move_out_date := None;
  Warehouse.lease_end_date := None;
  Warehouse.days_to_lease_end := None;
  Warehouse.needs_pricing := Some needs_pricing;
  Warehouse.rent_premium_pct := None;
  Warehouse.pricing_urgency := urgency;
  Warehouse.unit_type := Some type;
  Warehouse.size_category := Some "MEDIUM";
  Warehouse.annual_revenue_potential := Some (rent * 12)%float;
  Warehouse.has_complete_data := Some true
|}.

Definition listing (property bed : string) (sqft price : float)
    (availability : string) : Warehouse.Competition := {|
  Warehouse.Property := Some property;
  Warehouse.Bed := Some bed;
  Warehouse.Sq_Ft := Some sqft;
  Warehouse.Base_Price := Some price;
  Warehouse.Availability := Some availability
|}.

Definition units : list Warehouse.unit_snapshot :=
  [unit "MR-101" "Maple Ridge" 1 700 1200 "OCCUPIED" "1BR" false None;
   unit "MR-102" "Maple Ridge" 1 700 1200 "VACANT" "1BR" true (Some "HIGH");
   unit "MR-103" "Maple Ridge" 1 700 1200 "NOTICE" "1BR" true (Some "MEDIUM");
   unit "MR-201" "Maple Ridge" 2 950 1600 "OCCUPIED" "2BR" false None;
   unit "MR-202" "Maple Ridge" 2 950 1600 "VACANT" "2BR" true (Some "IMMEDIATE");
   unit "OC-001" "Oak Court" 0 450 900 "VACANT" "STUDIO" true (Some "HIGH");
   unit "OC-002" "Oak Court" 0 450 900 "OCCUPIED" "STUDIO" false None].

Definition listings : list Warehouse.Competition :=
  [listing "Birch Flats" "1 Bed" 690 1200 "Available Now";
   listing "Birch Flats" "1 Bed" 710 1230 "Available Now";
   listing "Birch Flats" "1 Bed" 720 1260 "Leased";
   listing "Cedar Park" "1 Bed" 800 1290 "Available 12/1";
   listing "Cedar Park" "1 Bed" 820 1320 "Leased";
   listing "Cedar Park" "2 Beds" 940 1500 "Available Now";
   listing "Cedar Park" "2 Beds" 960 1550 "Leased";
   listing "Birch Flats" "2 Beds" 1000 1600 "Available Now"].

(** One comparable on record, for MR-101. *)
Definition pairs : list row :=
  [ list_to_map
      [("unit_id", VStr "MR-101"); ("our_property", VStr "Maple Ridge");
       ("bed", VInt 1); ("bath", VFloat 1); ("our_sqft", VFloat 700);
       ("advertised_rent", VFloat 1200); ("comp_id", VStr "BF-12");
       ("comp_property", VStr "Birch Flats"); ("comp_sqft", VFloat 690);
       ("comp_price", VFloat 1200); ("is_available", VBool true);
       ("sqft_delta_pct", VFloat (-1.4)); ("price_gap_pct", VFloat 0);
       ("similarity_score", VFloat 0.99); ("comp_rank", VInt 1);
       ("total_comps", VInt 1); ("avg_comp_price", VFloat 1200);
       ("median_comp_price", VFloat 1200); ("min_comp_price", VFloat 1200);
       ("max_comp_price", VFloat 1200); ("comp_price_stddev", VNone)] ].

Definition db : Warehouse.tables := {|
  Warehouse.unit_snapshot_table := units;
  Warehouse.competition_table := listings;
  Warehouse.pairs_table := pairs
|}.

(** The service connected to that warehouse. *)
Definition connected : BigQueryService := init settings (Warehouse.execute db).





(** An engine that counts the units and is down for every other query. *)
Definition counting : engine :=
  fun q =>
    match q with
    | CountUnits _ _ => Warehouse.execute db q
    | _ => inl outage
    end.

Definition counting_service : BigQueryService := init settings counting.

(** An engine that answers every query with the same single record. *)
Definition answering (record : row) : engine :=
  fun _ => inr {| columns := []; records := [record] |}.

(** A 1BR overview row and a one-bedroom rent-comparison row at an average
    rent of $1,000.  The columns of the rent comparison are all numeric, so
    its rows come with every cell a float. *)
Definition one_bed_row : row :=
  <["property" := VStr "Maple Ridge"]>
  (<["unit_type" := VStr "1BR"]>
  (<["unit_count" := VInt 3]>
  (<["avg_our_rent" := VFloat 1000]>
  (<["avg_our_rent_per_sqft" := VFloat 1.43]> ∅)))).

Definition one_bed_beds : row :=
  <["bed" := VFloat 1]>
  (<["unit_count" := VFloat 3]>
  (<["avg_our_rent" := VFloat 1000]>
  (<["min_our_rent" := VFloat 1000]>
  (<["max_our_rent" := VFloat 1000]>
  (<["avg_our_rent_per_sqft" := VFloat 1.43]> ∅))))).

(** The overview row of the Oak Court studios. *)
Definition studio_row : row :=
  <["property" := VStr "Oak Court"]>
  (<["unit_type" := VStr "STUDIO"]>
  (<["unit_count" := VInt 2]>
  (<["avg_our_rent" := VFloat 900]>
  (<["avg_our_rent_per_sqft" := VFloat 2]>
  (<["vacant_units" := VInt 1]>
  (<["units_needing_pricing" := VInt 1]>
  (<["revenue_potential" := VFloat 21600]> ∅))))))).

End Sample.

(** ** More sample services *)

Module Scenario.
Import Py Sql Db.

(** A unit $120 below its market, as the only record of every answer. *)
Definition below_market : row :=
  <["unit_id" := VStr "ER-1"]> (<["potential_rent_increase" := VFloat 120]> ∅).

Definition one_unit : BigQueryService :=
  init Sample.settings (Sample.answering below_market).

(** The portfolio of an empty table: no unit, and sums that are NULL. *)
Definition empty_portfolio : row :=
  {[ "portfolio_json" :=
       VDict (<["total_units" := VInt 0]>
             (<["occupied_units" := VNone]>
             (<["total_revenue_potential" := VNone]>
             (<["current_annual_revenue" := VNone]> ∅)))) ]}.

Definition no_units : BigQueryService :=
  init Sample.settings (Sample.answering empty_portfolio).



(** The sample warehouse asked about Oak Court, with the two grouped
    queries of the competition report answered by its studios. *)
Definition studio_beds : row :=
  <["bed" := VFloat 0]>
  (<["unit_count" := VFloat 2]>
  (<["avg_our_rent" := VFloat 900]>
  (<["min_our_rent" := VFloat 900]>
  (<["max_our_rent" := VFloat 900]>
  (<["avg_our_rent_per_sqft" := VFloat 2]> ∅))))).

Definition oak_court_engine : engine :=
  fun q =>
    match q with
    | PropertyOverview _ _ =>
        inr {| columns := []; records := [Sample.studio_row] |}
    | RentComparison _ _ => inr {| columns := []; records := [studio_beds] |}
    | _ => Warehouse.execute Sample.db q
    end.

Definition oak_court : BigQueryService := init Sample.settings oak_court_engine.

(** What an operation returns when it raises: an unused default. *)
Definition no_analysis : PropertyUnitAnalysis :=
  {| pua_property_name := ""; units := []; pua_summary := ∅ |}.

Definition no_report : PropertyVsCompetition :=
  {| pvc_property_name := ""; overview_by_unit_type := [];
     rent_comparison_by_bedrooms := []; performance_metrics := ∅ |}.

End Scenario.

(** * Properties *)

Import Py Sql Db.
Local Open Scope py_scope.

(** Unfolds the monad so that a method becomes a function of the log. *)
Ltac unfold_monad :=
  unfold result, to_dataframe, try_except, bind, lift, ret, raise, info,
    warning, error, modify, emit, Log_logger, row_dict_logger in *.

Ltac run := unfold_monad; simpl.

(** Rewrites the run of a loop with its outcome [H]. *)
Ltac rewrite_run H :=
  match type of H with
  | mapM ?f ?l _ = ?out =>
      match goal with
      | |- context [mapM f l ?s] =>
          replace (mapM f l s) with out by (symmetry; exact H)
      end
  end.

(** ** The builtins and the queries on small inputs *)

Example int_truncates :
  int_ (VFloat (1200 * 1.05)) = inr (VInt 1260)
  /\ int_ (VFloat (-3.7)) = inr (VInt (-3))
  /\ int_ (VFloat nan) = inl ValueError
  /\ int_ (VFloat infinity) = inl OverflowError.
Proof. repeat split. Qed.

Example round_is_correctly_rounded :
  round_float 2.675 2 = 2.67%float
  /\ round_float 0.125 2 = 0.12%float
  /\ round_float (-4.7619047619) 1 = (-4.8)%float
  /\ np_round_float 2.675 2 = 2.68%float.
Proof. repeat split; vm_compute; reflexivity. Qed.

Example true_division :
  truediv (VInt 3) (VInt 4) = inr (VFloat 0.75)
  /\ truediv (VInt 1) (VInt 3) = inr (VFloat (1 / 3))
  /\ truediv (VInt 1) (VInt 0) = inl ZeroDivisionError
  /\ truediv VNone (VInt 2) = inl TypeError.
Proof. repeat split; vm_compute; reflexivity. Qed.

(** The scenario of the service's description: a 1BR row at $1,200 against
    a market average of $1,260 is a real -4.8, against $1,400 it is -14.3. *)
Example premium_is_computed :
  let ours : row :=
    <["unit_type" := VStr "1BR"]>
    (<["avg_our_rent" := VFloat 1200]>
    (<["avg_our_rent_per_sqft" := VFloat 1.71]> ∅)) in
  let market rent : row :=
    <["avg_market_rent" := VFloat rent]>
    (<["avg_market_rent_per_sqft" := VFloat 1.8]>
    (<["comp_count" := VFloat 5]> ∅)) in
  let pct rent :=
    match snd (overview_row Sample.settings
                 (init Sample.settings (Sample.answering (market rent)))
                 ours []) with
    | inr d => d !! "avg_premium_discount_pct"
    | inl _ => None
    end in
  pct 1260%float = Some (VFloat (-4.8)) /\ pct 1400%float = Some (VFloat (-14.3)).
Proof. split; vm_compute; reflexivity. Qed.

Example pages_are_ordered :
  match snd (get_units Sample.settings Sample.connected 1 3 None
               (Some "Maple Ridge") false []) with
  | inr (units, total_count) =>
      (map (fun u => u !! "unit_id") units, total_count)
  | inl _ => ([], VNone)
  end
  = ([Some (VStr "MR-103"); Some (VStr "MR-202"); Some (VStr "MR-102")],
     VInt 5).
Proof. vm_compute. reflexivity. Qed.

(** ** The table-name resolver *)

Lemma prefix_append (s t : string) : String.prefix s (s +:+ t) = true.
Proof.
  induction s as [|a s IH]; simpl.
  - now destruct t.
  - rewrite IH. now destruct (Ascii.ascii_dec a a).
Qed.

Lemma nonempty_Some (t : string) : t <> "" -> nonempty (Some t) = Some t.
Proof.
  intros Ht. unfold nonempty, truthy.
  destruct (String.eqb_spec t ""); [contradiction | reflexivity].
Qed.

Lemma nonempty_empty (s : option string) :
  s = None \/ s = Some "" -> nonempty s = None.
Proof. now intros [-> | ->]. Qed.

(** The update never fails: it overwrites the three fields and logs. *)
Lemma set_table_settings_returns self ts log :
  exists log',
    set_table_settings self ts log =
      (log',
       inr {| client := client self;
              staging_dataset := staging_dataset self;
              mart_dataset := mart_dataset self;
              _rentroll_table := rentroll_table ts;
              _competition_table := competition_table ts;
              _project_id := project_id ts |}).
Proof. unfold set_table_settings. run. eauto. Qed.

(** C2 (amended): after a settings update whose rentroll and competition
    table names are non-empty strings, the two accessors return exactly the
    names passed; a service that was never updated returns the hard-coded
    fallback names, which start with the default project id. *)
Theorem settings_override_returns_values settings self ts log rentroll competition :
  rentroll_table ts = Some rentroll -> rentroll <> "" ->
  competition_table ts = Some competition -> competition <> "" ->
  (exists log' self',
      set_table_settings self ts log = (log', inr self')
      /\ get_rentroll_table settings self' = rentroll
      /\ get_competition_table settings self' = competition)
  /\ (forall c,
        get_rentroll_table settings (init settings c)
          = gcp_project_id settings +:+ ".rentroll.Update_7_8_native"
        /\ get_competition_table settings (init settings c)
          = gcp_project_id settings +:+ ".rentroll.Competition"
        /\ String.prefix (gcp_project_id settings)
             (get_rentroll_table settings (init settings c)) = true
        /\ String.prefix (gcp_project_id settings)
             (get_competition_table settings (init settings c)) = true).
Proof.
  intros Hr Hr' Hc Hc'. split.
  - destruct (set_table_settings_returns self ts log) as [log' Hset].
    eexists _, _. split; [exact Hset|].
    unfold get_rentroll_table, get_competition_table. simpl.
    rewrite Hr, Hc, !nonempty_Some by assumption. auto.
  - intros c. unfold get_rentroll_table, get_competition_table. simpl.
    repeat split; auto using prefix_append.
Qed.

Lemma settings_override_returns_values_witness :
  exists log' self',
    set_table_settings Sample.service
      {| rentroll_table := Some "ajax-prod.rentroll.Update_9_1";
         competition_table := Some "ajax-prod.rentroll.Competition_v2";
         project_id := "ajax-prod" |} [] = (log', inr self')
    /\ get_rentroll_table Sample.settings self' = "ajax-prod.rentroll.Update_9_1"
    /\ get_competition_table Sample.settings self'
        = "ajax-prod.rentroll.Competition_v2".
Proof.
  apply (settings_override_returns_values Sample.settings Sample.service
           {| rentroll_table := Some "ajax-prod.rentroll.Update_9_1";
              competition_table := Some "ajax-prod.rentroll.Competition_v2";
              project_id := "ajax-prod" |} []
           "ajax-prod.rentroll.Update_9_1" "ajax-prod.rentroll.Competition_v2");
    first [reflexivity | discriminate].
Defined.

(** C2 as stated fails: an update that passes the empty string as rentroll
    table is followed by an accessor that returns the fallback name, not the
    value passed. *)
Lemma settings_override_empty_counterexample :
  exists log' self',
    set_table_settings Sample.service
      {| rentroll_table := Some "";
         competition_table := Some "ajax-prod.rentroll.Competition_v2";
         project_id := "ajax-prod" |} [] = (log', inr self')
    /\ get_rentroll_table Sample.settings self'
        = "ajax-prod.rentroll.Update_7_8_native"
    /\ get_rentroll_table Sample.settings self' <> "".
Proof. eexists _, _. repeat split. discriminate. Qed.

(** C8: when the update passes None or the empty string as rentroll (or
    competition) table, the accessor returns the fallback name; it answers
    as a service that was never updated does. *)
Theorem empty_override_is_no_override settings self ts log :
  exists log' self',
    set_table_settings self ts log = (log', inr self')
    /\ (rentroll_table ts = None \/ rentroll_table ts = Some "" ->
        get_rentroll_table settings self'
          = gcp_project_id settings +:+ ".rentroll.Update_7_8_native"
        /\ get_rentroll_table settings self'
          = get_rentroll_table settings (init settings (client self)))
    /\ (competition_table ts = None \/ competition_table ts = Some "" ->
        get_competition_table settings self'
          = gcp_project_id settings +:+ ".rentroll.Competition"
        /\ get_competition_table settings self'
          = get_competition_table settings (init settings (client self))).
Proof.
  destruct (set_table_settings_returns self ts log) as [log' Hset].
  eexists _, _. split; [exact Hset|].
  unfold get_rentroll_table, get_competition_table. simpl.
  split; intros H; rewrite (nonempty_empty _ H); auto.
Qed.

Lemma empty_override_is_no_override_witness :
  exists log' self',
    set_table_settings Sample.service
      {| rentroll_table := Some ""; competition_table := None;
         project_id := "other-project" |} [] = (log', inr self')
    /\ get_rentroll_table Sample.settings self'
        = "ajax-prod.rentroll.Update_7_8_native"
    /\ get_competition_table Sample.settings self'
        = "ajax-prod.rentroll.Competition".
Proof.
  destruct (empty_override_is_no_override Sample.settings Sample.service
              {| rentroll_table := Some ""; competition_table := None;
                 project_id := "other-project" |} [])
    as (log' & self' & Hset & Hr & Hc).
  exists log', self'. split; [exact Hset|]. split.
  - apply Hr. right. reflexivity.
  - apply Hc. left. reflexivity.
Defined.

(** ** Coroutines and handlers *)

Lemma async_def_returns {S A} (m : M S A) s s' a :
  m s = (s', inr a) -> async_def m s = (s', inr a).
Proof. unfold async_def. now intros ->. Qed.

Lemma async_def_raises {S A} (m : M S A) s s' e :
  m s = (s', inl e) -> async_def m s = (s', inl (escaping e)).
Proof. unfold async_def. now intros ->. Qed.

Lemma async_def_inr {S A} (m : M S A) s s' a :
  async_def m s = (s', inr a) -> m s = (s', inr a).
Proof.
  unfold async_def. destruct (m s) as [s1 [e | x]]; [discriminate | auto].
Qed.

(** A body that returns is not handled. *)
Lemma returned {A} (body : M Log A) (handler : exn -> M Log A) log log1 a :
  body log = (log1, inr a) ->
  async_def (try_except body handler) log = (log1, inr a).
Proof. intros H. apply async_def_returns. unfold try_except. now rewrite H. Qed.

(** [try: body / except Exception as e: logger.error(msg); raise] as the
    body of a coroutine: what the body raises is logged and leaves. *)
Lemma reraised {A} (body : M Log A) (msg : exn -> list part) log log1 e :
  body log = (log1, inl e) ->
  async_def (try_except body (fun e => error (msg e) ;; raise e)) log
    = (log1 ++ [(ERROR, msg e)], inl (escaping e)).
Proof. intros H. apply async_def_raises. unfold_monad. now rewrite H. Qed.

(** The same with [return a] in place of [raise]. *)
Lemma substituted {A} (body : M Log A) (msg : exn -> list part) (a : A) log
    log1 e :
  body log = (log1, inl e) ->
  async_def (try_except body (fun e => error (msg e) ;; ret a)) log
    = (log1 ++ [(ERROR, msg e)], inr a).
Proof. intros H. apply async_def_returns. unfold_monad. now rewrite H. Qed.

Lemma escaping_unchanged e : e <> StopIteration -> escaping e = e.
Proof. now destruct e. Qed.

Lemma getitem_Some (d : row) key v : d !! key = Some v -> getitem d key = inr v.
Proof. unfold getitem. now intros ->. Qed.

Lemma getitem_inr (d : row) key v : getitem d key = inr v -> d !! key = Some v.
Proof. unfold getitem. destruct (d !! key); now intros [= ->]. Qed.

(** ** Query failures *)

(** C9 (amended): the comparables lookup never raises.  When its query
    raises, the exception is logged at ERROR level and [pd.DataFrame()], a
    frame with no rows and no columns, is returned in its place; when the
    query returns, its frame is returned.  By the number of its rows the
    substitute is the result of a query that found no comparables; it is
    not that result as soon as that result has a column. *)
Theorem comparables_failure_is_substituted settings self unit_id log :
  let query :=
    SelectComparables
      (_get_table_name settings (mart_dataset self) "unit_competitor_pairs")
      unit_id in
  exists log' df,
    get_unit_comparables settings self unit_id log = (log', inr df)
    /\ (forall e, client self query = inl e ->
        df = empty_frame /\ records df = [] /\ columns df = []
        /\ log' = log ++ [(ERROR, [Txt "Error fetching comparables for unit ";
                                   Txt unit_id; Txt ": "; Exc e])])
    /\ (forall frame, client self query = inr frame ->
        df = frame
        /\ log' = log ++ [(INFO, [Txt "Retrieved "; Num (len frame);
                                  Txt " comparables for unit "; Txt unit_id])]
        /\ (records frame = [] -> len df = len empty_frame)
        /\ (columns frame <> [] -> df <> empty_frame)).
Proof.
  intros query. unfold get_unit_comparables. fold query. run.
  destruct (client self query) as [e | frame] eqn:Hq; eexists _, _;
    (split; [reflexivity|]); split; intros ? [= <-]; auto.
  split; [reflexivity|]. split; [reflexivity|]. split.
  - intros Hrows. unfold len. now rewrite Hrows.
  - intros Hcolumns ->. now apply Hcolumns.
Qed.

Lemma comparables_failure_is_substituted_witness :
  exists log' df,
    get_unit_comparables Sample.settings Sample.service "OC-001" []
      = (log', inr df)
    /\ df = empty_frame /\ columns df = [].
Proof.
  destruct (comparables_failure_is_substituted Sample.settings Sample.service
              "OC-001" []) as (log' & df & Hrun & Hfail & _).
  exists log', df. split; [exact Hrun|].
  destruct (Hfail Sample.outage eq_refl) as (Hdf & _ & Hcolumns & _). auto.
Defined.

(** C9 as stated fails in its last part: a caller can tell the two apart.
    OC-001 has no comparables on record; the lookup over the warehouse
    returns a frame with no rows and the 21 columns of the SELECT list, the
    lookup with the engine down a frame with no rows and no columns. *)
Lemma comparables_distinguished_counterexample :
  let none_found :=
    snd (get_unit_comparables Sample.settings Sample.connected "OC-001" []) in
  let failed :=
    snd (get_unit_comparables Sample.settings Sample.service "OC-001" []) in
  none_found
    = inr {| columns := Warehouse.comparables_columns; records := [] |}
  /\ failed = inr empty_frame
  /\ length Warehouse.comparables_columns = 21%nat
  /\ length (columns empty_frame) = 0%nat
  /\ none_found <> failed.
Proof.
  cbv zeta. split; [vm_compute; reflexivity|]. split; [vm_compute; reflexivity|].
  split; [reflexivity|]. split; [reflexivity|].
  vm_compute. discriminate.
Qed.

(** The operations that log and re-raise what a primary query raises.  A
    primary query is one the operation issues outside any inner [try]. *)
Section Propagation.

Context (settings : Settings) (self : BigQueryService).

#[local] Abbreviation snapshot :=
  (_get_table_name settings (mart_dataset self) "unit_snapshot").
#[local] Abbreviation pairs :=
  (_get_table_name settings (mart_dataset self) "unit_competitor_pairs").
#[local] Abbreviation competition := (get_competition_table settings self).

Lemma get_units_count_reraises page page_size status property flag e log :
  client self (CountUnits snapshot (units_where status property flag)) = inl e ->
  get_units settings self page page_size status property flag log
    = (log ++ [(ERROR, [Txt "Error fetching units: "; Exc e])],
       inl (escaping e)).
Proof.
  intros H. unfold get_units. cbv zeta.
  apply (reraised _ (fun e => [Txt "Error fetching units: "; Exc e])).
  unfold_monad. now rewrite H.
Qed.

Lemma get_units_page_reraises page page_size status property flag e counts
    row0 total log :
  client self (CountUnits snapshot (units_where status property flag))
    = inr counts ->
  head (records counts) = Some row0 ->
  row0 !! "total_count" = Some total ->
  client self (SelectUnits snapshot (units_where status property flag)
                 page_size ((page - 1) * page_size)) = inl e ->
  get_units settings self page page_size status property flag log
    = (log ++ [(ERROR, [Txt "Error fetching units: "; Exc e])],
       inl (escaping e)).
Proof.
  intros Hc Hrow Ht Hd. unfold get_units. cbv zeta.
  apply (reraised _ (fun e => [Txt "Error fetching units: "; Exc e])).
  unfold_monad. rewrite Hc.
  destruct (records counts) as [|r rows]; [discriminate|].
  injection Hrow as ->. cbn [next]. unfold_monad. unfold getattr.
  now rewrite Ht, Hd.
Qed.

Lemma get_unit_by_id_reraises unit_id e log :
  client self (SelectUnitById snapshot unit_id) = inl e ->
  get_unit_by_id settings self unit_id log
    = (log ++ [(ERROR, [Txt "Error fetching unit "; Txt unit_id; Txt ": "; Exc e])],
       inl (escaping e)).
Proof.
  intros H. unfold get_unit_by_id. cbv zeta.
  apply (reraised _ (fun e => [Txt "Error fetching unit "; Txt unit_id;
                               Txt ": "; Exc e])).
  unfold_monad. now rewrite H.
Qed.

Lemma get_vacant_units_reraises limit e log :
  client self
    (SelectVacantUnits snapshot
       (match limit with
        | Some n => if n =? 0 then None else Some n
        | None => None
        end)) = inl e ->
  get_vacant_units settings self limit log
    = (log ++ [(ERROR, [Txt "Error fetching vacant units: "; Exc e])],
       inl (escaping e)).
Proof.
  intros H. unfold get_vacant_units. cbv zeta.
  apply (reraised _ (fun e => [Txt "Error fetching vacant units: "; Exc e])).
  unfold_monad. now rewrite H.
Qed.

Lemma get_portfolio_analytics_reraises e log :
  let failure :=
    (log ++ [(ERROR, [Txt "Error fetching portfolio analytics: "; Exc e])],
     inl (escaping e)) in
  (client self (PortfolioMetrics snapshot) = inl e ->
   get_portfolio_analytics settings self log = failure)
  /\ (forall metrics row0 portfolio_json,
        client self (PortfolioMetrics snapshot) = inr metrics ->
        head (records metrics) = Some row0 ->
        row0 !! "portfolio_json" = Some portfolio_json ->
        (client self (UrgencyBreakdown snapshot) = inl e ->
         get_portfolio_analytics settings self log = failure)
        /\ (forall urgency,
              client self (UrgencyBreakdown snapshot) = inr urgency ->
              client self (PropertyPerformance snapshot) = inl e ->
              get_portfolio_analytics settings self log = failure)).
Proof.
  cbv zeta. split; [|intros metrics row0 portfolio_json Hm Hrow Hjson; split].
  - intros H. unfold get_portfolio_analytics. cbv zeta.
    apply (reraised _ (fun e => [Txt "Error fetching portfolio analytics: ";
                                 Exc e])).
    unfold_monad. now rewrite H.
  - intros H. unfold get_portfolio_analytics. cbv zeta.
    apply (reraised _ (fun e => [Txt "Error fetching portfolio analytics: ";
                                 Exc e])).
    unfold_monad. rewrite Hm.
    destruct (records metrics) as [|r rows]; [discriminate|].
    injection Hrow as ->. cbn [first]. unfold_monad.
    now rewrite (getitem_Some _ _ _ Hjson), H.
  - intros urgency Hu H. unfold get_portfolio_analytics. cbv zeta.
    apply (reraised _ (fun e => [Txt "Error fetching portfolio analytics: ";
                                 Exc e])).
    unfold_monad. rewrite Hm.
    destruct (records metrics) as [|r rows]; [discriminate|].
    injection Hrow as ->. cbn [first]. unfold_monad.
    now rewrite (getitem_Some _ _ _ Hjson), Hu, H.
Qed.

Lemma get_market_position_analytics_reraises e log :
  let failure :=
    (log ++ [(ERROR, [Txt "Error fetching market position analytics: ";
                      Exc e])], inl (escaping e)) in
  (client self (MarketSummary snapshot pairs) = inl e ->
   get_market_position_analytics settings self log = failure)
  /\ (forall market,
        client self (MarketSummary snapshot pairs) = inr market ->
        client self (UnitTypeComparison snapshot pairs) = inl e ->
        get_market_position_analytics settings self log = failure).
Proof.
  cbv zeta. split; [|intros market Hm]; intros H;
    unfold get_market_position_analytics; cbv zeta;
    apply (reraised _ (fun e =>
             [Txt "Error fetching market position analytics: "; Exc e]));
    unfold_monad; [|rewrite Hm]; now rewrite H.
Qed.

Lemma get_pricing_opportunities_reraises e log :
  let failure :=
    (log ++ [(ERROR, [Txt "Error fetching pricing opportunities: "; Exc e])],
     inl (escaping e)) in
  (client self (PricingSummary snapshot pairs) = inl e ->
   get_pricing_opportunities settings self log = failure)
  /\ (forall pricing row0,
        client self (PricingSummary snapshot pairs) = inr pricing ->
        head (records pricing) = Some row0 ->
        client self (TopOpportunities snapshot pairs) = inl e ->
        get_pricing_opportunities settings self log = failure).
Proof.
  cbv zeta. split; [|intros pricing row0 Hp Hrow]; intros H;
    unfold get_pricing_opportunities; cbv zeta;
    apply (reraised _ (fun e =>
             [Txt "Error fetching pricing opportunities: "; Exc e]));
    unfold_monad.
  - now rewrite H.
  - rewrite Hp. destruct (records pricing) as [|r rows]; [discriminate|].
    cbn [first]. unfold_monad. now rewrite H.
Qed.

Lemma get_property_vs_competition_analysis_reraises name e log :
  let failure log1 :=
    (log1 ++ [(ERROR,
               [Txt "Error fetching property vs competition analysis for ";
                Txt name; Txt ": "; Exc e])], inl (escaping e)) in
  (client self (PropertyOverview snapshot name) = inl e ->
   get_property_vs_competition_analysis settings self name log = failure log)
  /\ (forall overview log1 overview_data,
        client self (PropertyOverview snapshot name) = inr overview ->
        mapM (overview_row settings self) (records overview)
          (log ++ [(INFO, [Txt "Overview query returned "; Num (len overview);
                           Txt " rows for property: "; Txt name])])
          = (log1, inr overview_data) ->
        let log2 :=
          log1 ++ [(INFO, [Txt "Overview data created: ";
                           Num (Z.of_nat (length overview_data));
                           Txt " unit types"])] in
        (client self (RentComparison snapshot name) = inl e ->
         get_property_vs_competition_analysis settings self name log
           = failure log2)
        /\ (forall comparison log3 comparison_data,
              client self (RentComparison snapshot name) = inr comparison ->
              mapM (rent_comparison_row settings self) (records comparison)
                log2 = (log3, inr comparison_data) ->
              client self (PerformanceMetrics snapshot name) = inl e ->
              get_property_vs_competition_analysis settings self name log
                = failure log3)).
Proof.
  cbv zeta. split; [|intros overview log1 overview_data Ho Hrows; split].
  - intros H. unfold get_property_vs_competition_analysis. cbv zeta.
    apply (reraised _ (fun e =>
             [Txt "Error fetching property vs competition analysis for ";
              Txt name; Txt ": "; Exc e])).
    unfold_monad. now rewrite H.
  - intros H. unfold get_property_vs_competition_analysis. cbv zeta.
    apply (reraised _ (fun e =>
             [Txt "Error fetching property vs competition analysis for ";
              Txt name; Txt ": "; Exc e])).
    unfold_monad. rewrite Ho. rewrite_run Hrows. now rewrite H.
  - intros comparison log3 comparison_data Hc Hcrows H.
    unfold get_property_vs_competition_analysis. cbv zeta.
    apply (reraised _ (fun e =>
             [Txt "Error fetching property vs competition analysis for ";
              Txt name; Txt ": "; Exc e])).
    unfold_monad. rewrite Ho. rewrite_run Hrows. rewrite Hc.
    rewrite_run Hcrows. now rewrite H.
Qed.

Lemma get_property_unit_analysis_reraises name e log :
  client self (UnitAnalysis snapshot competition name) = inl e ->
  get_property_unit_analysis settings self name log
    = (log ++ [(ERROR, [Txt "Error fetching property unit analysis for ";
                        Txt name; Txt ": "; Exc e])], inl (escaping e)).
Proof.
  intros H. unfold get_property_unit_analysis. cbv zeta.
  apply (reraised _ (fun e =>
           [Txt "Error fetching property unit analysis for "; Txt name;
            Txt ": "; Exc e])).
  unfold_monad. now rewrite H.
Qed.

(** The inner [try] of the market trends never raises. *)
Lemma top_competitors_of_returns query name log :
  exists log1 competitors,
    top_competitors_of self query name log = (log1, inr competitors).
Proof.
  unfold top_competitors_of. unfold_monad.
  destruct (client self query) as [e | df]; [eauto|].
  destruct (0 <? len df); eauto.
Qed.

Lemma get_property_market_trends_reraises name e log :
  let failure log1 :=
    (log1 ++ [(ERROR, [Txt "Error fetching property market trends for ";
                       Txt name; Txt ": "; Exc e])], inl (escaping e)) in
  (client self (MarketPositioning snapshot competition name) = inl e ->
   get_property_market_trends settings self name log = failure log)
  /\ (forall positioning,
        client self (MarketPositioning snapshot competition name)
          = inr positioning ->
        client self (RentDistribution snapshot name) = inl e ->
        get_property_market_trends settings self name log
          = failure
              (fst (top_competitors_of self
                      (TopCompetitors snapshot competition name) name log))).
Proof.
  cbv zeta. split; [|intros positioning Hp]; intros H;
    unfold get_property_market_trends; cbv zeta;
    apply (reraised _ (fun e =>
             [Txt "Error fetching property market trends for "; Txt name;
              Txt ": "; Exc e])).
  - unfold_monad. now rewrite H.
  - destruct (top_competitors_of_returns
                (TopCompetitors snapshot competition name) name log)
      as (log1 & competitors & Hinner).
    unfold bind at 1. unfold to_dataframe at 1. unfold lift at 1.
    rewrite Hp. unfold bind at 1. rewrite Hinner. cbn [fst].
    unfold_monad. now rewrite H.
Qed.

(** The three operations that log and return a substitute instead. *)
Lemma get_unit_comparables_substitutes unit_id e log :
  client self (SelectComparables pairs unit_id) = inl e ->
  get_unit_comparables settings self unit_id log
    = (log ++ [(ERROR, [Txt "Error fetching comparables for unit ";
                        Txt unit_id; Txt ": "; Exc e])], inr empty_frame).
Proof.
  intros H. unfold get_unit_comparables. cbv zeta.
  apply (substituted _ (fun e => [Txt "Error fetching comparables for unit ";
                                  Txt unit_id; Txt ": "; Exc e])).
  unfold_monad. now rewrite H.
Qed.

Lemma get_properties_substitutes e log :
  client self (SelectProperties snapshot) = inl e ->
  get_properties settings self log
    = (log ++ [(ERROR, [Txt "Error fetching properties: "; Exc e])], inr []).
Proof.
  intros H. unfold get_properties. cbv zeta.
  apply (substituted _ (fun e => [Txt "Error fetching properties: "; Exc e])).
  unfold_monad. now rewrite H.
Qed.

Lemma get_unit_types_summary_substitutes e log :
  client self (UnitTypesSummary snapshot) = inl e ->
  get_unit_types_summary settings self log
    = (log ++ [(ERROR, [Txt "Error fetching unit types summary: "; Exc e])],
       inr []).
Proof.
  intros H. unfold get_unit_types_summary. cbv zeta.
  apply (substituted _ (fun e => [Txt "Error fetching unit types summary: ";
                                  Exc e])).
  unfold_monad. now rewrite H.
Qed.

End Propagation.

(** C1 (amended): a primary query is one an operation issues outside any
    inner [try].  When a primary query raises [e], the first or a later one,
    nine operations log [e] once at ERROR level and re-raise it: the
    paginated listing (count and page query), the single lookup, the vacancy
    listing, the portfolio analytics (three queries), the market position
    (two), the pricing opportunities (two), the property-vs-competition
    report (overview, rent comparison and performance query), the unit-level
    analysis and the market trends (positioning and distribution query).
    The exception leaves unchanged, but for a StopIteration, which leaves a
    coroutine as RuntimeError.  The enrichment queries of the report and the
    competitors query of the market trends are not primary: they sit in a
    [try] of their own.  The comparables lookup, the distinct-properties
    listing and the per-unit-type summary log the exception and return an
    empty frame, an empty list and an empty dict in its place. *)
Theorem primary_query_failures settings self e log :
  let snapshot := _get_table_name settings (mart_dataset self) "unit_snapshot" in
  let pairs :=
    _get_table_name settings (mart_dataset self) "unit_competitor_pairs" in
  let competition := get_competition_table settings self in
  let raised {A} (message : list part) (log1 : Log) : Log * (exn + A) :=
    (log1 ++ [(ERROR, message ++ [Exc e])], inl (escaping e)) in
  let substitute {A} (message : list part) (a : A) : Log * (exn + A) :=
    (log ++ [(ERROR, message ++ [Exc e])], inr a) in
  (* the paginated listing *)
  (forall page page_size status property flag,
      let run :=
        get_units settings self page page_size status property flag log in
      let where_clause := units_where status property flag in
      (client self (CountUnits snapshot where_clause) = inl e ->
       run = raised [Txt "Error fetching units: "] log)
      /\ (forall counts row0 total,
            client self (CountUnits snapshot where_clause) = inr counts ->
            head (records counts) = Some row0 ->
            row0 !! "total_count" = Some total ->
            client self (SelectUnits snapshot where_clause page_size
                           ((page - 1) * page_size)) = inl e ->
            run = raised [Txt "Error fetching units: "] log))
  (* the single lookup and the vacancy listing *)
  /\ (forall unit_id,
        client self (SelectUnitById snapshot unit_id) = inl e ->
        get_unit_by_id settings self unit_id log
          = raised [Txt "Error fetching unit "; Txt unit_id; Txt ": "] log)
  /\ (forall limit,
        client self
          (SelectVacantUnits snapshot
             (match limit with
              | Some n => if n =? 0 then None else Some n
              | None => None
              end)) = inl e ->
        get_vacant_units settings self limit log
          = raised [Txt "Error fetching vacant units: "] log)
  (* the portfolio analytics *)
  /\ (let run := get_portfolio_analytics settings self log in
      let failure := raised [Txt "Error fetching portfolio analytics: "] log in
      (client self (PortfolioMetrics snapshot) = inl e -> run = failure)
      /\ (forall metrics row0 portfolio_json,
            client self (PortfolioMetrics snapshot) = inr metrics ->
            head (records metrics) = Some row0 ->
            row0 !! "portfolio_json" = Some portfolio_json ->
            (client self (UrgencyBreakdown snapshot) = inl e -> run = failure)
            /\ (forall urgency,
                  client self (UrgencyBreakdown snapshot) = inr urgency ->
                  client self (PropertyPerformance snapshot) = inl e ->
                  run = failure)))
  (* the market position *)
  /\ (let run := get_market_position_analytics settings self log in
      let failure :=
        raised [Txt "Error fetching market position analytics: "] log in
      (client self (MarketSummary snapshot pairs) = inl e -> run = failure)
      /\ (forall market,
            client self (MarketSummary snapshot pairs) = inr market ->
            client self (UnitTypeComparison snapshot pairs) = inl e ->
            run = failure))
  (* the pricing opportunities *)
  /\ (let run := get_pricing_opportunities settings self log in
      let failure :=
        raised [Txt "Error fetching pricing opportunities: "] log in
      (client self (PricingSummary snapshot pairs) = inl e -> run = failure)
      /\ (forall pricing row0,
            client self (PricingSummary snapshot pairs) = inr pricing ->
            head (records pricing) = Some row0 ->
            client self (TopOpportunities snapshot pairs) = inl e ->
            run = failure))
  (* the property-vs-competition report *)
  /\ (forall name,
        let run :=
          get_property_vs_competition_analysis settings self name log in
        let failure :=
          raised [Txt "Error fetching property vs competition analysis for ";
                  Txt name; Txt ": "] in
        (client self (PropertyOverview snapshot name) = inl e ->
         run = failure log)
        /\ (forall overview log1 overview_data,
              client self (PropertyOverview snapshot name) = inr overview ->
              mapM (overview_row settings self) (records overview)
                (log ++ [(INFO, [Txt "Overview query returned ";
                                 Num (len overview);
                                 Txt " rows for property: "; Txt name])])
                = (log1, inr overview_data) ->
              let log2 :=
                log1 ++ [(INFO, [Txt "Overview data created: ";
                                 Num (Z.of_nat (length overview_data));
                                 Txt " unit types"])] in
              (client self (RentComparison snapshot name) = inl e ->
               run = failure log2)
              /\ (forall comparison log3 comparison_data,
                    client self (RentComparison snapshot name)
                      = inr comparison ->
                    mapM (rent_comparison_row settings self)
                      (records comparison) log2
                      = (log3, inr comparison_data) ->
                    client self (PerformanceMetrics snapshot name) = inl e ->
                    run = failure log3)))
  (* the unit-level analysis *)
  /\ (forall name,
        client self (UnitAnalysis snapshot competition name) = inl e ->
        get_property_unit_analysis settings self name log
          = raised [Txt "Error fetching property unit analysis for ";
                    Txt name; Txt ": "] log)
  (* the market trends *)
  /\ (forall name,
        let run := get_property_market_trends settings self name log in
        let failure :=
          raised [Txt "Error fetching property market trends for ";
                  Txt name; Txt ": "] in
        (client self (MarketPositioning snapshot competition name) = inl e ->
         run = failure log)
        /\ (forall positioning,
              client self (MarketPositioning snapshot competition name)
                = inr positioning ->
              client self (RentDistribution snapshot name) = inl e ->
              run = failure
                      (fst (top_competitors_of self
                              (TopCompetitors snapshot competition name)
                              name log))))
  (* what leaves the coroutine *)
  /\ (e <> StopIteration -> escaping e = e)
  (* the three operations that substitute *)
  /\ (forall unit_id,
        client self (SelectComparables pairs unit_id) = inl e ->
        get_unit_comparables settings self unit_id log
          = substitute [Txt "Error fetching comparables for unit ";
                        Txt unit_id; Txt ": "] empty_frame)
  /\ (client self (SelectProperties snapshot) = inl e ->
      get_properties settings self log
        = substitute [Txt "Error fetching properties: "] [])
  /\ (client self (UnitTypesSummary snapshot) = inl e ->
      get_unit_types_summary settings self log
        = substitute [Txt "Error fetching unit types summary: "] []).
Proof.
  cbv zeta.
  split; [intros; split;
          [apply get_units_count_reraises
          |intros counts row0 total; apply get_units_page_reraises]|].
  split; [intros unit_id; apply get_unit_by_id_reraises|].
  split; [intros limit; apply get_vacant_units_reraises|].
  split; [apply get_portfolio_analytics_reraises|].
  split; [apply get_market_position_analytics_reraises|].
  split; [apply get_pricing_opportunities_reraises|].
  split; [intros name; apply get_property_vs_competition_analysis_reraises|].
  split; [intros name; apply get_property_unit_analysis_reraises|].
  split; [intros name; apply get_property_market_trends_reraises|].
  split; [apply escaping_unchanged|].
  split; [intros unit_id; apply get_unit_comparables_substitutes|].
  split; [apply get_properties_substitutes|].
  apply get_unit_types_summary_substitutes.
Qed.

(** With an engine that counts and is down for every other query, the
    listing fails at its second query; with the engine down, at its first. *)
Lemma primary_query_failures_witness :
  get_units Sample.settings Sample.counting_service 1 50 None None false []
    = ([(ERROR, [Txt "Error fetching units: "; Exc Sample.outage])],
       inl Sample.outage)
  /\ get_units Sample.settings Sample.service 1 50 None None false []
    = ([(ERROR, [Txt "Error fetching units: "; Exc Sample.outage])],
       inl Sample.outage)
  /\ get_properties Sample.settings Sample.service []
    = ([(ERROR, [Txt "Error fetching properties: "; Exc Sample.outage])],
       inr []).
Proof.
  destruct (primary_query_failures Sample.settings Sample.counting_service
              Sample.outage []) as (Hpage & _).
  destruct (primary_query_failures Sample.settings Sample.service
              Sample.outage [])
    as (Hcount & _ & _ & _ & _ & _ & _ & _ & _ & _ & _ & Hproperties & _).
  split; [|split].
  - destruct (Hpage 1 50 None None false) as [_ Hsecond].
    eapply Hsecond; reflexivity.
  - destruct (Hcount 1 50 None None false) as [Hfirst _].
    apply Hfirst. reflexivity.
  - apply Hproperties. reflexivity.
Defined.

(** C1 as stated fails: with the engine down, the comparables lookup, the
    properties listing and the unit-type summary do not raise the engine's
    exception; each returns an empty value. *)
Lemma substitutes_counterexample :
  (snd (get_unit_comparables Sample.settings Sample.service "A-101" [])
     = inr empty_frame
   /\ snd (get_unit_comparables Sample.settings Sample.service "A-101" [])
        <> inl Sample.outage)
  /\ (snd (get_properties Sample.settings Sample.service []) = inr []
      /\ snd (get_properties Sample.settings Sample.service [])
           <> inl Sample.outage)
  /\ (snd (get_unit_types_summary Sample.settings Sample.service []) = inr []
      /\ snd (get_unit_types_summary Sample.settings Sample.service [])
           <> inl Sample.outage).
Proof. repeat split; discriminate. Qed.

(** ** Occupancy rate *)

Lemma float_positive_nonzero (f : PrimFloat.float) :
  (0 <? f)%float = true -> (f =? 0)%float = false.
Proof.
  rewrite FloatAxioms.ltb_spec, FloatAxioms.eqb_spec.
  change (Prim2SF 0) with (S754_zero false).
  unfold SFltb, SFeqb.
  destruct (Prim2SF f) as [s | s | | s m e]; simpl; try discriminate;
    destruct s; simpl; congruence.
Qed.





(** Destructs the builtin calls a computation is stuck on. *)
Ltac step :=
  match goal with
  | |- context [match ?x with _ => _ end] =>
      lazymatch x with
      | context [match _ with _ => _ end] => fail
      | _ => destruct x eqn:?
      end
  end.

(** The occupancy computations neither read nor change the state. *)
Lemma portfolio_occupancy_rate_pure S (data : row) (s : S) :
  portfolio_occupancy_rate data s
    = (s, snd (portfolio_occupancy_rate data tt)).
Proof. unfold portfolio_occupancy_rate. unfold_monad. repeat step; reflexivity. Qed.










(** ** Reading a frame *)

(** An int64 that is read back as a positive float64 is positive. *)
Lemma float64_of_int_positive n :
  gt_int (VFloat (float64_of_int n)) 0 = inr true -> 0 < n.
Proof.
  unfold gt_int. cbn [as_number]. intros [= H].
  destruct n as [|p|p]; [vm_compute in H; discriminate | lia | exfalso].
  unfold float64_of_int in H. cbn [Z.leb Z.compare] in H.
  destruct (Z.neg p =? - 2 ^ 63); [vm_compute in H; discriminate|].
  rewrite FloatAxioms.ltb_spec, FloatAxioms.opp_spec,
    FloatAxioms.of_uint63_spec in H.
  replace (Prim2SF (float_of_scaled 0 0)) with (S754_zero false) in H
    by (vm_compute; reflexivity).
  pose proof (Uint63.to_Z_bounded (Uint63.of_Z (- Z.neg p))) as [Hpos _].
  destruct (Uint63.to_Z (Uint63.of_Z (- Z.neg p))) as [|q|q]; [| |lia].
  - discriminate.
  - unfold binary_normalize, binary_round, binary_round_aux in H.
    destruct (shl_align q 0 _) as [mz ez].
    destruct (shr_fexp _ _ _ _ _) as [mrs e1].
    destruct (shr_fexp _ _ _ _ _) as [mrs2 e2].
    destruct (shr_m mrs2); [discriminate | | discriminate].
    destruct (e2 <=? emax - prec); discriminate.
Qed.

(** A cell of the row Series is the cell of the record, an int64 cell
    possibly read back as a float64. *)
Lemma series_lookup (r : row) key v' :
  series r !! key = Some v' ->
  exists v,
    r !! key = Some v
    /\ (v' = v \/ exists n, v = VInt n /\ v' = VFloat (float64_of_int n)).
Proof.
  unfold series. cbv zeta.
  destruct (forallb numeric _ && existsb is_float _); [|eauto].
  rewrite lookup_fmap. destruct (r !! key) as [v|]; [|discriminate].
  intros [= <-]. exists v. split; [reflexivity|].
  destruct v; cbn [as_float64]; eauto.
Qed.

(** A count that reads back as positive is positive. *)
Lemma series_positive (r : row) key count :
  series r !! key = Some count -> gt_int count 0 = inr true ->
  exists v, r !! key = Some v /\ gt_int v 0 = inr true.
Proof.
  intros Hread Hgt.
  apply series_lookup in Hread as (v & Hv & [-> | (n & -> & ->)]); [eauto|].
  exists (VInt n). split; [exact Hv|].
  apply float64_of_int_positive in Hgt. unfold gt_int. cbn [as_number].
  f_equal. now apply Z.ltb_lt.
Qed.

(** ** Enrichment fallbacks *)

(** Without a record of positive comp count the test of the enrichment
    result is false, or it raises; it never changes the state. *)
Lemma has_comps_no_market_data S (df : DataFrame) (s : S) :
  no_market_data (inr df) ->
  has_comps df s = (s, inr false) \/ exists e, has_comps df s = (s, inl e).
Proof.
  unfold no_market_data, has_comps, len, iloc0. intros Hnone. unfold_monad.
  destruct (records df) as [|r rows]; [now left|].
  apply Forall_cons in Hnone as [Hr _]. simpl.
  destruct (getitem (series r) "avg_market_rent") as [e | avg];
    [right; eauto|].
  destruct (is_none avg); [now left|].
  destruct (getitem (series r) "comp_count") as [e | count] eqn:Hcount;
    [right; eauto|].
  destruct (gt_int count 0) as [e | [|]] eqn:Hgt; [right; eauto | | now left].
  exfalso. apply Hr. apply getitem_inr in Hcount.
  exact (series_positive r "comp_count" count Hcount Hgt).
Qed.

(** What the mock assignments leave in [row_dict] when they all succeed. *)
Lemma overview_mock_returns (row d : row) (l : Log) s' :
  overview_mock row (d, l) = (s', inr tt) ->
  exists rent scaled market_rent psf scaled_psf market_psf,
    row !! "avg_our_rent" = Some rent
    /\ mul rent (VFloat 1.05) = inr scaled
    /\ int_ scaled = inr market_rent
    /\ row !! "avg_our_rent_per_sqft" = Some psf
    /\ mul psf (VFloat 1.05) = inr scaled_psf
    /\ round_ scaled_psf 2 = inr market_psf
    /\ s' = (<["avg_premium_discount_pct" := VFloat (-4.8)]>
              (<["avg_market_rent_per_sqft" := market_psf]>
                (<["avg_market_rent" := market_rent]> d)), l).
Proof.
  unfold overview_mock, setitem. unfold_monad.
  destruct (getitem row "avg_our_rent") as [e | rent] eqn:Hrent;
    [discriminate|].
  destruct (mul rent (VFloat 1.05)) as [e | scaled] eqn:Hscaled;
    [discriminate|].
  destruct (int_ scaled) as [e | market_rent] eqn:Hint; [discriminate|].
  cbn [fst snd].
  destruct (getitem row "avg_our_rent_per_sqft") as [e | psf] eqn:Hpsf;
    [discriminate|].
  destruct (mul psf (VFloat 1.05)) as [e | scaled_psf] eqn:Hscaled_psf;
    [discriminate|].
  destruct (round_ scaled_psf 2) as [e | market_psf] eqn:Hround;
    [discriminate|].
  cbn [fst snd]. intros [= <-].
  exists rent, scaled, market_rent, psf, scaled_psf, market_psf.
  repeat split; auto using getitem_inr.
Qed.

(** Whether the mock assignments return or raise depends on the row
    alone, not on the state they are run in. *)
Lemma overview_mock_outcome (row : row) (s1 s2 : Py.row * Log) :
  snd (overview_mock row s1) = snd (overview_mock row s2).
Proof.
  unfold overview_mock, setitem. unfold_monad.
  repeat step; reflexivity.
Qed.

(** An overview row whose enrichment found nothing, or failed, is the
    outcome of the mock assignments on the row itself; only the log differs
    between the two cases. *)
Lemma overview_row_falls_back settings self (row : row) log unit_type rent lo hi :
  row !! "unit_type" = Some unit_type ->
  row !! "avg_our_rent" = Some rent ->
  mul rent (VFloat 0.7) = inr lo ->
  mul rent (VFloat 1.3) = inr hi ->
  no_market_data
    (client self
       (MarketEnrichment (get_competition_table settings self)
          (market_conditions (bed_filter unit_type) lo hi))) ->
  exists l0 s' r,
    overview_mock row (row, l0) = (s', r)
    /\ exists l1,
       overview_row settings self row log
         = (l1, match r with inr _ => inr (fst s') | inl e => inl e end).
Proof.
  intros Hut Hrent Hlo Hhi Hdata.
  unfold overview_row. cbv zeta. unfold_monad.
  rewrite (getitem_Some _ _ _ Hut), (getitem_Some _ _ _ Hrent), Hlo, Hhi.
  unfold with_row_dict.
  destruct (client self _) as [e | df] eqn:Hq.
  - cbn [fst snd].
    destruct (overview_mock row (row, log ++ _)) as [s' r] eqn:Hmock.
    eexists _, s', r. split; [exact Hmock|].
    destruct r as [e' | []]; eauto.
  - destruct (has_comps_no_market_data (Py.row * Log) df (row, log) Hdata)
      as [Hf | [e Hf]]; unfold_monad; rewrite Hf.
    + destruct (overview_mock row (row, log)) as [s' r] eqn:Hmock.
      eexists _, s', r. split; [exact Hmock|].
      destruct r as [e' | []]; cbn [fst snd]; eauto.
      match goal with
      | |- context [overview_mock row (s'.1, ?l)] =>
          pose proof (overview_mock_outcome row (row, log) (s'.1, l)) as Hagain;
          rewrite Hmock in Hagain; revert Hagain;
          destruct (overview_mock row (s'.1, l)) as [s'' r']
      end.
      simpl. intros <-. eauto.
    + cbn [fst snd].
      destruct (overview_mock row (row, log ++ _)) as [s' r] eqn:Hmock.
      eexists _, s', r. split; [exact Hmock|].
      destruct r as [e' | []]; eauto.
Qed.

Lemma mul_floats x c : mul (VFloat x) (VFloat c) = inr (VFloat (x * c)).
Proof. reflexivity. Qed.

Lemma overview_row_carries_mock settings self (row : row) log unit_type rent
    lo hi log' d :
  row !! "unit_type" = Some unit_type ->
  row !! "avg_our_rent" = Some rent ->
  mul rent (VFloat 0.7) = inr lo ->
  mul rent (VFloat 1.3) = inr hi ->
  no_market_data
    (client self
       (MarketEnrichment (get_competition_table settings self)
          (market_conditions (bed_filter unit_type) lo hi))) ->
  overview_row settings self row log = (log', inr d) ->
  carries_overview_mock row d.
Proof.
  intros Hut Hrent Hlo Hhi Hdata Hrun.
  destruct (overview_row_falls_back settings self row log unit_type rent lo hi
              Hut Hrent Hlo Hhi Hdata) as (l0 & s' & r & Hmock & l1 & Hrow).
  rewrite Hrun in Hrow. destruct r as [e | []]; [discriminate|].
  injection Hrow as -> ->.
  apply overview_mock_returns in Hmock
    as (rent' & scaled & market_rent & psf & scaled_psf & market_psf
        & H1 & H2 & H3 & H4 & H5 & H6 & ->).
  exists rent', scaled, market_rent, psf, scaled_psf, market_psf.
  cbn [fst]. repeat split; auto.
  - rewrite !lookup_insert_ne by discriminate. apply lookup_insert_eq.
  - rewrite lookup_insert_ne by discriminate. apply lookup_insert_eq.
  - apply lookup_insert_eq.
Qed.

Lemma overview_row_returns_mock settings self (row : row) log unit_type lo hi
    x y n :
  row !! "unit_type" = Some unit_type ->
  row !! "avg_our_rent" = Some (VFloat x) ->
  row !! "avg_our_rent_per_sqft" = Some (VFloat y) ->
  int_of_float (x * 1.05) = inr n ->
  mul (VFloat x) (VFloat 0.7) = inr lo ->
  mul (VFloat x) (VFloat 1.3) = inr hi ->
  no_market_data
    (client self
       (MarketEnrichment (get_competition_table settings self)
          (market_conditions (bed_filter unit_type) lo hi))) ->
  exists log',
    overview_row settings self row log
      = (log',
         inr (<["avg_premium_discount_pct" := VFloat (-4.8)]>
               (<["avg_market_rent_per_sqft" := VFloat (round_float (y * 1.05) 2)]>
                 (<["avg_market_rent" := VInt n]> row)))).
Proof.
  intros Hut Hrent Hpsf Hint Hlo Hhi Hdata.
  destruct (overview_row_falls_back settings self row log unit_type _ lo hi
              Hut Hrent Hlo Hhi Hdata) as (l0 & s' & r & Hmock & l1 & Hrow).
  exists l1. rewrite Hrow.
  unfold overview_mock, setitem in Hmock. unfold_monad.
  rewrite (getitem_Some _ _ _ Hrent), (getitem_Some _ _ _ Hpsf) in Hmock.
  rewrite !mul_floats in Hmock. cbn [int_ round_] in Hmock.
  rewrite Hint in Hmock. cbn [fst snd] in Hmock.
  now injection Hmock as <- <-.
Qed.

Lemma mapM_returns {S A B} (f : A -> M S B) l s s' ys :
  mapM f l s = (s', inr ys) ->
  Forall2 (fun x y => exists s1 s2, f x s1 = (s2, inr y)) l ys.
Proof.
  revert s ys. induction l as [|x l IH]; intros s ys; simpl; unfold_monad.
  - intros [= <- <-]. constructor.
  - destruct (f x s) as [s1 [e | y]] eqn:Hx; [discriminate|].
    destruct (mapM f l s1) as [s2 [e | ys']] eqn:Hl; [discriminate|].
    intros [= <- <-]. constructor; eauto.
Qed.

(** The overview rows an analysis returns are the loop body's results on
    the records of the overview query, in order. *)
Lemma overview_rows_of_analysis settings self name log log' r :
  get_property_vs_competition_analysis settings self name log = (log', inr r) ->
  exists frame,
    client self
      (PropertyOverview
         (_get_table_name settings (mart_dataset self) "unit_snapshot") name)
      = inr frame
    /\ Forall2 (fun row d => exists l1 l2,
                  overview_row settings self row l1 = (l2, inr d))
         (records frame) (overview_by_unit_type r).
Proof.
  unfold get_property_vs_competition_analysis. cbv zeta.
  intros Hrun. apply async_def_inr in Hrun. revert Hrun. unfold_monad.
  destruct (client self (PropertyOverview _ _)) as [e | frame]; [discriminate|].
  destruct (mapM _ _ _) as [s1 [e | overview_data]] eqn:Hrows; [discriminate|].
  repeat step; try discriminate.
  intros [= <- <-]. exists frame. split; [reflexivity|].
  simpl. eapply mapM_returns, Hrows.
Qed.

(** C3: in the overview by unit type, a row whose enrichment query raises,
    or returns no record with a positive comp count, is returned with the
    mock figures: avg_market_rent = int(avg_our_rent * 1.05),
    avg_market_rent_per_sqft = round(avg_our_rent_per_sqft * 1.05, 2) and
    avg_premium_discount_pct = -4.8.  This holds of every row the loop body
    returns and of the rows of the returned analysis; the loop body does
    return when the row's two averages are floats and the scaled rent is
    finite. *)
Theorem overview_fallback_values settings self (row : row) unit_type rent lo hi :
  row !! "unit_type" = Some unit_type ->
  row !! "avg_our_rent" = Some rent ->
  mul rent (VFloat 0.7) = inr lo ->
  mul rent (VFloat 1.3) = inr hi ->
  no_market_data
    (client self
       (MarketEnrichment (get_competition_table settings self)
          (market_conditions (bed_filter unit_type) lo hi))) ->
  (forall log log' d,
      overview_row settings self row log = (log', inr d) ->
      carries_overview_mock row d)
  /\ (forall log x y n,
        rent = VFloat x ->
        row !! "avg_our_rent_per_sqft" = Some (VFloat y) ->
        int_of_float (x * 1.05) = inr n ->
        exists log',
          overview_row settings self row log
            = (log',
               inr (<["avg_premium_discount_pct" := VFloat (-4.8)]>
                     (<["avg_market_rent_per_sqft" :=
                          VFloat (round_float (y * 1.05) 2)]>
                       (<["avg_market_rent" := VInt n]> row)))))
  /\ (forall name log log' r frame,
        client self
          (PropertyOverview
             (_get_table_name settings (mart_dataset self) "unit_snapshot")
             name) = inr frame ->
        row ∈ records frame ->
        get_property_vs_competition_analysis settings self name log
          = (log', inr r) ->
        exists d, d ∈ overview_by_unit_type r /\ carries_overview_mock row d).
Proof.
  intros Hut Hrent Hlo Hhi Hdata. split; [|split].
  - intros log log' d. eapply overview_row_carries_mock; eauto.
  - intros log x y n -> Hpsf Hint.
    eapply overview_row_returns_mock; eauto.
  - intros name log log' r frame Hq Hin Hrun.
    apply overview_rows_of_analysis in Hrun as (frame' & Hq' & Hall).
    rewrite Hq in Hq'. injection Hq' as <-.
    apply list_elem_of_lookup in Hin as [i Hi].
    destruct (Forall2_lookup_l _ _ _ _ _ Hall Hi) as (d & Hd & l1 & l2 & Hrow).
    exists d. split; [eapply list_elem_of_lookup_2, Hd|].
    eapply overview_row_carries_mock; eauto.
Qed.

Lemma overview_fallback_values_witness :
  exists log',
    overview_row Sample.settings Sample.connected Sample.studio_row []
      = (log',
         inr (<["avg_premium_discount_pct" := VFloat (-4.8)]>
               (<["avg_market_rent_per_sqft" := VFloat 2.1]>
                 (<["avg_market_rent" := VInt 945]> Sample.studio_row)))).
Proof.
  assert (Hnone : no_market_data
            (client Sample.connected
               (MarketEnrichment
                  (get_competition_table Sample.settings Sample.connected)
                  (market_conditions (bed_filter (VStr "STUDIO"))
                     (VFloat (900 * 0.7)) (VFloat (900 * 1.3)))))).
  { vm_compute. repeat constructor. intros (v & [= <-] & [=]). }
  destruct (overview_fallback_values Sample.settings Sample.connected
              Sample.studio_row (VStr "STUDIO") (VFloat 900)
              (VFloat (900 * 0.7)) (VFloat (900 * 1.3))
              eq_refl eq_refl eq_refl eq_refl Hnone) as (_ & Hreturns & _).
  exact (Hreturns [] 900%float 2%float 945 eq_refl eq_refl eq_refl).
Defined.

(** ** Top competitors *)








(** ** The two enrichment queries *)

Lemma filter_and {A} (p q : A -> bool) (l : list A) :
  List.filter (fun a => p a && q a) l = List.filter q (List.filter p l).
Proof.
  induction l as [|a l IH]; [reflexivity|]. simpl.
  destruct (p a); simpl; [destruct (q a)|]; now rewrite IH.
Qed.

(** The overview's population is the rent comparison's population cut to
    the price band. *)
Lemma market_population_is_banded (table : list Warehouse.Competition) bed
    lo hi :
  plain bed = true -> is_finite lo = true -> is_finite hi = true ->
  exists comps,
    Warehouse.population table (comp_conditions bed) = Some comps
    /\ Warehouse.population table (market_conditions bed (VFloat lo) (VFloat hi))
       = Some (List.filter
                 (fun l => Warehouse.between (Warehouse.Base_Price l) lo hi)
                 comps).
Proof.
  intros Hbed Hlo Hhi. eexists. split.
  - unfold Warehouse.population, comp_conditions. simpl. rewrite Hbed.
    reflexivity.
  - unfold Warehouse.population, market_conditions. simpl.
    rewrite Hbed, Hlo, Hhi. simpl. f_equal.
    rewrite <- filter_and. apply filter_ext. intros l.
    now rewrite !andb_true_r, <- !andb_assoc.
Qed.

(** A float cell is read back as it is. *)
Lemma series_float (r : row) key f :
  r !! key = Some (VFloat f) -> series r !! key = Some (VFloat f).
Proof.
  intros H. unfold series. cbv zeta.
  destruct (forallb numeric _ && existsb is_float _); [|exact H].
  now rewrite lookup_fmap, H.
Qed.

Lemma number_or_nan_float x : exists f, Warehouse.number_or_nan x = VFloat f.
Proof. destruct x; simpl; eauto. Qed.

(** What the two enrichment queries answer over a table of listings: one
    row, whose average rent is taken over the population of the query. *)
Lemma enrichment_answers (table : list Warehouse.Competition) conditions comps :
  Warehouse.population table conditions = Some comps ->
  let average :=
    Warehouse.number_or_nan
      (Warehouse.rounded
         (Warehouse.sql_avg (Warehouse.values Warehouse.Base_Price comps)) 0) in
  (exists df,
      Warehouse.bedroom_enrichment table conditions = inr df
      /\ length (records df) = 1%nat
      /\ iloc0 df "avg_market_rent" = inr average)
  /\ (exists df,
        Warehouse.market_enrichment table conditions = inr df
        /\ length (records df) = 1%nat
        /\ iloc0 df "avg_market_rent" = inr average).
Proof.
  intros Hcomps average.
  destruct (number_or_nan_float
              (Warehouse.rounded
                 (Warehouse.sql_avg
                    (Warehouse.values Warehouse.Base_Price comps)) 0))
    as [f Hf].
  unfold Warehouse.bedroom_enrichment, Warehouse.market_enrichment.
  rewrite Hcomps.
  split; eexists; (split; [reflexivity|]); (split; [reflexivity|]);
    unfold iloc0; cbn [records]; subst average; rewrite Hf;
    apply getitem_Some, series_float; rewrite <- Hf; apply lookup_insert_eq.
Qed.

(** The test of an enrichment result that holds an average and a positive
    count. *)
Lemma has_comps_found S (df : DataFrame) (s : S) avg count :
  iloc0 df "avg_market_rent" = inr avg -> is_none avg = false ->
  iloc0 df "comp_count" = inr count -> gt_int count 0 = inr true ->
  has_comps df s = (s, inr true).
Proof.
  intros Havg Hnone Hcount Hgt. unfold has_comps.
  assert (Hlen : (0 <? len df) = true).
  { unfold iloc0 in Havg. unfold len.
    destruct (records df); [discriminate|]. cbn [length]. apply Z.ltb_lt. lia. }
  rewrite Hlen. unfold_monad. now rewrite Havg, Hnone, Hcount, Hgt.
Qed.

Lemma gt_float_zero f : gt_int (VFloat f) 0 = inr (0 <? f)%float.
Proof. reflexivity. Qed.

(** A float that equals zero truncates to the int 0. *)
Lemma int_of_zero f n :
  (f =? 0)%float = true -> int_of_float f = inr n -> n = 0.
Proof.
  rewrite FloatAxioms.eqb_spec. unfold int_of_float.
  change (Prim2SF 0) with (S754_zero false). unfold SFeqb.
  destruct (Prim2SF f) as [s | s | | s m e]; simpl; try discriminate.
  - now intros _ [= <-].
  - destruct s; discriminate.
Qed.

(** [int(x or 0)] and [float(x or 0)] of a float cell. *)
Lemma int_or_zero f n :
  int_of_float f = inr n -> int_ (or_ (VFloat f) (VInt 0)) = inr (VInt n).
Proof.
  intros Hn. unfold or_, truthy.
  destruct (f =? 0)%float eqn:Hzero; simpl.
  - now rewrite (int_of_zero f n Hzero Hn).
  - now rewrite Hn.
Qed.

Lemma float_or_zero_cell f :
  float_ (or_ (VFloat f) (VInt 0))
    = inr (VFloat (if (f =? 0)%float then 0 else f)).
Proof. unfold or_, truthy. now destruct (f =? 0)%float. Qed.

(** [round((ours - avg) / avg * 100, 1)] for a positive market average, with
    numpy's float64 scalars. *)
Lemma premium_of_floats ours avg :
  (0 <? avg)%float = true ->
  (gap <- lift (sub (VFloat ours) (VFloat avg)) ;;
   ratio <- lift (truediv gap (VFloat avg)) ;;
   pct <- lift (mul ratio (VInt 100)) ;;
   lift (np_round_ pct 1)) tt
  = (tt, inr (VFloat (np_round_float ((ours - avg) / avg * 100) 1))).
Proof.
  intros Hpos. apply float_positive_nonzero in Hpos.
  unfold_monad. cbn [sub arith as_number to_float].
  unfold truediv. cbn [as_number to_float is_zero_number]. rewrite Hpos.
  reflexivity.
Qed.

(** The overview loop body with an enrichment result that holds comps: the
    row is returned with the figures of that result. *)
Lemma overview_row_found settings self (row : row) log unit_type ours df avg
    per_sqft count n :
  row !! "unit_type" = Some unit_type ->
  row !! "avg_our_rent" = Some (VFloat ours) ->
  client self
    (MarketEnrichment (get_competition_table settings self)
       (market_conditions (bed_filter unit_type)
          (VFloat (ours * 0.7)) (VFloat (ours * 1.3)))) = inr df ->
  iloc0 df "avg_market_rent" = inr (VFloat avg) ->
  iloc0 df "avg_market_rent_per_sqft" = inr (VFloat per_sqft) ->
  iloc0 df "comp_count" = inr (VFloat count) ->
  (0 <? count)%float = true ->
  (0 <? avg)%float = true ->
  int_of_float avg = inr n ->
  overview_row settings self row log
    = (log ++ [(INFO, [Txt "Found "; Val (VFloat count); Txt " comps for ";
                       Val unit_type; Txt ": $"; Val (VFloat avg)])],
       inr (<["avg_premium_discount_pct" :=
                VFloat (np_round_float ((ours - avg) / avg * 100) 1)]>
             (<["avg_market_rent_per_sqft" :=
                  VFloat (if (per_sqft =? 0)%float then 0 else per_sqft)]>
               (<["avg_market_rent" := VInt n]> row)))).
Proof.
  intros Hut Hrent Hq Havg Hpsf Hcount Hpos Hpos_avg Hint.
  pose proof (float_positive_nonzero _ Hpos_avg) as Hnonzero.
  unfold overview_row. cbv zeta. unfold setitem. unfold_monad.
  rewrite (getitem_Some _ _ _ Hut), (getitem_Some _ _ _ Hrent).
  cbn [mul arith as_number to_float]. unfold with_row_dict.
  rewrite Hq.
  rewrite (has_comps_found _ df (row, log) (VFloat avg) (VFloat count));
    [|assumption | reflexivity | assumption
     |now rewrite gt_float_zero, Hpos].
  rewrite Havg. cbn [int_]. rewrite Hint. cbn [fst snd].
  rewrite Hpsf, float_or_zero_cell. cbn [fst snd].
  rewrite gt_float_zero, Hpos_avg.
  cbn [sub arith as_number to_float].
  unfold truediv. cbn [as_number to_float is_zero_number]. rewrite Hnonzero.
  cbn [mul arith as_number to_float].
  replace (float_of_int 100) with (inr 100%float : exn + float)
    by (vm_compute; reflexivity).
  cbn [np_round_ fst snd]. rewrite Hcount. reflexivity.
Qed.

(** The rent-comparison loop body with an enrichment result that holds
    comps. *)
Lemma rent_comparison_row_found settings self (row : row) log bed label ours df
    avg low high per_sqft count n1 n2 n3 k :
  row !! "bed" = Some bed ->
  (forall l : Log, bed_text bed l = (l, inr label)) ->
  row !! "avg_our_rent" = Some (VFloat ours) ->
  client self
    (BedroomEnrichment (get_competition_table settings self)
       (comp_conditions label)) = inr df ->
  iloc0 df "avg_market_rent" = inr (VFloat avg) ->
  iloc0 df "min_market_rent" = inr (VFloat low) ->
  iloc0 df "max_market_rent" = inr (VFloat high) ->
  iloc0 df "avg_market_rent_per_sqft" = inr (VFloat per_sqft) ->
  iloc0 df "comp_count" = inr (VFloat count) ->
  (0 <? count)%float = true ->
  (0 <? avg)%float = true ->
  int_of_float avg = inr n1 ->
  int_of_float low = inr n2 ->
  int_of_float high = inr n3 ->
  int_of_float count = inr k ->
  rent_comparison_row settings self row log
    = (log ++ [(INFO, [Txt "Found "; Val (VFloat count); Txt " comps for ";
                       Val bed; Txt " bed: $"; Val (VFloat avg)])],
       inr (<["rent_gap_pct" :=
                VFloat (np_round_float ((ours - avg) / avg * 100) 1)]>
             (<["comp_count" := VInt k]>
               (<["avg_market_rent_per_sqft" :=
                    VFloat (if (per_sqft =? 0)%float then 0 else per_sqft)]>
                 (<["max_market_rent" := VInt n3]>
                   (<["min_market_rent" := VInt n2]>
                     (<["avg_market_rent" := VInt n1]> row))))))).
Proof.
  intros Hbed Hlabel Hrent Hq Havg Hlow Hhigh Hpsf Hcount Hpos Hpos_avg
    Hn1 Hn2 Hn3 Hk.
  pose proof (float_positive_nonzero _ Hpos_avg) as Hnonzero.
  unfold rent_comparison_row. cbv zeta.
  unfold bind at 1, lift at 1. rewrite (getitem_Some _ _ _ Hbed).
  unfold bind at 1. rewrite Hlabel.
  unfold setitem. unfold_monad. unfold with_row_dict. rewrite Hq.
  rewrite (has_comps_found _ df (row, log) (VFloat avg) (VFloat count));
    [|assumption | reflexivity | assumption
     |now rewrite gt_float_zero, Hpos].
  rewrite Havg, (int_or_zero _ _ Hn1). cbn [fst snd].
  rewrite Hlow, (int_or_zero _ _ Hn2). cbn [fst snd].
  rewrite Hhigh, (int_or_zero _ _ Hn3). cbn [fst snd].
  rewrite Hpsf, float_or_zero_cell. cbn [fst snd].
  rewrite Hcount, (int_or_zero _ _ Hk). cbn [fst snd].
  unfold truthy at 1. rewrite Hnonzero. cbn [negb].
  rewrite gt_float_zero, Hpos_avg.
  rewrite (getitem_Some _ _ _ Hrent).
  cbn [sub arith as_number to_float].
  unfold truediv. cbn [as_number to_float is_zero_number]. rewrite Hnonzero.
  cbn [mul arith as_number to_float].
  replace (float_of_int 100) with (inr 100%float : exn + float)
    by (vm_compute; reflexivity).
  cbn [np_round_ fst snd]. reflexivity.
Qed.

(** The overview loop body reads the engine through its market query
    alone: the bedroom text of the unit type and the band from 0.7 to 1.3
    times the row's average rent. *)
Lemma overview_row_query settings self1 self2 (row : row) log unit_type rent
    lo hi :
  _competition_table self1 = _competition_table self2 ->
  row !! "unit_type" = Some unit_type ->
  row !! "avg_our_rent" = Some rent ->
  mul rent (VFloat 0.7) = inr lo ->
  mul rent (VFloat 1.3) = inr hi ->
  client self1
    (MarketEnrichment (get_competition_table settings self1)
       (market_conditions (bed_filter unit_type) lo hi))
  = client self2
      (MarketEnrichment (get_competition_table settings self1)
         (market_conditions (bed_filter unit_type) lo hi)) ->
  overview_row settings self1 row log = overview_row settings self2 row log.
Proof.
  intros Htable Hut Hrent Hlo Hhi Hq.
  assert (Hsame : get_competition_table settings self2
                  = get_competition_table settings self1)
    by (unfold get_competition_table; now rewrite Htable).
  unfold overview_row. cbv zeta. unfold_monad.
  rewrite (getitem_Some _ _ _ Hut), (getitem_Some _ _ _ Hrent), Hlo, Hhi.
  unfold with_row_dict. now rewrite Hsame, Hq.
Qed.

(** The rent-comparison loop body reads the engine through its own query
    alone: the bedroom text, positive price and positive area. *)
Lemma rent_comparison_row_query settings self1 self2 (row : row) log bed label :
  _competition_table self1 = _competition_table self2 ->
  row !! "bed" = Some bed ->
  snd (bed_text bed tt) = inr label ->
  client self1
    (BedroomEnrichment (get_competition_table settings self1)
       (comp_conditions label))
  = client self2
      (BedroomEnrichment (get_competition_table settings self1)
         (comp_conditions label)) ->
  rent_comparison_row settings self1 row log
  = rent_comparison_row settings self2 row log.
Proof.
  intros Htable Hbed Hlabel Hq.
  assert (Hsame : get_competition_table settings self2
                  = get_competition_table settings self1)
    by (unfold get_competition_table; now rewrite Htable).
  assert (Htext : bed_text bed log = (log, inr label)).
  { revert Hlabel. unfold bed_text. unfold_monad.
    repeat step; simpl; congruence. }
  unfold rent_comparison_row. cbv zeta. unfold_monad.
  rewrite (getitem_Some _ _ _ Hbed), Htext.
  unfold with_row_dict. now rewrite Hsame, Hq.
Qed.

(** C10: the rent comparison by bedroom count asks for the listings with
    the bedroom text, a positive base price and a positive area, with no
    price band; the overview by unit type asks for the same and for a base
    price between 0.7 and 1.3 times the row's average rent.  Over a table of
    listings the first query averages over that population and the second
    over its part inside the band.  Each loop body builds its row from the
    answer of its own query: with an answer that holds comps the row is
    returned with the figures of that answer, and the body reads the engine
    through that query alone.  The two populations can differ. *)
Theorem enrichment_populations_differ (table : list Warehouse.Competition)
    bed lo hi :
  plain bed = true -> is_finite lo = true -> is_finite hi = true ->
  (* the two WHERE clauses *)
  (comp_conditions bed
     = [EqText "Bed" bed; Positive "Base_Price"; Positive "Sq_Ft"]
   /\ market_conditions bed (VFloat lo) (VFloat hi)
      = comp_conditions bed ++ [Between "Base_Price" (VFloat lo) (VFloat hi)])
  (* their populations over a table, and the average each query answers *)
  /\ (exists comps,
        let average (population : list Warehouse.Competition) :=
          Warehouse.number_or_nan
            (Warehouse.rounded
               (Warehouse.sql_avg
                  (Warehouse.values Warehouse.Base_Price population)) 0) in
        let banded :=
          List.filter
            (fun l => Warehouse.between (Warehouse.Base_Price l) lo hi) comps in
        Warehouse.population table (comp_conditions bed) = Some comps
        /\ Warehouse.population table
             (market_conditions bed (VFloat lo) (VFloat hi)) = Some banded
        /\ (exists df,
              Warehouse.bedroom_enrichment table (comp_conditions bed) = inr df
              /\ length (records df) = 1%nat
              /\ iloc0 df "avg_market_rent" = inr (average comps))
        /\ (exists df,
              Warehouse.market_enrichment table
                (market_conditions bed (VFloat lo) (VFloat hi)) = inr df
              /\ length (records df) = 1%nat
              /\ iloc0 df "avg_market_rent" = inr (average banded)))
  (* the rent-comparison loop returns the figures of the query without band *)
  /\ (forall settings self (row : row) log bed_count label ours df avg low
             high per_sqft count n1 n2 n3 k,
        row !! "bed" = Some bed_count ->
        (forall l : Log, bed_text bed_count l = (l, inr label)) ->
        row !! "avg_our_rent" = Some (VFloat ours) ->
        client self
          (BedroomEnrichment (get_competition_table settings self)
             [EqText "Bed" label; Positive "Base_Price"; Positive "Sq_Ft"])
          = inr df ->
        iloc0 df "avg_market_rent" = inr (VFloat avg) ->
        iloc0 df "min_market_rent" = inr (VFloat low) ->
        iloc0 df "max_market_rent" = inr (VFloat high) ->
        iloc0 df "avg_market_rent_per_sqft" = inr (VFloat per_sqft) ->
        iloc0 df "comp_count" = inr (VFloat count) ->
        (0 <? count)%float = true ->
        (0 <? avg)%float = true ->
        int_of_float avg = inr n1 ->
        int_of_float low = inr n2 ->
        int_of_float high = inr n3 ->
        int_of_float count = inr k ->
        rent_comparison_row settings self row log
          = (log ++ [(INFO, [Txt "Found "; Val (VFloat count);
                             Txt " comps for "; Val bed_count;
                             Txt " bed: $"; Val (VFloat avg)])],
             inr (<["rent_gap_pct" :=
                      VFloat (np_round_float ((ours - avg) / avg * 100) 1)]>
                   (<["comp_count" := VInt k]>
                     (<["avg_market_rent_per_sqft" :=
                          VFloat (if (per_sqft =? 0)%float then 0
                                  else per_sqft)]>
                       (<["max_market_rent" := VInt n3]>
                         (<["min_market_rent" := VInt n2]>
                           (<["avg_market_rent" := VInt n1]> row))))))))
  (* the overview loop returns the figures of the query with the band *)
  /\ (forall settings self (row : row) log unit_type ours df avg per_sqft
             count n,
        row !! "unit_type" = Some unit_type ->
        row !! "avg_our_rent" = Some (VFloat ours) ->
        client self
          (MarketEnrichment (get_competition_table settings self)
             [EqText "Bed" (bed_filter unit_type); Positive "Base_Price";
              Positive "Sq_Ft";
              Between "Base_Price" (VFloat (ours * 0.7))
                (VFloat (ours * 1.3))]) = inr df ->
        iloc0 df "avg_market_rent" = inr (VFloat avg) ->
        iloc0 df "avg_market_rent_per_sqft" = inr (VFloat per_sqft) ->
        iloc0 df "comp_count" = inr (VFloat count) ->
        (0 <? count)%float = true ->
        (0 <? avg)%float = true ->
        int_of_float avg = inr n ->
        overview_row settings self row log
          = (log ++ [(INFO, [Txt "Found "; Val (VFloat count);
                             Txt " comps for "; Val unit_type; Txt ": $";
                             Val (VFloat avg)])],
             inr (<["avg_premium_discount_pct" :=
                      VFloat (np_round_float ((ours - avg) / avg * 100) 1)]>
                   (<["avg_market_rent_per_sqft" :=
                        VFloat (if (per_sqft =? 0)%float then 0
                                else per_sqft)]>
                     (<["avg_market_rent" := VInt n]> row)))))
  (* each loop body reads the engine through its query alone *)
  /\ (forall settings self1 self2 (row : row) log unit_type x,
        _competition_table self1 = _competition_table self2 ->
        row !! "unit_type" = Some unit_type ->
        row !! "avg_our_rent" = Some (VFloat x) ->
        client self1
          (MarketEnrichment (get_competition_table settings self1)
             (market_conditions (bed_filter unit_type)
                (VFloat (x * 0.7)) (VFloat (x * 1.3))))
        = client self2
            (MarketEnrichment (get_competition_table settings self1)
               (market_conditions (bed_filter unit_type)
                  (VFloat (x * 0.7)) (VFloat (x * 1.3)))) ->
        overview_row settings self1 row log
        = overview_row settings self2 row log)
  /\ (forall settings self1 self2 (row : row) log bed label,
        _competition_table self1 = _competition_table self2 ->
        row !! "bed" = Some bed ->
        snd (bed_text bed tt) = inr label ->
        client self1
          (BedroomEnrichment (get_competition_table settings self1)
             (comp_conditions label))
        = client self2
            (BedroomEnrichment (get_competition_table settings self1)
               (comp_conditions label)) ->
        rent_comparison_row settings self1 row log
        = rent_comparison_row settings self2 row log)
  (* on the sample listings the band leaves a listing out *)
  /\ Warehouse.population Sample.listings
       (market_conditions "1 Bed" (VFloat (1000 * 0.7)) (VFloat (1000 * 1.3)))
     <> Warehouse.population Sample.listings (comp_conditions "1 Bed").
Proof.
  intros Hbed Hlo Hhi. split; [split; reflexivity|].
  split.
  { destruct (market_population_is_banded table bed lo hi Hbed Hlo Hhi)
      as (comps & Hcomps & Hbanded).
    exists comps. cbv zeta. split; [exact Hcomps|]. split; [exact Hbanded|].
    split.
    - apply (enrichment_answers table _ comps Hcomps).
    - apply (enrichment_answers table _ _ Hbanded). }
  split.
  { intros settings self row log bed_count label ours df avg low high per_sqft
      count n1 n2 n3 k.
    apply rent_comparison_row_found. }
  split.
  { intros settings self row log unit_type ours df avg per_sqft count n.
    apply overview_row_found. }
  split; [|split].
  - intros settings self1 self2 row log unit_type x Htable Hut Hrent Hq.
    now apply overview_row_query
      with (unit_type := unit_type) (rent := VFloat x)
           (lo := VFloat (x * 0.7)) (hi := VFloat (x * 1.3)).
  - intros settings self1 self2 row log bed' label Htable Hbed' Hlabel Hq.
    now apply rent_comparison_row_query with (bed := bed') (label := label).
  - intros H. apply (f_equal (option_map (@length _))) in H.
    vm_compute in H. discriminate.
Qed.

(** On the sample listings, for rows at an average rent of $1,000: the rent
    comparison averages the five "1 Bed" listings, $1,260; the overview
    leaves the listing at $1,320 out of its band and averages $1,245. *)
Lemma enrichment_populations_differ_witness :
  (exists log' d,
      rent_comparison_row Sample.settings Sample.connected Sample.one_bed_beds []
        = (log', inr d)
      /\ d !! "avg_market_rent" = Some (VInt 1260)
      /\ d !! "comp_count" = Some (VInt 5))
  /\ (exists log' d,
        overview_row Sample.settings Sample.connected Sample.one_bed_row []
          = (log', inr d)
        /\ d !! "avg_market_rent" = Some (VInt 1245)).
Proof.
  destruct (enrichment_populations_differ Sample.listings "1 Bed" 700 1300
              eq_refl eq_refl eq_refl)
    as (_ & _ & Hcomparison & Hoverview & _).
  split.
  - pose (answer :=
            Warehouse.bedroom_enrichment Sample.listings
              (comp_conditions "1 Bed")).
    pose (df := match answer with inr df => df | inl _ => empty_frame end).
    assert (Hanswer : answer = inr df) by (vm_compute; reflexivity).
    eexists _, _. split.
    + apply (Hcomparison Sample.settings Sample.connected Sample.one_bed_beds
               [] (VFloat 1) "1 Bed" 1000%float df 1260%float 1200%float
               1320%float 1.69%float 5%float 1260 1200 1320 5);
        first [exact Hanswer | intros l; reflexivity
              | vm_compute; reflexivity].
    + split; reflexivity.
  - pose (answer :=
            Warehouse.market_enrichment Sample.listings
              (market_conditions "1 Bed" (VFloat (1000 * 0.7))
                 (VFloat (1000 * 1.3)))).
    pose (df := match answer with inr df => df | inl _ => empty_frame end).
    assert (Hanswer : answer = inr df) by (vm_compute; reflexivity).
    eexists _, _. split.
    + apply (Hoverview Sample.settings Sample.connected Sample.one_bed_row []
               (VStr "1BR") 1000%float df 1245%float 1.71%float 4%float
               1245);
        first [exact Hanswer | vm_compute; reflexivity].
    + reflexivity.
Defined.

(** ** Unit-level opportunity *)



Lemma insert_by_Permutation {A} (le : A -> A -> bool) x l :
  Warehouse.insert_by le x l ≡ₚ x :: l.
Proof.
  induction l as [|y l IH]; simpl; [reflexivity|].
  destruct (le x y); [reflexivity|].
  rewrite IH. apply perm_swap.
Qed.

Lemma sort_by_Permutation {A} (le : A -> A -> bool) l :
  Warehouse.sort_by le l ≡ₚ l.
Proof.
  unfold Warehouse.sort_by. induction l as [|x l IH]; simpl; [reflexivity|].
  now rewrite insert_by_Permutation, IH.
Qed.



(** The units an analysis returns are the records of its query. *)
Lemma units_of_analysis settings self name log log' r :
  get_property_unit_analysis settings self name log = (log', inr r) ->
  exists frame,
    client self
      (UnitAnalysis
         (_get_table_name settings (mart_dataset self) "unit_snapshot")
         (get_competition_table settings self) name) = inr frame
    /\ units r = records frame.
Proof.
  unfold get_property_unit_analysis. cbv zeta.
  intros Hrun. apply async_def_inr in Hrun. revert Hrun. unfold_monad.
  destruct (client self _) as [e | frame]; [discriminate|].
  repeat step; try discriminate; intros [= <- <-]; eauto.
Qed.

(** The two sums of the summary neither read nor change the log. *)
Lemma count_above_pure S key threshold units (s : S) :
  count_above key threshold units s
    = (s, snd (count_above key threshold units tt)).
Proof.
  revert S s. induction units as [|unit units IH]; intros S s;
    cbn [count_above]; [reflexivity|].
  unfold_monad. destruct (gt_int _ threshold); [reflexivity|].
  rewrite (IH S s).
  destruct (count_above key threshold units tt) as [[] [e | n]]; reflexivity.
Qed.

Lemma sum_from_pure S acc key units (s : S) :
  sum_from acc key units s = (s, snd (sum_from acc key units tt)).
Proof.
  revert S s acc. induction units as [|unit units IH]; intros S s acc;
    cbn [sum_from]; [reflexivity|].
  unfold_monad. destruct (add acc _) as [e | acc']; [reflexivity|].
  rewrite (IH S s acc').
  destruct (sum_from acc' key units tt) as [[] [e | total]]; reflexivity.
Qed.









(** ** Pagination *)

(** *** ORDER BY with no ties *)

Lemma orders_compare : Warehouse.orders Z.compare.
Proof.
  split; [|split].
  - intros x y. apply Z.compare_antisym.
  - intros x y z Hxy. apply Z.compare_eq in Hxy. now subst.
  - intros x y z. rewrite !Z.compare_lt_iff. lia.
Qed.

Lemma orders_text : Warehouse.orders Warehouse.compare_text.
Proof.
  split; [|split].
  - intros [x|] [y|]; simpl; try reflexivity.
    apply OrderedTypeEx.String_as_OT.cmp_antisym.
  - intros [x|] [y|] z; simpl; try discriminate; [|reflexivity].
    intros Hxy. apply OrderedTypeEx.String_as_OT.cmp_eq in Hxy. now subst.
  - intros [x|] [y|] [z|]; simpl; try discriminate; try reflexivity.
    change String.compare with OrderedTypeEx.String_as_OT.cmp.
    rewrite !OrderedTypeEx.String_as_OT.cmp_lt.
    apply OrderedTypeEx.String_as_OT.lt_trans.
Qed.

Lemma orders_flip {A} (c : A -> A -> comparison) :
  Warehouse.orders c -> Warehouse.orders (fun x y => c y x).
Proof.
  intros (Hanti & Heq & Hlt). split; [|split].
  - intros x y. apply Hanti.
  - intros x y z Hyx. rewrite (Hanti x z), (Hanti y z). f_equal.
    symmetry. now apply Heq.
  - intros x y z Hyx Hzy. exact (Hlt z y x Hzy Hyx).
Qed.

Lemma orders_on {A B} (f : A -> B) (c : B -> B -> comparison) :
  Warehouse.orders c -> Warehouse.orders (fun x y => c (f x) (f y)).
Proof.
  intros (Hanti & Heq & Hlt). split; [|split]; intros; eauto.
Qed.

Lemma orders_eq_right {A} (c : A -> A -> comparison) x y z :
  Warehouse.orders c -> c y z = Eq -> c x y = c x z.
Proof.
  intros (Hanti & Heq & _) Hyz.
  rewrite (Hanti y x), (Hanti z x). f_equal. now apply Heq.
Qed.

Lemma orders_lexi {A} (c1 c2 : A -> A -> comparison) :
  Warehouse.orders c1 -> Warehouse.orders c2 ->
  Warehouse.orders (fun x y => Warehouse.lexi (c1 x y) (c2 x y)).
Proof.
  intros H1 H2.
  pose proof H1 as (Hanti1 & Heq1 & Hlt1).
  pose proof H2 as (Hanti2 & Heq2 & Hlt2).
  split; [|split].
  - intros x y. rewrite (Hanti1 x y), (Hanti2 x y).
    unfold Warehouse.lexi. now destruct (c1 x y).
  - intros x y z. unfold Warehouse.lexi.
    destruct (c1 x y) eqn:Hxy; try discriminate.
    intros Hxy2. now rewrite (Heq1 x y z Hxy), (Heq2 x y z Hxy2).
  - intros x y z. unfold Warehouse.lexi.
    destruct (c1 x y) eqn:Hxy; try discriminate.
    + rewrite (Heq1 x y z Hxy). destruct (c1 y z); try discriminate; eauto.
    + destruct (c1 y z) eqn:Hyz; try discriminate.
      * now rewrite <- (orders_eq_right c1 x y z H1 Hyz), Hxy.
      * now rewrite (Hlt1 x y z Hxy Hyz).
Qed.

Lemma orders_unit_order : Warehouse.orders Warehouse.unit_order.
Proof.
  unfold Warehouse.unit_order.
  apply (orders_lexi
           (fun u v => Warehouse.pricing_first u ?= Warehouse.pricing_first v));
    [apply (orders_on Warehouse.pricing_first), orders_compare|].
  apply (orders_lexi
           (fun u v => Warehouse.compare_text (Warehouse.pricing_urgency v)
                         (Warehouse.pricing_urgency u)));
    [apply (orders_flip
              (fun u v => Warehouse.compare_text (Warehouse.pricing_urgency u)
                            (Warehouse.pricing_urgency v))),
       (orders_on Warehouse.pricing_urgency), orders_text|].
  apply (orders_lexi
           (fun u v => Warehouse.compare_text (Warehouse.property u)
                         (Warehouse.property v)));
    [apply (orders_on Warehouse.property), orders_text|].
  apply (orders_on Warehouse.unit_id), orders_text.
Qed.

Section Sorting.

Context {A : Type} (c : A -> A -> comparison) (Hc : Warehouse.orders c).

#[local] Abbreviation le := (fun x y => Warehouse.not_after (c x y)).

Lemma le_total x y : le x y = true \/ le y x = true.
Proof using Hc.
  destruct Hc as (Hanti & _). cbv beta. rewrite (Hanti x y).
  destruct (c x y); simpl; auto.
Qed.

Lemma le_trans x y z : le x y = true -> le y z = true -> le x z = true.
Proof using Hc.
  pose proof Hc as (Hanti & Heq & Hlt). cbv beta.
  destruct (c x y) eqn:Hxy; try discriminate; intros _.
  - now rewrite (Heq x y z Hxy).
  - destruct (c y z) eqn:Hyz; try discriminate; intros _.
    + now rewrite <- (orders_eq_right c x y z Hc Hyz), Hxy.
    + now rewrite (Hlt x y z Hxy Hyz).
Qed.

Lemma le_antisym x y : le x y = true -> le y x = true -> c x y = Eq.
Proof using Hc.
  destruct Hc as (Hanti & _). cbv beta. rewrite (Hanti x y).
  destruct (c x y); simpl; congruence.
Qed.

Lemma insert_by_sorted x l :
  StronglySorted (fun a b => le a b = true) l ->
  StronglySorted (fun a b => le a b = true) (Warehouse.insert_by le x l).
Proof using Hc.
  induction 1 as [|y l Hsorted IH Hy]; simpl; [repeat constructor|].
  destruct (le x y) eqn:Hxy.
  - constructor; [now constructor|]. constructor; [exact Hxy|].
    eapply Forall_impl; [exact Hy|]. intros z Hyz.
    exact (le_trans x y z Hxy Hyz).
  - constructor; [exact IH|].
    rewrite insert_by_Permutation. constructor; [|exact Hy].
    destruct (le_total x y) as [H | H]; [congruence | exact H].
Qed.

Lemma sort_by_sorted l :
  StronglySorted (fun a b => le a b = true) (Warehouse.sort_by le l).
Proof using Hc.
  unfold Warehouse.sort_by. induction l as [|x l IH]; simpl;
    [constructor | now apply insert_by_sorted].
Qed.

(** Two sorted arrangements of the same rows are equal when rows that tie
    are the same row. *)
Lemma sorted_unique l1 l2 :
  (forall x y, x ∈ l1 -> y ∈ l1 -> c x y = Eq -> x = y) ->
  StronglySorted (fun a b => le a b = true) l1 ->
  StronglySorted (fun a b => le a b = true) l2 ->
  l1 ≡ₚ l2 -> l1 = l2.
Proof using Hc.
  intros Hties Hs1. revert l2.
  induction Hs1 as [|x l1 Hs1 IH Hx]; intros l2 Hs2 Hperm.
  - now apply Permutation_nil_l in Hperm.
  - destruct Hs2 as [|y l2 Hs2 Hy].
    { now apply Permutation_nil_r in Hperm. }
    assert (Hxy : x = y).
    { assert (Hyin : y ∈ x :: l1) by (rewrite Hperm; left).
      assert (Hxin : x ∈ y :: l2) by (rewrite <- Hperm; left).
      apply elem_of_cons in Hyin as [-> | Hyin]; [reflexivity|].
      apply elem_of_cons in Hxin as [-> | Hxin]; [reflexivity|].
      rewrite Forall_forall in Hx, Hy.
      apply Hties; [left | right; exact Hyin|].
      apply le_antisym; [apply Hx, Hyin | apply Hy, Hxin]. }
    subst y. f_equal. apply IH.
    + intros a b Ha Hb. apply Hties; now right.
    + exact Hs2.
    + now apply Permutation_cons_inv in Hperm.
Qed.

Lemma sort_by_unique l1 l2 :
  (forall x y, x ∈ l1 -> y ∈ l1 -> c x y = Eq -> x = y) ->
  l1 ≡ₚ l2 -> Warehouse.sort_by le l1 = Warehouse.sort_by le l2.
Proof using Hc.
  intros Hties Hperm. apply sorted_unique.
  - intros x y Hx Hy. rewrite sort_by_Permutation in Hx, Hy. now apply Hties.
  - apply sort_by_sorted.
  - apply sort_by_sorted.
  - now rewrite !sort_by_Permutation.
Qed.

End Sorting.

Lemma filter_Permutation' {A} (p : A -> bool) l1 l2 :
  l1 ≡ₚ l2 -> List.filter p l1 ≡ₚ List.filter p l2.
Proof.
  induction 1 as [|x l1 l2 _ IH|x y l|l1 l2 l3 _ IH1 _ IH2]; simpl.
  - reflexivity.
  - destruct (p x); [now constructor | exact IH].
  - destruct (p x), (p y); try reflexivity. apply perm_swap.
  - now rewrite IH1.
Qed.

(** With no ties among the rows of the table, every scan of a query gives
    the rows a WHERE clause keeps in the same order. *)
Lemma matching_units_scan s table keep :
  Warehouse.visits_all s -> Warehouse.tie_free table ->
  Warehouse.matching_units s table keep
  = Warehouse.matching_units Warehouse.in_table_order table keep.
Proof.
  intros Hs Hties. unfold Warehouse.matching_units, Warehouse.in_table_order.
  apply (sort_by_unique Warehouse.unit_order orders_unit_order).
  - intros u v Hu Hv. apply Hties.
    + apply list_elem_of_In, List.filter_In in Hu as [Hu _].
      apply list_elem_of_In in Hu. now rewrite (Hs table) in Hu.
    + apply list_elem_of_In, List.filter_In in Hv as [Hv _].
      apply list_elem_of_In in Hv. now rewrite (Hs table) in Hv.
  - apply filter_Permutation', Hs.
Qed.


(** *** The pages *)

(** The engine takes every WHERE clause [get_units] builds from filter
    values that are plain. *)
Lemma units_where_accepted status property flag :
  (forall t, nonempty status = Some t -> plain t = true) ->
  (forall t, nonempty property = Some t -> plain t = true) ->
  exists keep,
    Warehouse.unit_where (units_where status property flag) = Some keep.
Proof.
  intros Hstatus Hproperty. unfold units_where.
  destruct (nonempty status) as [t|], (nonempty property) as [t'|], flag;
    simpl; rewrite ?(Hstatus _ eq_refl), ?(Hproperty _ eq_refl);
    eexists; reflexivity.
Qed.

Lemma row_count_accepted n : 0 <= n < 2 ^ 63 -> Warehouse.row_count n = true.
Proof.
  intros [Hlow Hhigh]. unfold Warehouse.row_count, int64.
  apply andb_true_intro. split; [now apply Z.leb_le|].
  apply andb_true_intro. split; [apply Z.leb_le | now apply Z.ltb_lt].
  change (- 2 ^ 63) with (- 9223372036854775808). lia.
Qed.

Lemma take_add {A} (l : list A) a b :
  take (a + b) l = take a l ++ take b (drop a l).
Proof.
  revert l. induction a as [|a IH]; intros [|x l]; simpl;
    try reflexivity.
  - now destruct b.
  - now rewrite IH.
Qed.

(** Pages of [size] rows laid end to end are a prefix of the rows. *)
Lemma concat_pages {A} (l : list A) size n :
  concat (map (fun i => take size (drop (i * size) l)) (seq 0 n))
  = take (n * size) l.
Proof.
  induction n as [|n IH]; [reflexivity|].
  rewrite seq_S, map_app, concat_app, IH. simpl.
  rewrite app_nil_r, (Nat.add_comm size), take_add. reflexivity.
Qed.

(** One page, from an engine that answers the two queries of [get_units]
    over a fixed table. *)
Lemma get_units_page settings self s table status property flag keep page
    page_size log :
  let snapshot := _get_table_name settings (mart_dataset self) "unit_snapshot" in
  let where_clause := units_where status property flag in
  Warehouse.unit_where where_clause = Some keep ->
  client self (CountUnits snapshot where_clause)
    = Warehouse.count_units table where_clause ->
  client self (SelectUnits snapshot where_clause page_size
                 ((page - 1) * page_size))
    = Warehouse.select_units s table where_clause page_size
        ((page - 1) * page_size) ->
  0 <= page_size < 2 ^ 63 -> 0 <= (page - 1) * page_size < 2 ^ 63 ->
  let units :=
    map Warehouse.unit_record
      (take (Z.to_nat page_size)
         (drop (Z.to_nat ((page - 1) * page_size))
            (Warehouse.matching_units s table keep))) in
  let total_count := VInt (Z.of_nat (length (List.filter keep table))) in
  get_units settings self page page_size status property flag log
    = (log ++ [(INFO, [Txt "Retrieved "; Num (Z.of_nat (length units));
                       Txt " units (page "; Num page; Txt ", total: ";
                       Val total_count; Txt ")"])],
       inr (units, total_count)).
Proof.
  intros snapshot where_clause Hkeep Hcount Hdata Hsize Hoffset units
    total_count.
  unfold get_units. cbv zeta. apply returned. unfold_monad.
  fold snapshot where_clause. rewrite Hcount, Hdata.
  unfold Warehouse.count_units, Warehouse.select_units. rewrite Hkeep.
  cbn [records next]. unfold_monad. unfold getattr.
  rewrite lookup_singleton_eq.
  rewrite !row_count_accepted by assumption.
  reflexivity.
Qed.

(** C5 (amended): over a fixed table in which no two rows tie on the four
    sort keys, with filter values that are plain text and a page size of at
    least 1, every page p >= 1 whose size and offset are INT64 values holds
    at most page_size units, read at offset (p - 1) * page_size, whatever
    the order in which the page query scans the table; total_count comes
    from a counting query of its own over the same WHERE clause; and the
    pages 1 to n, for any n that reaches total_count, laid end to end are
    exactly the rows the clause keeps, in order: total_count units, each row
    once.  The operation reads the engine through these two queries
    alone. *)
Theorem get_units_pagination settings self scan table status property flag
    page_size :
  let snapshot := _get_table_name settings (mart_dataset self) "unit_snapshot" in
  let where_clause := units_where status property flag in
  (forall t, nonempty status = Some t -> plain t = true) ->
  (forall t, nonempty property = Some t -> plain t = true) ->
  Warehouse.tie_free table ->
  client self (CountUnits snapshot where_clause)
    = Warehouse.count_units table where_clause ->
  (forall limit offset,
      Warehouse.visits_all (scan limit offset)
      /\ client self (SelectUnits snapshot where_clause limit offset)
         = Warehouse.select_units (scan limit offset) table where_clause
             limit offset) ->
  1 <= page_size ->
  exists keep,
    Warehouse.unit_where where_clause = Some keep
    /\ let rows :=
         Warehouse.matching_units Warehouse.in_table_order table keep in
       let total := Z.of_nat (length (List.filter keep table)) in
       let units_of page :=
         match snd (get_units settings self page page_size status property
                      flag []) with
         | inr (units, _) => units
         | inl _ => []
         end in
       (forall page log,
           1 <= page -> page_size < 2 ^ 63 ->
           (page - 1) * page_size < 2 ^ 63 ->
           exists units,
             units = map Warehouse.unit_record
                       (take (Z.to_nat page_size)
                          (drop (Z.to_nat ((page - 1) * page_size)) rows))
             /\ Z.of_nat (length units) <= page_size
             /\ get_units settings self page page_size status property flag log
                = (log ++ [(INFO, [Txt "Retrieved ";
                                   Num (Z.of_nat (length units));
                                   Txt " units (page "; Num page;
                                   Txt ", total: "; Val (VInt total);
                                   Txt ")"])],
                   inr (units, VInt total)))
       /\ (forall n,
             total <= Z.of_nat n * page_size ->
             Z.of_nat n * page_size < 2 ^ 63 ->
             let pages :=
               concat (map (fun i => units_of (Z.of_nat i)) (seq 1 n)) in
             pages = map Warehouse.unit_record rows
             /\ Z.of_nat (length pages) = total
             /\ pages ≡ₚ map Warehouse.unit_record (List.filter keep table)
             /\ (NoDup (map Warehouse.unit_record (List.filter keep table)) ->
                 NoDup pages))
       /\ (forall other page log,
             mart_dataset other = mart_dataset self ->
             client other (CountUnits snapshot where_clause)
               = client self (CountUnits snapshot where_clause) ->
             client other (SelectUnits snapshot where_clause page_size
                             ((page - 1) * page_size))
               = client self (SelectUnits snapshot where_clause page_size
                                ((page - 1) * page_size)) ->
             get_units settings other page page_size status property flag log
             = get_units settings self page page_size status property flag log).
Proof.
  intros snapshot where_clause Hstatus Hproperty Hties Hcount Hdata Hsize.
  destruct (units_where_accepted status property flag Hstatus Hproperty)
    as [keep Hkeep].
  exists keep. split; [exact Hkeep|]. cbv zeta.
  assert (Hpage : forall page log,
    1 <= page -> page_size < 2 ^ 63 -> (page - 1) * page_size < 2 ^ 63 ->
    get_units settings self page page_size status property flag log
    = (log ++ [(INFO, [Txt "Retrieved ";
                       Num (Z.of_nat (length
                         (map Warehouse.unit_record
                            (take (Z.to_nat page_size)
                               (drop (Z.to_nat ((page - 1) * page_size))
                                  (Warehouse.matching_units
                                     Warehouse.in_table_order table keep))))));
                       Txt " units (page "; Num page; Txt ", total: ";
                       Val (VInt (Z.of_nat (length (List.filter keep table))));
                       Txt ")"])],
       inr (map Warehouse.unit_record
              (take (Z.to_nat page_size)
                 (drop (Z.to_nat ((page - 1) * page_size))
                    (Warehouse.matching_units Warehouse.in_table_order table
                       keep))),
            VInt (Z.of_nat (length (List.filter keep table)))))).
  { intros page log Hp Hlimit Hoffset.
    destruct (Hdata page_size ((page - 1) * page_size)) as [Hscan Hanswer].
    rewrite <- (matching_units_scan _ table keep Hscan Hties).
    apply (get_units_page settings self _ table status property flag keep);
      auto; nia. }
  split; [|split].
  - intros page log Hp Hlimit Hoffset. eexists. split; [reflexivity|].
    split; [|now apply Hpage].
    rewrite length_map, length_take. lia.
  - intros n Hn Hbound.
    assert (Hrows : length (Warehouse.matching_units Warehouse.in_table_order
                              table keep)
                    = length (List.filter keep table)).
    { unfold Warehouse.matching_units.
      apply Permutation_length, sort_by_Permutation. }
    assert (Hpages :
      concat (map (fun i =>
                match snd (get_units settings self (Z.of_nat i) page_size
                             status property flag []) with
                | inr (units, _) => units
                | inl _ => []
                end) (seq 1 n))
      = map Warehouse.unit_record
          (Warehouse.matching_units Warehouse.in_table_order table keep)).
    { rewrite <- seq_shift, map_map.
      rewrite (map_ext_in _
                 (fun j => map Warehouse.unit_record
                             (take (Z.to_nat page_size)
                                (drop (j * Z.to_nat page_size)
                                   (Warehouse.matching_units
                                      Warehouse.in_table_order table keep))))).
      - rewrite <- (map_map
                      (fun j => take (Z.to_nat page_size)
                                  (drop (j * Z.to_nat page_size)
                                     (Warehouse.matching_units
                                        Warehouse.in_table_order table keep)))
                      (map Warehouse.unit_record)).
        rewrite <- concat_map, concat_pages. f_equal.
        apply firstn_all2. rewrite Hrows. nia.
      - intros j Hj. apply in_seq in Hj.
        rewrite Hpage by nia. simpl. do 3 f_equal. nia. }
    rewrite Hpages. split; [reflexivity|]. split; [|split].
    + rewrite length_map. now rewrite Hrows.
    + unfold Warehouse.matching_units. now rewrite sort_by_Permutation.
    + intros Hnodup. unfold Warehouse.matching_units.
      now rewrite sort_by_Permutation.
  - intros other page log Hmart Hc Hd.
    unfold get_units. cbv zeta. unfold_monad. rewrite Hmart.
    fold snapshot where_clause. now rewrite Hc, Hd.
Qed.

(** No two units of the sample table share the four sort keys. *)
Lemma sample_units_tie_free : Warehouse.tie_free Sample.units.
Proof.
  intros u v Hu Hv.
  repeat (apply elem_of_cons in Hu as [-> | Hu]);
    [..|now apply elem_of_nil in Hu];
    repeat (apply elem_of_cons in Hv as [-> | Hv]);
    try (now apply elem_of_nil in Hv);
    first [reflexivity | vm_compute; discriminate].
Qed.

Lemma get_units_pagination_witness :
  let units_of page :=
    match snd (get_units Sample.settings Sample.connected page 2 None
                 (Some "Maple Ridge") false []) with
    | inr (units, _) => units
    | inl _ => []
    end in
  Z.of_nat (length (concat (map (fun i => units_of (Z.of_nat i)) (seq 1 3))))
  = 5.
Proof.
  destruct (get_units_pagination Sample.settings Sample.connected
              (fun _ _ => Warehouse.in_table_order) Sample.units
              None (Some "Maple Ridge") false 2
              ltac:(discriminate)
              ltac:(intros t [= <-]; reflexivity)
              sample_units_tie_free eq_refl
              (fun _ _ => conj (fun l => Permutation_refl l) eq_refl)
              ltac:(lia)) as (keep & Hkeep & _ & Hall & _).
  injection Hkeep as <-.
  destruct (Hall 3%nat) as (_ & Hlength & _);
    [vm_compute; discriminate | reflexivity|].
  exact Hlength.
Defined.

(** C5 as stated fails for the page size 0: Maple Ridge has five units, so
    total_count is 5, yet every page is empty and no number of pages laid
    end to end yields five units. *)
Lemma pagination_zero_page_size_counterexample :
  let units_of page :=
    match snd (get_units Sample.settings Sample.connected page 0 None
                 (Some "Maple Ridge") false []) with
    | inr (units, _) => units
    | inl _ => []
    end in
  snd (get_units Sample.settings Sample.connected 1 0 None (Some "Maple Ridge")
         false []) = inr ([], VInt 5)
  /\ forall n,
       length (concat (map (fun i => units_of (Z.of_nat i)) (seq 1 n))) <> 5%nat.
Proof.
  cbv zeta. split; [vm_compute; reflexivity|].
  intros n.
  assert (Hempty : forall i, (1 <= i)%nat ->
    match snd (get_units Sample.settings Sample.connected (Z.of_nat i) 0 None
                 (Some "Maple Ridge") false []) with
    | inr (units, _) => units
    | inl _ => []
    end = []).
  { intros i Hi.
    destruct (units_where_accepted None (Some "Maple Ridge") false)
      as [keep Hkeep]; [discriminate | intros t [= <-]; reflexivity|].
    rewrite (get_units_page Sample.settings Sample.connected
               Warehouse.in_table_order Sample.units None
               (Some "Maple Ridge") false keep (Z.of_nat i) 0 [] Hkeep
               eq_refl eq_refl); [reflexivity | split; [lia | reflexivity]|].
    split; [lia|]. rewrite Z.mul_0_r. reflexivity. }
  assert (Hall : concat (map (fun i =>
             match snd (get_units Sample.settings Sample.connected (Z.of_nat i)
                          0 None (Some "Maple Ridge") false []) with
             | inr (units, _) => units
             | inl _ => []
             end) (seq 1 n)) = []).
  { apply concat_nil_Forall, Forall_forall. intros units Hin.
    apply list_elem_of_fmap in Hin as (i & -> & Hi).
    apply elem_of_seq in Hi. apply Hempty. lia. }
  rewrite Hall. discriminate.
Qed.


(** * Further properties of the operations *)

(** ** Operations that never raise *)

(** X1: the connection test never raises.  It returns True without logging
    when the probe query succeeds, and otherwise False after logging the
    exception once at ERROR level. *)
Theorem test_connection_never_raises self log :
  match client self SelectOne with
  | inr _ => test_connection self log = (log, inr true)
  | inl e =>
      test_connection self log
        = (log ++ [(ERROR, [Txt "BigQuery connection test failed: "; Exc e])],
           inr false)
  end.
Proof. unfold test_connection. run. now destruct (client self SelectOne). Qed.

(** Reading one attribute off every row leaves the state as it is; it
    returns the values in row order, or raises on the first row without
    the attribute. *)
Lemma mapM_getattr_present (S : Type) name (rows : list row) (s : S) :
  Forall (fun r => is_Some (r !! name)) rows ->
  mapM (fun r => lift (getattr r name)) rows s
    = (s, inr (map (fun r => get r name VNone) rows)).
Proof.
  induction 1 as [|r rows [v Hv] _ IH]; [reflexivity|].
  cbn [mapM map]. unfold_monad. unfold getattr, get in *.
  rewrite Hv. unfold_monad. now rewrite IH.
Qed.

Lemma mapM_getattr_missing (S : Type) name (rows : list row) r (s : S) :
  r ∈ rows -> r !! name = None ->
  mapM (fun r => lift (getattr r name)) rows s = (s, inl (AttributeError name)).
Proof.
  intros Hin Hr. induction Hin as [r rows | r r' rows _ IH];
    cbn [mapM]; unfold_monad; unfold getattr in *.
  - now rewrite Hr.
  - destruct (r' !! name); [|reflexivity]. now rewrite IH.
Qed.

(** X2: the properties listing never raises, whatever the engine does.  When
    every row of the answer has a [property], their values are returned in
    row order and nothing is logged; when a row has none, the AttributeError
    is logged and the empty list returned, as for a failed query. *)
Theorem get_properties_never_raises settings self log :
  let query :=
    SelectProperties
      (_get_table_name settings (mart_dataset self) "unit_snapshot") in
  (exists log' names, get_properties settings self log = (log', inr names))
  /\ (forall frame,
        client self query = inr frame ->
        Forall (fun r => is_Some (r !! "property")) (records frame) ->
        get_properties settings self log
          = (log, inr (map (fun r => get r "property" VNone) (records frame))))
  /\ (forall frame r,
        client self query = inr frame ->
        r ∈ records frame -> r !! "property" = None ->
        get_properties settings self log
          = (log ++ [(ERROR, [Txt "Error fetching properties: ";
                              Exc (AttributeError "property")])], inr [])).
Proof.
  intros query. unfold get_properties, async_def. fold query.
  split; [|split].
  - unfold_monad. destruct (client self query) as [e | frame]; [eauto|].
    destruct (mapM (B := pyval) _ (records frame) log)
      as [log1 [e | names]]; eauto.
  - intros frame Hq Hall. unfold_monad. rewrite Hq.
    pose proof (mapM_getattr_present Log "property" _ log Hall) as H.
    unfold_monad. now rewrite H.
  - intros frame r Hq Hin Hr. unfold_monad. rewrite Hq.
    pose proof (mapM_getattr_missing Log "property" _ r log Hin Hr) as H.
    unfold_monad. now rewrite H.
Qed.

(** ** The unit-type summary *)

Lemma float_or_zero_shape v x :
  float_or_zero v = inr x -> Shape.float_or_int_zero x.
Proof.
  unfold float_or_zero, Shape.float_or_int_zero.
  destruct (truthy v); [|intros [= <-]; now left].
  destruct v as [| b | n | f | s | d]; simpl; try discriminate.
  - intros [= <-]. eauto.
  - destruct (float_of_int n); intros [= <-]. eauto.
  - intros [= <-]. eauto.
Qed.

Lemma dict_replace_keys {A} k (v : A) d d' :
  dict_replace k v d = Some d' -> map fst d' = map fst d.
Proof.
  revert d'. induction d as [|[k' v'] d IH]; intros d'; simpl; [discriminate|].
  destruct (eqb k' k); [intros [= <-]; reflexivity|].
  destruct (dict_replace k v d) as [d''|]; intros [= <-].
  simpl. now rewrite (IH d'').
Qed.

Lemma dict_replace_values {A} (P : A -> Prop) k (v : A) d d' :
  dict_replace k v d = Some d' -> P v ->
  Forall (fun entry => P (snd entry)) d ->
  Forall (fun entry => P (snd entry)) d'.
Proof.
  revert d'. induction d as [|[k' v'] d IH]; intros d'; simpl; [discriminate|].
  intros Hd Hv Hall. inversion Hall as [|? ? Hhead Htail]; subst.
  destruct (eqb k' k); [injection Hd as <-; now constructor|].
  destruct (dict_replace k v d) as [d''|]; [|discriminate].
  injection Hd as <-. constructor; eauto.
Qed.

Lemma dict_replace_absent {A} k (v : A) d :
  dict_replace k v d = None ->
  Forall (fun entry => eqb (fst entry) k = false) d.
Proof.
  induction d as [|[k' v'] d IH]; simpl; [constructor|].
  destruct (eqb k' k) eqn:Hk; [discriminate|].
  destruct (dict_replace k v d); [discriminate|]. intros _. constructor; auto.
Qed.

Lemma distinct_keys_fst {A B} (d : dict A) (d' : dict B) :
  map fst d' = map fst d -> Shape.distinct_keys d -> Shape.distinct_keys d'.
Proof.
  revert d'. induction d as [|[k v] d IH]; intros [|[k' v'] d']; simpl;
    try discriminate; [tauto|].
  intros [= -> Hrest] [Hhead Htail]. split; [|eauto].
  apply (List.Forall_map fst (fun key => eqb k key = false)).
  rewrite Hrest.
  now apply (List.Forall_map fst (fun key => eqb k key = false)).
Qed.

Lemma distinct_keys_snoc {A} (d : dict A) k v :
  Forall (fun entry => eqb (fst entry) k = false) d ->
  Shape.distinct_keys d -> Shape.distinct_keys (d ++ [(k, v)]).
Proof.
  induction d as [|[k' v'] d IH]; simpl; [auto|].
  intros Hall [Hhead Htail]. inversion Hall; subst. split; [|auto].
  apply Forall_app. split; [assumption|]. now repeat constructor.
Qed.

(** Storing under a key keeps the keys distinct, adds at most one entry and
    keeps what holds of every value. *)
Lemma dict_setitem_keeps {A} (P : A -> Prop) k (v : A) d d' :
  dict_setitem k v d = inr d' ->
  Shape.distinct_keys d -> P v -> Forall (fun entry => P (snd entry)) d ->
  Shape.distinct_keys d'
  /\ Forall (fun entry => P (snd entry)) d'
  /\ (length d' <= S (length d))%nat.
Proof.
  unfold dict_setitem. intros Hset Hd Hv Hall.
  assert (Hcases : match dict_replace k v d with
                   | Some d'' => d' = d''
                   | None => d' = d ++ [(k, v)]
                   end).
  { destruct k; try discriminate;
      destruct (dict_replace _ v d); now injection Hset as <-. }
  destruct (dict_replace k v d) as [d''|] eqn:Hr; subst d'.
  - pose proof (dict_replace_keys _ _ _ _ Hr) as Hkeys. repeat split.
    + eapply distinct_keys_fst; eauto.
    + eapply dict_replace_values; eauto.
    + apply (f_equal length) in Hkeys. rewrite !length_map in Hkeys. lia.
  - repeat split.
    + apply distinct_keys_snoc; [|assumption].
      eapply dict_replace_absent, Hr.
    + apply Forall_app. split; [assumption|]. now repeat constructor.
    + rewrite length_app. simpl. lia.
Qed.

Lemma unit_types_loop_keeps rows : forall summary log log' out,
  unit_types_loop rows summary log = (log', inr out) ->
  Shape.distinct_keys summary ->
  Forall (fun entry => Shape.type_summary (snd entry)) summary ->
  Shape.distinct_keys out
  /\ Forall (fun entry => Shape.type_summary (snd entry)) out
  /\ (length out <= length summary + length rows)%nat.
Proof.
  induction rows as [|r rows IH]; intros summary log log' out; cbn [unit_types_loop].
  - unfold_monad. intros [= <- <-]. intros. repeat split; auto. simpl. lia.
  - unfold_monad.
    destruct (getattr r "total_units") as [|total]; [discriminate|].
    destruct (getattr r "units_needing_pricing") as [|pricing]; [discriminate|].
    destruct (getattr r "avg_rent") as [|rent0]; [discriminate|].
    destruct (float_or_zero rent0) as [|rent] eqn:Hrent; [discriminate|].
    destruct (getattr r "avg_rent_per_sqft") as [|psf0]; [discriminate|].
    destruct (float_or_zero psf0) as [|psf] eqn:Hpsf; [discriminate|].
    destruct (getattr r "unit_type") as [|unit_type]; [discriminate|].
    destruct (dict_setitem unit_type _ summary) as [|summary'] eqn:Hset;
      [discriminate|].
    intros Hloop Hd Hall.
    eapply (dict_setitem_keeps Shape.type_summary) in Hset as (Hd' & Hall' & Hlen);
      eauto.
    + destruct (IH _ _ _ _ Hloop Hd' Hall') as (? & ? & ?).
      repeat split; auto. simpl. lia.
    + exists total, pricing, rent, psf.
      eauto using float_or_zero_shape.
Qed.

(** X3: the unit-type summary never raises, whatever the engine does.  The
    dict it returns has no two equal keys, at most one entry per row of the
    answer, and in every entry the two averages are floats or the int 0:
    a NULL average is reported as 0, never as None. *)
Theorem unit_types_summary_never_raises settings self log :
  exists log' summary,
    get_unit_types_summary settings self log = (log', inr summary)
    /\ Shape.distinct_keys summary
    /\ Forall (fun entry => Shape.type_summary (snd entry)) summary
    /\ (forall frame,
          client self
            (UnitTypesSummary
               (_get_table_name settings (mart_dataset self) "unit_snapshot"))
            = inr frame ->
          (length summary <= length (records frame))%nat).
Proof.
  unfold get_unit_types_summary, async_def. unfold_monad.
  destruct (client self _) as [e | frame] eqn:Hq.
  - eexists _, []. repeat split; simpl; auto. discriminate.
  - destruct (unit_types_loop (records frame) [] log) as [log1 [e | out]] eqn:Hloop.
    + eexists _, []. repeat split; simpl; auto. intros ? [= <-]. lia.
    + apply unit_types_loop_keeps in Hloop as (? & ? & ?); simpl; auto.
      eexists _, out. repeat split; auto. now intros ? [= <-].
Qed.


(** ** The diagnostic methods *)

Lemma remove_absent old s :
  remove old (remove old s) = remove old s.
Proof.
  induction s as [|c s IH]; cbn [remove]; [reflexivity|].
  destruct (String.eqb (String c EmptyString) old) eqn:Hc; [assumption|].
  cbn [remove]. now rewrite Hc, IH.
Qed.

Lemma remove_prefix old s t :
  remove old (s +:+ t)
    = remove old s +:+ remove old t.
Proof.
  induction s as [|c s IH]; [reflexivity|].
  change (String c s +:+ t) with (String c (s +:+ t)).
  cbn [remove].
  destruct (String.eqb (String c EmptyString) old); [exact IH|].
  rewrite IH. reflexivity.
Qed.

(** X4: the competition diagnostic swallows a failure of its schema query
    (the schema is then empty and nothing is logged) but logs and re-raises
    a failure of its sample query (a StopIteration leaves the coroutine as
    a RuntimeError).  The column names are empty when the
    sample has no rows, whatever columns the frame has.  The schema query
    names the competition table with every backtick removed: removing them
    again changes nothing, and a fallback table name is used as it is when
    the project id has no backtick. *)
Theorem competition_diagnostic_outcomes settings self log :
  let competition := get_competition_table settings self in
  let schema_query :=
    SchemaColumns (remove "`" competition) in
  match client self (SampleListings competition) with
  | inl e =>
      test_competition_data settings self log
        = (log ++ [(ERROR, [Txt "Error testing competition data: "; Exc e])],
           inl (escaping e))
  | inr sample =>
      test_competition_data settings self log
        = (log,
           inr {| schema :=
                    match client self schema_query with
                    | inr frame => records frame
                    | inl _ => []
                    end;
                  sample_data := records sample;
                  column_names :=
                    match records sample with
                    | [] => []
                    | _ :: _ => columns sample
                    end;
                  table_name := competition |})
  end
  /\ remove "`" (remove "`" competition)
     = remove "`" competition
  /\ (remove "`" (gcp_project_id settings) = gcp_project_id settings ->
      remove "`"
        (get_competition_table settings (init settings (client self)))
      = get_competition_table settings (init settings (client self))).
Proof.
  intros competition schema_query. split; [|split].
  - unfold test_competition_data, async_def. fold competition schema_query.
    unfold_monad.
    destruct (client self schema_query) as [e1 | frame];
      destruct (client self (SampleListings competition)) as [e | sample];
      try reflexivity;
      unfold len; destruct (records sample); reflexivity.
  - apply remove_absent.
  - intros Hid. unfold get_competition_table. simpl.
    now rewrite remove_prefix, Hid.
Qed.

(** X5: the property-filter diagnostic logs and re-raises the failure of
    either of its two queries (a StopIteration as a RuntimeError), the
    second one only after the first has succeeded; when both succeed it returns their records with the property
    name it was asked for, and logs nothing. *)
Theorem property_filter_diagnostic_outcomes settings self name log :
  let table := _get_table_name settings (mart_dataset self) "unit_snapshot" in
  match client self (FilteredProperty table name),
        client self (PropertiesSample table) with
  | inl e, _ | inr _, inl e =>
      test_property_filter settings self name log
        = (log ++ [(ERROR, [Txt "Error in test property filter: "; Exc e])],
           inl (escaping e))
  | inr filtered, inr sample =>
      test_property_filter settings self name log
        = (log,
           inr {| filtered_result := records filtered;
                  all_properties_sample := records sample;
                  property_searched := name |})
  end.
Proof.
  intros table. unfold test_property_filter, async_def. fold table.
  unfold_monad.
  destruct (client self (FilteredProperty table name));
    destruct (client self (PropertiesSample table)); reflexivity.
Qed.

(** ** What a settings update reaches *)

(** X6: a settings update changes no query over the unit tables.  The
    rentroll table and the project id it stores are read by no query: the
    listings, the lookups and the portfolio, market-position and pricing
    analytics behave after the update as before it, and the three property
    reports do when the competition table is left as it was. *)
Theorem table_settings_reach settings self ts log :
  exists log' self',
    set_table_settings self ts log = (log', inr self')
    /\ (forall page page_size status property flag l,
          get_units settings self' page page_size status property flag l
          = get_units settings self page page_size status property flag l)
    /\ (forall unit_id l,
          get_unit_by_id settings self' unit_id l
          = get_unit_by_id settings self unit_id l)
    /\ (forall unit_id l,
          get_unit_comparables settings self' unit_id l
          = get_unit_comparables settings self unit_id l)
    /\ (forall limit l,
          get_vacant_units settings self' limit l
          = get_vacant_units settings self limit l)
    /\ (forall l, get_properties settings self' l = get_properties settings self l)
    /\ (forall l,
          get_unit_types_summary settings self' l
          = get_unit_types_summary settings self l)
    /\ (forall l,
          get_portfolio_analytics settings self' l
          = get_portfolio_analytics settings self l)
    /\ (forall l,
          get_market_position_analytics settings self' l
          = get_market_position_analytics settings self l)
    /\ (forall l,
          get_pricing_opportunities settings self' l
          = get_pricing_opportunities settings self l)
    /\ (forall l, test_connection self' l = test_connection self l)
    /\ (competition_table ts = _competition_table self ->
        forall name l,
          get_property_vs_competition_analysis settings self' name l
          = get_property_vs_competition_analysis settings self name l
          /\ get_property_unit_analysis settings self' name l
             = get_property_unit_analysis settings self name l
          /\ get_property_market_trends settings self' name l
             = get_property_market_trends settings self name l).
Proof.
  destruct (set_table_settings_returns self ts log) as [log' Hset].
  eexists _, _. split; [exact Hset|].
  repeat (split; [reflexivity|]).
  intros Hc name l.
  unfold get_property_vs_competition_analysis, get_property_unit_analysis,
    get_property_market_trends, overview_row, rent_comparison_row,
    get_competition_table.
  cbn [client mart_dataset _competition_table]. rewrite Hc. auto.
Qed.


(** ** Bedroom texts *)

(** X7: the three bedroom mappings of the service agree.  The chain of the
    rent-comparison loop gives every integer bedroom count the bedroom text
    the join of the unit analysis gives it, and the counts 0 to 4 the same
    text when a row holds them as floats; on the five bedroom texts the
    unit-type chain of the overview loop and the bedroom chain undo the CASE
    of the positioning query; every other unit type and a negative count
    fall back to the text of one-bedroom units, as a count that is NaN does,
    and a count that is None raises a TypeError. *)
Theorem bedroom_mappings_agree :
  (forall (S : Type) (s : S) n,
      bed_text (VInt n) s = (s, inr (Warehouse.bed_label (Some n))))
  /\ (forall (S : Type) (s : S) n,
        0 <= n <= 4 ->
        bed_text (VFloat (float64_of_int n)) s
          = (s, inr (Warehouse.bed_label (Some n))))
  /\ (forall label,
        label ∈ ["Studio"; "1 Bed"; "2 Beds"; "3 Beds"; "4 Beds"] ->
        bed_filter (VStr (Warehouse.market_unit_type label)) = label
        /\ Warehouse.bed_label (Some (Warehouse.market_bed label)) = label)
  /\ (forall unit_type,
        unit_type ∉ ["1BR"; "2BR"; "3BR"; "4BR+"; "STUDIO"] ->
        bed_filter (VStr unit_type) = "1 Bed")
  /\ (forall n, n < 0 -> Warehouse.bed_label (Some n) = "1 Bed")
  /\ (forall (S : Type) (s : S),
        bed_text VNone s = (s, inl TypeError)
        /\ bed_text (VFloat nan) s = (s, inr "1 Bed")).
Proof.
  split; [|split; [|split; [|split; [|split]]]].
  - intros S s n. unfold bed_text, eq_int, ge_int. unfold_monad.
    destruct n as [|[[p|p|]|[p|p|]|]|p]; simpl; try reflexivity;
      now destruct (4 <=? _).
  - intros S s n Hn.
    assert (Hcases : n = 0 \/ n = 1 \/ n = 2 \/ n = 3 \/ n = 4) by lia.
    destruct Hcases as [-> | [-> | [-> | [-> | ->]]]]; reflexivity.
  - intros label Hin. repeat (apply elem_of_cons in Hin as [-> | Hin]);
      [split; reflexivity ..|]. now apply elem_of_nil in Hin.
  - intros unit_type Hout. unfold bed_filter, eq_str.
    repeat match goal with
    | |- context [String.eqb unit_type ?t] =>
        destruct (String.eqb_spec unit_type t) as [-> | _];
        [exfalso; apply Hout; set_solver|]
    end.
    reflexivity.
  - intros n Hn. destruct n; [lia | lia | reflexivity].
  - split; reflexivity.
Qed.

(** ** The competitors of the market trends *)






(** ** The summary of the unit analysis *)

(** A float above 100 is above 50. *)
Lemma float_above_100_above_50 (f : PrimFloat.float) :
  (float_of_scaled 100 0 <? f)%float = true ->
  (float_of_scaled 50 0 <? f)%float = true.
Proof.
  rewrite !FloatAxioms.ltb_spec.
  replace (Prim2SF (float_of_scaled 100 0))
    with (S754_finite false 7036874417766400 (-46)) by (vm_compute; reflexivity).
  replace (Prim2SF (float_of_scaled 50 0))
    with (S754_finite false 7036874417766400 (-47)) by (vm_compute; reflexivity).
  unfold SFltb, SFcompare.
  destruct (Prim2SF f) as [s | s | | s m e]; try discriminate;
    try (destruct s; (discriminate || reflexivity)).
  destruct s; [discriminate|].
  destruct (Z.compare_spec (-46) e), (Z.compare_spec (-47) e);
    try discriminate; try reflexivity; try lia.
Qed.

Lemma gt_int_100_50 v b :
  gt_int v 100 = inr b ->
  exists b', gt_int v 50 = inr b' /\ (b = true -> b' = true).
Proof.
  unfold gt_int. destruct (as_number v) as [[n | f]|]; intros [= <-].
  - eexists. split; [reflexivity|]. lia.
  - eexists. split; [reflexivity|]. apply float_above_100_above_50.
Qed.

Lemma count_above_cons key threshold unit units n :
  snd (count_above key threshold (unit :: units) tt) = inr n ->
  exists above m,
    gt_int (get unit key (VInt 0)) threshold = inr above
    /\ snd (count_above key threshold units tt) = inr m
    /\ n = if above : bool then 1 + m else m.
Proof.
  cbn [count_above]. unfold_monad.
  destruct (gt_int _ threshold) as [|above]; [discriminate|].
  rewrite count_above_pure. simpl.
  destruct (snd (count_above key threshold units tt)) as [|m] eqn:Hm;
    [discriminate|].
  intros [= Hn]. exists above, m. auto.
Qed.

Lemma count_above_range key threshold units n :
  snd (count_above key threshold units tt) = inr n ->
  0 <= n <= Z.of_nat (length units).
Proof.
  revert n. induction units as [|unit units IH]; intros n.
  - intros [= <-]. simpl. lia.
  - intros (above & m & _ & Hm & ->)%count_above_cons.
    specialize (IH _ Hm). cbn [length]. destruct above; lia.
Qed.

Lemma count_above_100_50 key units n100 n50 :
  snd (count_above key 100 units tt) = inr n100 ->
  snd (count_above key 50 units tt) = inr n50 ->
  n100 <= n50.
Proof.
  revert n100 n50. induction units as [|unit units IH]; intros n100 n50.
  - intros [= <-] [= <-]. lia.
  - intros (a100 & m100 & Ha100 & Hm100 & ->)%count_above_cons
           (a50 & m50 & Ha50 & Hm50 & ->)%count_above_cons.
    specialize (IH _ _ Hm100 Hm50).
    apply gt_int_100_50 in Ha100 as (b' & Hb' & Himp).
    rewrite Ha50 in Hb'. injection Hb' as <-.
    destruct a100; [rewrite Himp by reflexivity|destruct a50]; lia.
Qed.

(** X9: in the summary of the unit analysis the number of units analysed is
    the number of units returned, the units more than $100 below market are
    among those more than $50 below, which are among all units, and the
    annual opportunity is the monthly one times 12.  With no unit every
    figure is the int 0 and nothing is divided; otherwise the average gap is
    the monthly opportunity over the number of units. *)
Theorem unit_analysis_summary_shape settings self name log log' r :
  get_property_unit_analysis settings self name log = (log', inr r) ->
  exists n50 n100 monthly annual gap,
    pua_summary r
      = <["total_units_analyzed" := VInt (Z.of_nat (length (units r)))]>
        (<["units_50plus_below_market" := VInt n50]>
        (<["units_100plus_below_market" := VInt n100]>
        (<["total_monthly_opportunity" := monthly]>
        (<["total_annual_opportunity" := annual]>
        (<["avg_rent_gap" := gap]> ∅)))))
    /\ 0 <= n100 <= n50 /\ n50 <= Z.of_nat (length (units r))
    /\ mul monthly (VInt 12) = inr annual
    /\ (units r = [] ->
        n50 = 0 /\ monthly = VInt 0 /\ annual = VInt 0 /\ gap = VInt 0)
    /\ (units r <> [] ->
        truediv monthly (VInt (Z.of_nat (length (units r)))) = inr gap).
Proof.
  unfold get_property_unit_analysis. cbv zeta.
  intros Hrun. apply async_def_inr in Hrun. revert Hrun. unfold_monad.
  destruct (client self _) as [e | frame]; [discriminate|].
  rewrite (count_above_pure _ _ 50).
  destruct (snd (count_above _ 50 _ tt)) as [e | n50] eqn:H50; [discriminate|].
  rewrite (count_above_pure _ _ 100).
  destruct (snd (count_above _ 100 _ tt)) as [e | n100] eqn:H100; [discriminate|].
  rewrite sum_from_pure.
  destruct (snd (sum_from _ _ _ tt)) as [e | monthly] eqn:Hsum; [discriminate|].
  destruct (mul monthly (VInt 12)) as [e | annual] eqn:Hmul; [discriminate|].
  pose proof (count_above_range _ _ _ _ H50) as Hr50.
  pose proof (count_above_range _ _ _ _ H100) as Hr100.
  pose proof (count_above_100_50 _ _ _ _ H100 H50) as Hmono.
  destruct (0 <? Z.of_nat (length (records frame))) eqn:Hlen.
  - destruct (truediv monthly _) as [e | gap] eqn:Hdiv; [discriminate|].
    intros [= <- <-]. cbn [units pua_summary].
    exists n50, n100, monthly, annual, gap.
    split; [reflexivity|]. split; [lia|]. split; [lia|].
    split; [assumption|]. split; [|intros _; assumption].
    intros Hrows. rewrite Hrows in Hlen. discriminate Hlen.
  - intros [= <- <-]. cbn [units pua_summary].
    assert (Hrows : records frame = []).
    { apply Z.ltb_ge in Hlen.
      destruct (records frame); [reflexivity | cbn [length] in Hlen; lia]. }
    rewrite Hrows in *. simpl in H50, Hsum. injection H50 as <-.
    injection Hsum as <-. simpl in Hmul. injection Hmul as <-.
    exists 0, n100, (VInt 0), (VInt 0), (VInt 0).
    simpl in Hr100. split; [reflexivity|]. split; [lia|]. split; [lia|].
    split; [reflexivity|]. split; [auto|]. intros []. reflexivity.
Qed.

Lemma unit_analysis_summary_shape_witness :
  exists log' r,
    get_property_unit_analysis Sample.settings Scenario.one_unit "Elm Row" []
      = (log', inr r)
    /\ exists n50 n100 monthly annual gap,
         pua_summary r
           = <["total_units_analyzed" := VInt (Z.of_nat (length (units r)))]>
             (<["units_50plus_below_market" := VInt n50]>
             (<["units_100plus_below_market" := VInt n100]>
             (<["total_monthly_opportunity" := monthly]>
             (<["total_annual_opportunity" := annual]>
             (<["avg_rent_gap" := gap]> ∅)))))
         /\ 0 <= n100 <= n50 /\ n50 <= Z.of_nat (length (units r))
         /\ mul monthly (VInt 12) = inr annual.
Proof.
  assert (Hok : match snd (get_property_unit_analysis Sample.settings
                             Scenario.one_unit "Elm Row" []) with
                | inr _ => true
                | inl _ => false
                end = true) by (vm_compute; reflexivity).
  destruct (get_property_unit_analysis Sample.settings Scenario.one_unit
              "Elm Row" []) as [log' [e | r]] eqn:Hrun; [discriminate Hok|].
  destruct (unit_analysis_summary_shape _ _ _ _ _ _ Hrun)
    as (n50 & n100 & monthly & annual & gap & Hsummary & H100 & H50 & Hmul & _).
  exists log', r. split; [reflexivity|].
  exists n50, n100, monthly, annual, gap. auto.
Defined.


(** ** The listings over the tables of a warehouse *)

(** What the WHERE clause of the paginated listing keeps. *)
Lemma units_where_keeps status property flag keep u :
  Warehouse.unit_where (units_where status property flag) = Some keep ->
  keep u = true ->
  Warehouse.has_complete_data u = Some true
  /\ (forall s, nonempty status = Some s -> Warehouse.status u = Some s)
  /\ (forall p, nonempty property = Some p -> Warehouse.property u = Some p)
  /\ (flag = true -> Warehouse.needs_pricing u = Some true).
Proof.
  unfold units_where.
  destruct (nonempty status) as [s|], (nonempty property) as [p|], flag;
    simpl;
    repeat match goal with
    | |- context [plain ?t] => destruct (plain t); simpl; [|discriminate]
    end;
    intros [= <-] Hkeep;
    repeat match type of Hkeep with
    | _ && _ = true => apply andb_true_iff in Hkeep as [? Hkeep]
    end;
    repeat match goal with
    | H : bool_decide _ = true |- _ => apply bool_decide_eq_true in H
    end;
    repeat split; try congruence; try discriminate.
Qed.

Lemma matching_units_kept s table keep u :
  Warehouse.visits_all s ->
  u ∈ Warehouse.matching_units s table keep -> u ∈ table /\ keep u = true.
Proof.
  intros Hs. unfold Warehouse.matching_units. rewrite sort_by_Permutation.
  intros Hin. apply list_elem_of_In, List.filter_In in Hin as [Hin Hkeep].
  split; [|assumption]. apply list_elem_of_In in Hin.
  now rewrite (Hs table) in Hin.
Qed.

(** The page of a listing that returned is the frame of its data query. *)
Lemma get_units_returns settings self page page_size status property flag
    log log' units total :
  get_units settings self page page_size status property flag log
    = (log', inr (units, total)) ->
  exists frame,
    client self
      (SelectUnits (_get_table_name settings (mart_dataset self) "unit_snapshot")
         (units_where status property flag) page_size ((page - 1) * page_size))
      = inr frame
    /\ units = records frame.
Proof.
  unfold get_units. cbv zeta.
  intros Hrun. apply async_def_inr in Hrun. revert Hrun. unfold_monad.
  destruct (client self (CountUnits _ _)) as [e | counted]; [discriminate|].
  destruct (records counted) as [|row0 rows]; cbn [next]; unfold_monad;
    [discriminate|].
  destruct (getattr row0 "total_count"); [discriminate|].
  destruct (client self (SelectUnits _ _ _ _)) as [e | frame]; [discriminate|].
  intros [= <- <- <-]. eauto.
Qed.

(** X10: every unit on a page of the listing has complete data and passes
    the filters given: it has the status and the property asked for and,
    with [needs_pricing_only], needs pricing.  An empty string as status or
    property filter is no filter, as None is. *)
Theorem get_units_applies_filters settings self s table status property flag
    page page_size log log' units total :
  let snapshot := _get_table_name settings (mart_dataset self) "unit_snapshot" in
  let where_clause := units_where status property flag in
  Warehouse.visits_all s ->
  client self (SelectUnits snapshot where_clause page_size ((page - 1) * page_size))
    = Warehouse.select_units s table where_clause page_size
        ((page - 1) * page_size) ->
  get_units settings self page page_size status property flag log
    = (log', inr (units, total)) ->
  Forall (fun d =>
            exists u,
              u ∈ table /\ d = Warehouse.unit_record u
              /\ d !! "has_complete_data" = Some (VBool true)
              /\ (forall t, status = Some t -> t <> "" ->
                  d !! "status" = Some (VStr t))
              /\ (forall p, property = Some p -> p <> "" ->
                  d !! "property" = Some (VStr p))
              /\ (flag = true -> d !! "needs_pricing" = Some (VBool true)))
    units
  /\ (forall l,
        get_units settings self page page_size (Some "") property flag l
        = get_units settings self page page_size None property flag l)
  /\ (forall l,
        get_units settings self page page_size status (Some "") flag l
        = get_units settings self page page_size status None flag l).
Proof.
  intros snapshot where_clause Hs Hq Hrun. split; [|split; reflexivity].
  apply get_units_returns in Hrun as (frame & Hframe & ->).
  fold snapshot where_clause in Hframe. rewrite Hq in Hframe.
  unfold Warehouse.select_units in Hframe.
  destruct (Warehouse.unit_where where_clause) as [keep|] eqn:Hkeep;
    [|discriminate].
  destruct (_ && _); [|discriminate]. injection Hframe as <-. cbn [records].
  apply List.Forall_map, Forall_take, Forall_drop, Forall_forall.
  intros u [Hin Hu]%(matching_units_kept _ _ _ _ Hs).
  destruct (units_where_keeps _ _ _ _ u Hkeep Hu) as (Hdata & Hst & Hp & Hflag).
  exists u. split; [assumption|]. split; [reflexivity|].
  split; [|split; [|split]].
  - change (Some (Warehouse.boolean (Warehouse.has_complete_data u))
            = Some (VBool true)). now rewrite Hdata.
  - intros t -> Hne.
    change (Some (Warehouse.text (Warehouse.status u)) = Some (VStr t)).
    now rewrite (Hst t (nonempty_Some t Hne)).
  - intros p -> Hne.
    change (Some (Warehouse.text (Warehouse.property u)) = Some (VStr p)).
    now rewrite (Hp p (nonempty_Some p Hne)).
  - intros Hf.
    change (Some (Warehouse.boolean (Warehouse.needs_pricing u))
            = Some (VBool true)). now rewrite (Hflag Hf).
Qed.

Lemma get_units_applies_filters_witness :
  exists log' units total,
    get_units Sample.settings Sample.connected 1 3 (Some "VACANT")
      (Some "Maple Ridge") true [] = (log', inr (units, total))
    /\ Forall (fun d =>
                 d !! "has_complete_data" = Some (VBool true)
                 /\ d !! "status" = Some (VStr "VACANT")
                 /\ d !! "property" = Some (VStr "Maple Ridge")
                 /\ d !! "needs_pricing" = Some (VBool true)) units.
Proof.
  assert (Hok : match snd (get_units Sample.settings Sample.connected 1 3
                             (Some "VACANT") (Some "Maple Ridge") true []) with
                | inr _ => true
                | inl _ => false
                end = true) by (vm_compute; reflexivity).
  destruct (get_units Sample.settings Sample.connected 1 3 (Some "VACANT")
              (Some "Maple Ridge") true []) as [log' [e | [units total]]]
    eqn:Hrun; [discriminate Hok|].
  destruct (get_units_applies_filters Sample.settings Sample.connected
              Warehouse.in_table_order Sample.units _ _ _ _ _ _ _ _ _
              (fun l => Permutation_refl l) eq_refl Hrun) as [Hall _].
  exists log', units, total. split; [reflexivity|].
  eapply Forall_impl; [exact Hall|].
  intros d (u & _ & _ & Hdata & Hs & Hp & Hflag).
  split; [exact Hdata|]. split; [now apply Hs|]. split; [now apply Hp|].
  now apply Hflag.
Defined.




(** X12: the vacancy listing over the tables of a warehouse.  The limit 0
    is no limit: it sends the query that None sends, and every unit that
    needs pricing and has complete data is returned, each once, whatever its
    status; a positive limit keeps the first units of that list, and a
    negative one or one beyond INT64 makes the query fail, which is logged
    and re-raised. *)
Theorem vacant_units_limit settings self s table log :
  (forall limit,
      Warehouse.visits_all (s limit)
      /\ client self
           (SelectVacantUnits
              (_get_table_name settings (mart_dataset self) "unit_snapshot")
              limit)
         = Warehouse.select_vacant_units (s limit) table limit) ->
  let listed limit :=
    map Warehouse.vacant_record (Warehouse.units_to_price (s limit) table) in
  snd (get_vacant_units settings self None log) = inr (listed None)
  /\ get_vacant_units settings self (Some 0) log
     = get_vacant_units settings self None log
  /\ (forall n, 0 < n < 2 ^ 63 ->
        snd (get_vacant_units settings self (Some n) log)
          = inr (take (Z.to_nat n) (listed (Some n))))
  /\ (forall n, n < 0 \/ 2 ^ 63 <= n ->
        get_vacant_units settings self (Some n) log
          = (log ++ [(ERROR, [Txt "Error fetching vacant units: ";
                              Exc Warehouse.rejected])],
             inl Warehouse.rejected))
  /\ (forall limit,
        Warehouse.units_to_price (s limit) table
          ≡ₚ List.filter Warehouse.to_price table
        /\ Forall (fun u => Warehouse.needs_pricing u = Some true
                            /\ Warehouse.has_complete_data u = Some true)
             (Warehouse.units_to_price (s limit) table)).
Proof.
  intros Hq listed. unfold get_vacant_units. cbv zeta.
  split; [|split; [|split; [|split]]].
  - destruct (Hq None) as [_ Hnone]. unfold async_def. unfold_monad.
    now rewrite Hnone.
  - reflexivity.
  - intros n Hn. destruct (Z.eqb_spec n 0) as [-> | _]; [lia|].
    destruct (Hq (Some n)) as [_ Hsome]. unfold async_def. unfold_monad.
    rewrite Hsome. unfold Warehouse.select_vacant_units.
    rewrite row_count_accepted by lia. cbn [records snd].
    unfold listed. now rewrite List.firstn_map.
  - intros n Hn. destruct (Z.eqb_spec n 0) as [-> | _]; [lia|].
    destruct (Hq (Some n)) as [_ Hsome].
    apply (reraised _ (fun e => [Txt "Error fetching vacant units: "; Exc e])).
    unfold_monad. rewrite Hsome. unfold Warehouse.select_vacant_units.
    replace (Warehouse.row_count n) with false; [reflexivity|].
    symmetry. unfold Warehouse.row_count, int64.
    destruct Hn as [Hn | Hn].
    + destruct (Z.leb_spec 0 n); [lia | reflexivity].
    + apply andb_false_intro2, andb_false_intro2. now apply Z.ltb_ge.
  - intros limit. destruct (Hq limit) as [Hs _].
    assert (Hperm : Warehouse.units_to_price (s limit) table
                      ≡ₚ List.filter Warehouse.to_price table).
    { unfold Warehouse.units_to_price. rewrite sort_by_Permutation.
      apply filter_Permutation', Hs. }
    split; [exact Hperm|]. rewrite Hperm.
    apply Forall_forall. intros u Hin.
    apply list_elem_of_In, List.filter_In in Hin as [_ Hu].
    unfold Warehouse.to_price in Hu. apply andb_true_iff in Hu as [H1 H2].
    apply bool_decide_eq_true in H1, H2. now split.
Qed.

Lemma vacant_units_limit_witness :
  map (fun d => (d !! "unit_id", d !! "status"))
    (match snd (get_vacant_units Sample.settings Sample.connected (Some 2) [])
     with
     | inr units => units
     | inl _ => []
     end)
  = [(Some (VStr "MR-202"), Some (VStr "VACANT"));
     (Some (VStr "MR-102"), Some (VStr "VACANT"))].
Proof.
  destruct (vacant_units_limit Sample.settings Sample.connected
              (fun _ => Warehouse.in_table_order) Sample.units []
              (fun limit => conj (fun l => Permutation_refl l) eq_refl))
    as (_ & _ & Hsome & _).
  rewrite (Hsome 2) by lia. vm_compute. reflexivity.
Defined.

(** X13: the properties listing over the tables of a warehouse returns the
    names of the properties that have a unit, each name once and none of
    them None, and logs nothing. *)
Theorem properties_are_distinct settings self s table log :
  Warehouse.visits_all s ->
  client self
    (SelectProperties (_get_table_name settings (mart_dataset self) "unit_snapshot"))
    = inr (Warehouse.select_properties s table) ->
  exists names,
    get_properties settings self log = (log, inr (map VStr names))
    /\ NoDup names
    /\ (forall p, p ∈ names <->
                  exists u, u ∈ table /\ Warehouse.property u = Some p).
Proof.
  intros Hs Hq. exists (Warehouse.property_names s table). split; [|split].
  - unfold get_properties. apply returned. unfold_monad. rewrite Hq.
    cbn [Warehouse.select_properties records].
    pose proof (mapM_getattr_present Log "property"
                  (map (fun p => ({[ "property" := VStr p ]} : row))
                     (Warehouse.property_names s table)) log) as H.
    unfold_monad. rewrite H.
    + rewrite List.map_map. reflexivity.
    + apply List.Forall_map, Forall_forall. intros p _. now exists (VStr p).
  - unfold Warehouse.property_names. rewrite sort_by_Permutation.
    apply NoDup_remove_dups.
  - intros p. unfold Warehouse.property_names, Warehouse.values.
    rewrite sort_by_Permutation, elem_of_remove_dups, list_elem_of_omap.
    split.
    + intros (u & Hin & Hp). rewrite (Hs table) in Hin. eauto.
    + intros (u & Hin & Hp). rewrite <- (Hs table) in Hin. eauto.
Qed.

Lemma properties_are_distinct_witness :
  exists names,
    get_properties Sample.settings Sample.connected []
      = ([], inr (map VStr names))
    /\ NoDup names /\ "Oak Court" ∈ names.
Proof.
  destruct (properties_are_distinct Sample.settings Sample.connected
              Warehouse.in_table_order Sample.units []
              (fun l => Permutation_refl l) eq_refl)
    as (names & Hrun & Hnodup & Hin).
  exists names. split; [exact Hrun|]. split; [exact Hnodup|].
  apply Hin.
  exists (Sample.unit "OC-001" "Oak Court" 0 450 900 "VACANT" "STUDIO" true
            (Some "HIGH")).
  split; [|reflexivity]. apply (list_elem_of_lookup_2 _ 5%nat). reflexivity.
Defined.


(** ** Sums that are NULL *)

(** X14: the portfolio analytics need both revenue figures.  When the
    portfolio has no total revenue potential or no current annual revenue
    (the sums are NULL over an empty table, where the occupancy rate is the
    guarded 0), the subtraction raises a TypeError, which is logged and
    re-raised: the guard on the occupancy rate does not make the operation
    safe on an empty table. *)
Theorem portfolio_needs_revenue_figures settings self log frame row0 data
    urgency performance rate potential revenue :
  let snapshot := _get_table_name settings (mart_dataset self) "unit_snapshot" in
  client self (PortfolioMetrics snapshot) = inr frame ->
  head (records frame) = Some row0 ->
  row0 !! "portfolio_json" = Some (VDict data) ->
  client self (UrgencyBreakdown snapshot) = inr urgency ->
  client self (PropertyPerformance snapshot) = inr performance ->
  snd (portfolio_occupancy_rate data tt) = inr rate ->
  data !! "total_revenue_potential" = Some potential ->
  data !! "current_annual_revenue" = Some revenue ->
  potential = VNone \/ revenue = VNone ->
  get_portfolio_analytics settings self log
    = (log ++ [(ERROR, [Txt "Error fetching portfolio analytics: ";
                        Exc TypeError])], inl TypeError).
Proof.
  intros snapshot Hq Hhead Hjson Hu Hp Hrate Hpotential Hrevenue Hnone.
  unfold get_portfolio_analytics. cbv zeta. fold snapshot.
  apply (reraised _ (fun e => [Txt "Error fetching portfolio analytics: ";
                               Exc e])).
  unfold_monad.
  rewrite Hq. destruct (records frame) as [|r rows]; [discriminate|].
  injection Hhead as ->. cbn [first]. unfold_monad.
  rewrite (getitem_Some _ _ _ Hjson), Hu, Hp. cbn [as_dict]. unfold_monad.
  rewrite portfolio_occupancy_rate_pure, Hrate.
  rewrite !(getitem_Some _ _ potential), !(getitem_Some _ _ revenue)
    by (rewrite ?lookup_insert_ne by discriminate; assumption).
  assert (Hsub : sub potential revenue = inl TypeError).
  { destruct Hnone as [-> | ->]; [reflexivity|].
    unfold sub, arith. now destruct (as_number potential) as [[]|]. }
  now rewrite Hsub.
Qed.

Lemma portfolio_needs_revenue_figures_witness :
  get_portfolio_analytics Sample.settings Scenario.no_units []
    = ([(ERROR, [Txt "Error fetching portfolio analytics: "; Exc TypeError])],
       inl TypeError).
Proof.
  exact (portfolio_needs_revenue_figures Sample.settings Scenario.no_units []
           _ _ _ _ _ (VInt 0) VNone VNone
           eq_refl eq_refl eq_refl eq_refl eq_refl eq_refl eq_refl eq_refl
           (or_introl eq_refl)).
Defined.


(** The performance metrics of a property without units: no unit is
    counted and every sum is NULL. *)
Lemma performance_without_units table name :
  Warehouse.property_units table name = [] ->
  let data := Warehouse.performance_record (Warehouse.property_units table name) in
  data !! "total_units" = Some (VInt 0)
  /\ data !! "total_revenue_potential" = Some VNone
  /\ data !! "current_annual_revenue" = Some VNone.
Proof. intros ->. repeat split. Qed.





(** ** What the loop bodies of the competition report write *)

Section Runs.

Import Shape.

Context (P Q R E : row -> Prop).

Lemma runs_bind {A B} (m : M (row * Log) A) (k : A -> M (row * Log) B) :
  runs P m Q E -> (forall a, runs Q (k a) R E) -> runs P (bind m k) R E.
Proof.
  intros Hm Hk d l s' r HP. unfold bind.
  destruct (m (d, l)) as [[d1 l1] [e | a]] eqn:Hrun.
  - intros [= <- <-]. exact (Hm _ _ _ _ HP Hrun).
  - intros Hrun'. apply (Hk a d1 l1 s' r); [|exact Hrun'].
    exact (Hm _ _ _ _ HP Hrun).
Qed.

Lemma runs_lift {A} (x : exn + A) : (forall d, P d -> E d) -> runs P (lift x) P E.
Proof.
  intros HE d l s' r HP. unfold lift. intros [= <- <-]. destruct x; auto.
Qed.

Lemma runs_ret {A} (a : A) : runs P (ret a) P E.
Proof. intros d l s' r HP. unfold ret. now intros [= <- <-]. Qed.

Lemma runs_log (record : log_record) :
  runs P (modify (emit record)) P E.
Proof. intros d l s' r HP. unfold modify. now intros [= <- <-]. Qed.

Lemma runs_setitem key v :
  (forall d, P d -> Q (<[key := v]> d)) -> runs P (setitem key v) Q E.
Proof.
  intros HQ d l s' r HP. unfold setitem, modify. intros [= <- <-]. now apply HQ.
Qed.

Lemma runs_try {A} (m : M (row * Log) A) (h : exn -> M (row * Log) A) :
  runs P m R Q -> (forall e, runs Q (h e) R E) -> runs P (try_except m h) R E.
Proof.
  intros Hm Hh d l s' r HP. unfold try_except.
  destruct (m (d, l)) as [[d1 l1] [e | a]] eqn:Hrun.
  - intros Hrun'. apply (Hh e d1 l1 s' r); [|exact Hrun'].
    exact (Hm _ _ _ _ HP Hrun).
  - intros [= <- <-]. exact (Hm _ _ _ _ HP Hrun).
Qed.

Lemma runs_weaken {A} (P' Q' E' : row -> Prop) (m : M (row * Log) A) :
  runs P' m Q' E' ->
  (forall d, P d -> P' d) -> (forall d, Q' d -> Q d) -> (forall d, E' d -> E d) ->
  runs P m Q E.
Proof.
  intros Hm HP HQ HE d l s' r Hd Hrun.
  specialize (Hm d l s' r (HP d Hd) Hrun). destruct r; auto.
Qed.

Lemma runs_assoc {A B C} (m : M (row * Log) A) (k1 : A -> M (row * Log) B)
    (k2 : B -> M (row * Log) C) :
  runs P (bind m (fun a => bind (k1 a) k2)) Q E ->
  runs P (bind (bind m k1) k2) Q E.
Proof.
  intros H d l s' r HP Hrun. apply (H d l s' r HP). rewrite <- Hrun.
  unfold bind. now destruct (m (d, l)) as [? [|]].
Qed.

End Runs.

(** The test of an enrichment result leaves the row dict as it is. *)
Lemma runs_has_comps (P : row -> Prop) df :
  Shape.runs P (has_comps df) P P.
Proof.
  unfold has_comps. destruct (0 <? len df); [|apply runs_ret].
  apply runs_bind with (Q := P); [now apply runs_lift|]. intros avg.
  destruct (is_none avg); [apply runs_ret|].
  apply runs_bind with (Q := P); [now apply runs_lift|]. intros count.
  now apply runs_lift.
Qed.

Lemma assigned_insert added set (r d : row) key v :
  key ∈ added -> Shape.assigned added set r d ->
  Shape.assigned added (key :: set) r (<[key := v]> d).
Proof.
  intros Hin [Hout Hset]. split.
  - intros k Hk. rewrite lookup_insert_ne; [auto|]. intros ->. contradiction.
  - constructor; [rewrite lookup_insert_eq; eauto|].
    eapply Forall_impl; [exact Hset|]. intros k Hk. cbv beta.
    destruct (decide (key = k)) as [-> | Hne];
      [rewrite lookup_insert_eq; eauto | now rewrite lookup_insert_ne].
Qed.

Lemma assigned_fewer added set set' (r d : row) :
  set' ⊆ set -> Shape.assigned added set r d -> Shape.assigned added set' r d.
Proof.
  intros Hsub [Hout Hset]. split; [assumption|].
  apply Forall_forall. intros k Hk.
  rewrite Forall_forall in Hset. apply Hset, Hsub, Hk.
Qed.

Lemma assigned_start added (r : row) : Shape.assigned added [] r r.
Proof. split; [reflexivity | constructor]. Qed.

(** Membership and inclusion of explicit lists of keys. *)
Ltac keys :=
  lazymatch goal with
  | |- _ ∈ _ => apply list_elem_of_In; simpl; tauto
  | |- _ ⊆ _ =>
      let k := fresh "k" in
      let Hk := fresh "Hk" in
      intros k Hk; apply list_elem_of_In; apply list_elem_of_In in Hk;
      simpl in *; tauto
  end.

(** Steps through a loop body, one statement at a time. *)
Ltac runs_step :=
  lazymatch goal with
  | |- Shape.runs (Shape.assigned ?added ?set ?r) (bind (setitem ?key _) _) _ _ =>
      apply runs_bind with (Q := Shape.assigned added (key :: set) r);
      [apply runs_setitem; intros ? ?; apply assigned_insert;
       [keys | assumption]
      |intros ?]
  | |- Shape.runs (Shape.assigned ?added ?set ?r) (setitem ?key _) _ _ =>
      apply runs_weaken
        with (P' := Shape.assigned added set r)
             (Q' := Shape.assigned added (key :: set) r)
             (E' := Shape.assigned added [] r);
      [apply runs_setitem; intros ? ?; apply assigned_insert;
       [keys | assumption]
      |auto
      |intros ?; apply assigned_fewer; keys
      |auto]
  | |- Shape.runs ?P (bind (lift _) _) _ _ =>
      apply runs_bind with (Q := P);
      [apply runs_lift; intros ?; apply assigned_fewer; keys|intros ?]
  | |- Shape.runs ?P (lift _) _ _ =>
      apply runs_weaken with (P' := P) (Q' := P) (E' := P);
      [apply runs_lift; auto
      |auto
      |intros ?; apply assigned_fewer; keys
      |intros ?; apply assigned_fewer; keys]
  | |- Shape.runs ?P (bind (has_comps _) _) _ _ =>
      apply runs_bind with (Q := P);
      [apply runs_weaken with (P' := P) (Q' := P) (E' := P);
       [apply runs_has_comps|auto|auto
       |intros ?; apply assigned_fewer; keys]
      |intros ?]
  | |- Shape.runs ?P (bind (modify _) _) _ _ =>
      apply runs_bind with (Q := P); [apply runs_log|intros ?]
  | |- Shape.runs ?P (modify _) _ _ =>
      apply runs_weaken with (P' := P) (Q' := P) (E' := P);
      [apply runs_log
      |auto
      |intros ?; apply assigned_fewer; keys
      |intros ?; apply assigned_fewer; keys]
  | |- Shape.runs ?P (bind (ret _) _) _ _ =>
      apply runs_bind with (Q := P); [apply runs_ret|intros ?]
  | |- Shape.runs _ (bind (bind _ _) _) _ _ => apply runs_assoc
  | |- Shape.runs _ (bind (if ?b then _ else _) _) _ _ => destruct b
  | |- Shape.runs _ (if ?b then _ else _) _ _ => destruct b
  end.

Lemma runs_with_row_dict {A} (P Q E : row -> Prop) (m : M (row * Log) A)
    (r d : row) (l l' : Log) :
  Shape.runs P m Q E -> P r -> with_row_dict r m l = (l', inr d) -> Q d.
Proof.
  intros Hm HP. unfold with_row_dict.
  destruct (m (r, l)) as [[d1 l1] [e | a]] eqn:Hrun; [discriminate|].
  intros [= <- <-]. exact (Hm _ _ _ _ HP Hrun).
Qed.

Lemma overview_mock_runs (row : row) set :
  Shape.runs (Shape.assigned Shape.overview_keys set row) (overview_mock row)
    (Shape.assigned Shape.overview_keys Shape.overview_keys row)
    (Shape.assigned Shape.overview_keys [] row).
Proof.
  unfold overview_mock, Shape.overview_keys. repeat runs_step.
Qed.

Lemma comparison_mock_runs (row : row) set :
  Shape.runs (Shape.assigned Shape.comparison_keys set row) (comparison_mock row)
    (Shape.assigned Shape.comparison_keys Shape.comparison_keys row)
    (Shape.assigned Shape.comparison_keys [] row).
Proof.
  unfold comparison_mock, Shape.comparison_keys. repeat runs_step.
Qed.

(** Steps through a loop body and its calls of the mock assignments. *)
Ltac runs_body :=
  repeat first
    [ runs_step
    | apply overview_mock_runs
    | apply comparison_mock_runs
    | lazymatch goal with
      | |- Shape.runs (Shape.assigned ?added _ ?r) (bind (overview_mock _) _) _ _ =>
          apply runs_bind with (Q := Shape.assigned added added r);
          [apply overview_mock_runs|intros ?]
      | |- Shape.runs (Shape.assigned ?added _ ?r) (bind (comparison_mock _) _) _ _ =>
          apply runs_bind with (Q := Shape.assigned added added r);
          [apply comparison_mock_runs|intros ?]
      end ].

(** A returned overview row is the record of the grouped query with the
    three market keys assigned and nothing else changed. *)
Lemma overview_row_extends settings self (row : row) log log' d :
  overview_row settings self row log = (log', inr d) ->
  Shape.extends Shape.overview_keys row d.
Proof.
  unfold overview_row. cbv zeta.
  unfold bind at 1, lift at 1. destruct (getitem row "unit_type"); [discriminate|].
  unfold bind at 1, lift at 1. destruct (getitem row "avg_our_rent"); [discriminate|].
  unfold bind at 1, lift at 1. destruct (mul _ (VFloat 0.7)); [discriminate|].
  unfold bind at 1, lift at 1. destruct (mul _ (VFloat 1.3)); [discriminate|].
  apply runs_with_row_dict
    with (P := Shape.assigned Shape.overview_keys [] row)
         (E := Shape.assigned Shape.overview_keys [] row);
    [|apply assigned_start].
  apply runs_try with (Q := Shape.assigned Shape.overview_keys [] row).
  - unfold to_dataframe, info. runs_body.
    all: unfold Shape.overview_keys; runs_body.
  - intros e. unfold warning. runs_body.
Qed.

(** A returned rent-comparison row is the record of the grouped query with
    the six market keys assigned and nothing else changed. *)
Lemma rent_comparison_row_extends settings self (row : row) log log' d :
  rent_comparison_row settings self row log = (log', inr d) ->
  Shape.extends Shape.comparison_keys row d.
Proof.
  unfold rent_comparison_row. cbv zeta.
  unfold bind at 1, lift at 1. destruct (getitem row "bed"); [discriminate|].
  unfold bind at 1. destruct (bed_text _ log) as [l1 [e | text]]; [discriminate|].
  apply runs_with_row_dict
    with (P := Shape.assigned Shape.comparison_keys [] row)
         (E := Shape.assigned Shape.comparison_keys [] row);
    [|apply assigned_start].
  apply runs_try with (Q := Shape.assigned Shape.comparison_keys [] row).
  - unfold to_dataframe, info. runs_body.
    all: unfold Shape.comparison_keys; runs_body.
  - intros e. unfold warning. runs_body.
Qed.

Lemma extends_of_returns {S} (f : row -> M S row) (keys : list string)
    (l ys : list row) :
  (forall x s s' y, f x s = (s', inr y) -> Shape.extends keys x y) ->
  Forall2 (fun x y => exists s1 s2, f x s1 = (s2, inr y)) l ys ->
  Forall2 (Shape.extends keys) l ys.
Proof.
  intros Hf H. induction H as [|x y l ys (s1 & s2 & Hx) _ IH]; constructor; eauto.
Qed.

(** X16: in a competition report that is returned, the overview has one
    row per record of the grouped overview query, in order, and each row is
    that record with the keys avg_market_rent, avg_market_rent_per_sqft and
    avg_premium_discount_pct assigned and every other column as the query
    returned it; the rent comparison likewise has one row per record of its
    grouped query, with avg_market_rent, min_market_rent, max_market_rent,
    avg_market_rent_per_sqft, comp_count and rent_gap_pct assigned.  This
    holds whatever the enrichment queries answer, a failure or a partial
    assignment included. *)
Theorem report_rows_extend_query_records settings self name log log' r :
  get_property_vs_competition_analysis settings self name log = (log', inr r) ->
  let table := _get_table_name settings (mart_dataset self) "unit_snapshot" in
  exists overview comparison,
    client self (PropertyOverview table name) = inr overview
    /\ client self (RentComparison table name) = inr comparison
    /\ Forall2 (Shape.extends Shape.overview_keys)
         (records overview) (overview_by_unit_type r)
    /\ Forall2 (Shape.extends Shape.comparison_keys)
         (records comparison) (rent_comparison_by_bedrooms r).
Proof.
  intros Hrun table. revert Hrun.
  unfold get_property_vs_competition_analysis. cbv zeta. fold table.
  intros Hrun. apply async_def_inr in Hrun. revert Hrun. unfold_monad.
  destruct (client self (PropertyOverview _ _)) as [e | overview];
    [discriminate|].
  destruct (mapM (overview_row _ _) _ _) as [s1 [e | overview_data]] eqn:Hrows;
    [discriminate|].
  destruct (client self (RentComparison _ _)) as [e | comparison];
    [discriminate|].
  destruct (mapM (rent_comparison_row _ _) _ _)
    as [s2 [e | comparison_data]] eqn:Hcrows; [discriminate|].
  repeat step; try discriminate.
  intros [= <- <-]. exists overview, comparison.
  split; [reflexivity|]. split; [reflexivity|]. cbn [overview_by_unit_type
    rent_comparison_by_bedrooms]. split.
  - eapply extends_of_returns; [|eapply mapM_returns, Hrows].
    intros ? ? ? ?. apply overview_row_extends.
  - eapply extends_of_returns; [|eapply mapM_returns, Hcrows].
    intros ? ? ? ?. apply rent_comparison_row_extends.
Qed.

Lemma report_rows_extend_query_records_witness :
  exists log' r d c,
    get_property_vs_competition_analysis Sample.settings Scenario.oak_court
      "Oak Court" [] = (log', inr r)
    /\ overview_by_unit_type r = [d]
    /\ Shape.extends Shape.overview_keys Sample.studio_row d
    /\ rent_comparison_by_bedrooms r = [c]
    /\ Shape.extends Shape.comparison_keys Scenario.studio_beds c.
Proof.
  assert (Hok : match snd (get_property_vs_competition_analysis
                             Sample.settings Scenario.oak_court "Oak Court" [])
                with
                | inr _ => true
                | inl _ => false
                end = true) by (vm_compute; reflexivity).
  destruct (get_property_vs_competition_analysis Sample.settings
              Scenario.oak_court "Oak Court" []) as [log' [e | r]] eqn:Hrun;
    [discriminate Hok|].
  destruct (report_rows_extend_query_records _ _ _ _ _ _ Hrun)
    as (overview & comparison & Ho & Hc & Hrows & Hcrows).
  injection Ho as <-. injection Hc as <-. cbn [records] in Hrows, Hcrows.
  apply Forall2_cons_inv_l in Hrows as (d & ds & Hd & Hds & Hdata).
  apply Forall2_nil_inv_l in Hds as ->.
  apply Forall2_cons_inv_l in Hcrows as (c & cs & Hcd & Hcds & Hcdata).
  apply Forall2_nil_inv_l in Hcds as ->.
  exists log', r, d, c. auto.
Defined.

(** ** The fallback of the rent comparison *)

(** What the mock assignments of a rent-comparison row leave in [row_dict]
    when they all succeed. *)
Lemma comparison_mock_returns (row d : row) (l : Log) s' :
  comparison_mock row (d, l) = (s', inr tt) ->
  exists avg low high per_sqft,
    Shape.scaled row "avg_our_rent" 1.05 int_ avg
    /\ Shape.scaled row "min_our_rent" 0.95 int_ low
    /\ Shape.scaled row "max_our_rent" 1.15 int_ high
    /\ Shape.scaled row "avg_our_rent_per_sqft" 1.05
         (fun s => round_ s 2) per_sqft
    /\ s' = (<["rent_gap_pct" := VFloat (-4.8)]>
              (<["comp_count" := VInt 25]>
                (<["avg_market_rent_per_sqft" := per_sqft]>
                  (<["max_market_rent" := high]>
                    (<["min_market_rent" := low]>
                      (<["avg_market_rent" := avg]> d))))), l).
Proof.
  unfold comparison_mock, setitem, Shape.scaled. unfold_monad.
  destruct (getitem row "avg_our_rent") as [e | x1] eqn:H1; [discriminate|].
  destruct (mul x1 (VFloat 1.05)) as [e | s1] eqn:Hs1; [discriminate|].
  destruct (int_ s1) as [e | avg] eqn:Hv1; [discriminate|]. cbn [fst snd].
  destruct (getitem row "min_our_rent") as [e | x2] eqn:H2; [discriminate|].
  destruct (mul x2 (VFloat 0.95)) as [e | s2] eqn:Hs2; [discriminate|].
  destruct (int_ s2) as [e | low] eqn:Hv2; [discriminate|]. cbn [fst snd].
  destruct (getitem row "max_our_rent") as [e | x3] eqn:H3; [discriminate|].
  destruct (mul x3 (VFloat 1.15)) as [e | s3] eqn:Hs3; [discriminate|].
  destruct (int_ s3) as [e | high] eqn:Hv3; [discriminate|]. cbn [fst snd].
  destruct (getitem row "avg_our_rent_per_sqft") as [e | x4] eqn:H4;
    [discriminate|].
  destruct (mul x4 (VFloat 1.05)) as [e | s4] eqn:Hs4; [discriminate|].
  destruct (round_ s4 2) as [e | per_sqft] eqn:Hv4; [discriminate|].
  cbn [fst snd]. intros [= <-].
  exists avg, low, high, per_sqft.
  split; [eauto 6 using getitem_inr|]. split; [eauto 6 using getitem_inr|].
  split; [eauto 6 using getitem_inr|]. split; [eauto 6 using getitem_inr|].
  reflexivity.
Qed.

(** Whether the mock assignments return or raise depends on the row alone,
    not on the state they are run in. *)
Lemma comparison_mock_outcome (row : row) (s1 s2 : Py.row * Log) :
  snd (comparison_mock row s1) = snd (comparison_mock row s2).
Proof.
  unfold comparison_mock, setitem. unfold_monad.
  repeat step; reflexivity.
Qed.

(** A rent-comparison row whose enrichment found nothing, or failed, is the
    outcome of the mock assignments on the row itself. *)
Lemma comparison_row_falls_back settings self (row : row) log bed text :
  row !! "bed" = Some bed ->
  (forall l : Log, bed_text bed l = (l, inr text)) ->
  no_market_data
    (client self
       (BedroomEnrichment (get_competition_table settings self)
          (comp_conditions text))) ->
  exists l0 s' r,
    comparison_mock row (row, l0) = (s', r)
    /\ exists l1,
       rent_comparison_row settings self row log
         = (l1, match r with inr _ => inr (fst s') | inl e => inl e end).
Proof.
  intros Hbed Htext Hdata.
  unfold rent_comparison_row. cbv zeta.
  unfold bind at 1, lift at 1. rewrite (getitem_Some _ _ _ Hbed).
  unfold bind at 1. rewrite Htext.
  unfold_monad. unfold with_row_dict.
  destruct (client self _) as [e | df] eqn:Hq.
  - cbn [fst snd].
    destruct (comparison_mock row (row, log ++ _)) as [s' r] eqn:Hmock.
    eexists _, s', r. split; [exact Hmock|].
    destruct r as [e' | []]; eauto.
  - destruct (has_comps_no_market_data (Py.row * Log) df (row, log) Hdata)
      as [Hf | [e Hf]]; unfold_monad; rewrite Hf.
    + destruct (comparison_mock row (row, log)) as [s' r] eqn:Hmock.
      eexists _, s', r. split; [exact Hmock|].
      destruct r as [e' | []]; cbn [fst snd]; eauto.
      match goal with
      | |- context [comparison_mock row (s'.1, ?l)] =>
          pose proof (comparison_mock_outcome row (row, log) (s'.1, l))
            as Hagain;
          rewrite Hmock in Hagain; revert Hagain;
          destruct (comparison_mock row (s'.1, l)) as [s'' r']
      end.
      simpl. intros <-. eauto.
    + cbn [fst snd].
      destruct (comparison_mock row (row, log ++ _)) as [s' r] eqn:Hmock.
      eexists _, s', r. split; [exact Hmock|].
      destruct r as [e' | []]; eauto.
Qed.

(** X17: in the rent comparison by bedrooms, a row whose enrichment query
    raises, or returns no record with a positive comp count, is returned
    with the mock figures: avg_market_rent = int(avg_our_rent * 1.05),
    min_market_rent = int(min_our_rent * 0.95), max_market_rent =
    int(max_our_rent * 1.15), avg_market_rent_per_sqft =
    round(avg_our_rent_per_sqft * 1.05, 2), comp_count = 25 and rent_gap_pct
    = -4.8.  The loop body does return that row when the four figures of the
    grouped query are floats and the three scaled rents are finite. *)
Theorem comparison_fallback_values settings self (row : row) bed text :
  row !! "bed" = Some bed ->
  (forall l : Log, bed_text bed l = (l, inr text)) ->
  no_market_data
    (client self
       (BedroomEnrichment (get_competition_table settings self)
          (comp_conditions text))) ->
  (forall log log' d,
      rent_comparison_row settings self row log = (log', inr d) ->
      Shape.carries_comparison_mock row d)
  /\ (forall log a b c p n1 n2 n3,
        row !! "avg_our_rent" = Some (VFloat a) ->
        row !! "min_our_rent" = Some (VFloat b) ->
        row !! "max_our_rent" = Some (VFloat c) ->
        row !! "avg_our_rent_per_sqft" = Some (VFloat p) ->
        int_of_float (a * 1.05) = inr n1 ->
        int_of_float (b * 0.95) = inr n2 ->
        int_of_float (c * 1.15) = inr n3 ->
        exists log',
          rent_comparison_row settings self row log
            = (log',
               inr (<["rent_gap_pct" := VFloat (-4.8)]>
                     (<["comp_count" := VInt 25]>
                       (<["avg_market_rent_per_sqft" :=
                            VFloat (round_float (p * 1.05) 2)]>
                         (<["max_market_rent" := VInt n3]>
                           (<["min_market_rent" := VInt n2]>
                             (<["avg_market_rent" := VInt n1]> row)))))))).
Proof.
  intros Hbed Htext Hdata. split.
  - intros log log' d Hrun.
    destruct (comparison_row_falls_back settings self row log bed text
                Hbed Htext Hdata) as (l0 & s' & r & Hmock & l1 & Hrow).
    rewrite Hrun in Hrow. destruct r as [e | []]; [discriminate|].
    injection Hrow as -> ->.
    apply comparison_mock_returns in Hmock
      as (avg & low & high & per_sqft & H1 & H2 & H3 & H4 & ->).
    exists avg, low, high, per_sqft. cbn [fst].
    split; [exact H1|]. split.
    { rewrite !lookup_insert_ne by discriminate. apply lookup_insert_eq. }
    split; [exact H2|]. split.
    { rewrite !lookup_insert_ne by discriminate. apply lookup_insert_eq. }
    split; [exact H3|]. split.
    { rewrite !lookup_insert_ne by discriminate. apply lookup_insert_eq. }
    split; [exact H4|]. split.
    { rewrite !lookup_insert_ne by discriminate. apply lookup_insert_eq. }
    split.
    { rewrite lookup_insert_ne by discriminate. apply lookup_insert_eq. }
    apply lookup_insert_eq.
  - intros log a b c p n1 n2 n3 Ha Hb Hc Hp Hn1 Hn2 Hn3.
    destruct (comparison_row_falls_back settings self row log bed text
                Hbed Htext Hdata) as (l0 & s' & r & Hmock & l1 & Hrow).
    exists l1. rewrite Hrow.
    unfold comparison_mock, setitem in Hmock. unfold_monad.
    rewrite (getitem_Some _ _ _ Ha), (getitem_Some _ _ _ Hb),
      (getitem_Some _ _ _ Hc), (getitem_Some _ _ _ Hp) in Hmock.
    rewrite !mul_floats in Hmock. cbn [int_ round_] in Hmock.
    rewrite Hn1 in Hmock. cbn [fst snd] in Hmock.
    rewrite Hn2 in Hmock. cbn [fst snd] in Hmock.
    rewrite Hn3 in Hmock. cbn [fst snd] in Hmock.
    now injection Hmock as <- <-.
Qed.

Lemma comparison_fallback_values_witness :
  exists log',
    rent_comparison_row Sample.settings Scenario.oak_court
      Scenario.studio_beds []
      = (log',
         inr (<["rent_gap_pct" := VFloat (-4.8)]>
               (<["comp_count" := VInt 25]>
                 (<["avg_market_rent_per_sqft" := VFloat 2.1]>
                   (<["max_market_rent" := VInt 1035]>
                     (<["min_market_rent" := VInt 855]>
                       (<["avg_market_rent" := VInt 945]>
                          Scenario.studio_beds))))))).
Proof.
  assert (Hnone : no_market_data
            (client Scenario.oak_court
               (BedroomEnrichment
                  (get_competition_table Sample.settings Scenario.oak_court)
                  (comp_conditions "Studio")))).
  { vm_compute. repeat constructor. intros (v & [= <-] & [=]). }
  destruct (comparison_fallback_values Sample.settings Scenario.oak_court
              Scenario.studio_beds (VFloat 0) "Studio"
              eq_refl (fun l => eq_refl) Hnone) as (_ & Hreturns).
  apply (Hreturns [] 900%float 900%float 900%float 2%float 945 855 1035);
    vm_compute; reflexivity.
Defined.
